(** * EnergyTrendAnalysis: quarter gate, download retry and wide-to-long reshaping

    A shallow embedding of [EnergyTrendAnalysis.py].  Python text is a
    [string] whose characters are code points below 256; the HTTP layer, the
    local file system and DBFS are an explicit world threaded through a
    state-and-exception monad; a Spark DataFrame is a list of column names
    with a list of rows of cells.  Calls to [logging] change nothing that the
    program reads back and are left out. *)

From Stdlib Require Import ZArith Ascii String List Bool Lia DecimalString.
From stdpp Require Import base gmap strings list fin_maps.

Local Open Scope Z_scope.

(** ** Characters and text, as Python and the JVM classify them *)

Module Chars.

Definition code (c : ascii) : Z := Z.of_N (N_of_ascii c).

(** [\d] of Python's [re] on [str]: the decimal digits. *)
Definition re_digit (c : ascii) : bool := (48 <=? code c) && (code c <=? 57).

(** [str.isspace], also [\s] of Python's [re] and what [str.strip] removes. *)
Definition py_space (c : ascii) : bool :=
  let n := code c in
  ((9 <=? n) && (n <=? 13)) || ((28 <=? n) && (n <=? 32))
  || (n =? 133) || (n =? 160).

(** [str.isdigit] on one character: the decimal digits and the superscripts
    two, three and one. *)
Definition py_isdigit (c : ascii) : bool :=
  re_digit c || (code c =? 178) || (code c =? 179) || (code c =? 185).

(** [.] of [re] without DOTALL. *)
Definition re_dot (c : ascii) : bool := negb (code c =? 10).

(** [\s] and [\d] of [java.util.regex], used by Spark's [regexp_replace]. *)
Definition java_space (c : ascii) : bool :=
  let n := code c in ((9 <=? n) && (n <=? 13)) || (n =? 32).
Definition java_digit (c : ascii) : bool := re_digit c.

(** [str.lower] on one character. *)
Definition py_lower (c : ascii) : ascii :=
  let n := code c in
  if ((65 <=? n) && (n <=? 90))
     || ((192 <=? n) && (n <=? 222) && negb (n =? 215))
  then ascii_of_N (Z.to_N (n + 32)) else c.

End Chars.

Module Text.
Import Chars.

Fixpoint map (f : ascii -> ascii) (s : string) : string :=
  match s with
  | EmptyString => EmptyString
  | String c s' => String (f c) (map f s')
  end.

Fixpoint forallb (p : ascii -> bool) (s : string) : bool :=
  match s with
  | EmptyString => true
  | String c s' => p c && forallb p s'
  end.

Fixpoint drop_while (p : ascii -> bool) (s : string) : string :=
  match s with
  | EmptyString => EmptyString
  | String c s' => if p c then drop_while p s' else s
  end.

(** Removes the characters satisfying [p] at the end of [s]. *)
Fixpoint drop_while_end (p : ascii -> bool) (s : string) : string :=
  match s with
  | EmptyString => EmptyString
  | String c s' =>
      match drop_while_end p s' with
      | EmptyString => if p c then EmptyString else String c EmptyString
      | t => String c t
      end
  end.

(** [s.strip()] *)
Definition strip (s : string) : string :=
  drop_while_end py_space (drop_while py_space s).

(** [s.lower()] *)
Definition lower (s : string) : string := map py_lower s.

(** [s.isdigit()] *)
Definition isdigit (s : string) : bool :=
  match s with
  | EmptyString => false
  | _ => forallb py_isdigit s
  end.

(** [s.startswith(p)] *)
Definition startswith (s p : string) : bool := String.prefix p s.

(** [needle in hay] *)
Fixpoint contains (needle hay : string) : bool :=
  String.prefix needle hay
  || match hay with
     | EmptyString => false
     | String _ hay' => contains needle hay'
     end.

(** [s.replace(old, new)] for a non-empty [old]: occurrences are replaced
    from the left and do not overlap.  [skip] counts the characters of an
    occurrence that are still to be passed over. *)
Fixpoint replace_go (old new : string) (skip : nat) (s : string) : string :=
  match s with
  | EmptyString => EmptyString
  | String c s' =>
      match skip with
      | S k => replace_go old new k s'
      | O =>
          if String.prefix old s
          then new +:+ replace_go old new (Nat.pred (String.length old)) s'
          else String c (replace_go old new O s')
      end
  end.

Definition replace (old new s : string) : string := replace_go old new O s.

(** [s.split(sep)] for a one-character separator: never empty, and empty
    pieces are kept. *)
Fixpoint split (sep : ascii) (s : string) : list string :=
  match s with
  | EmptyString => [EmptyString]
  | String c s' =>
      if Ascii.eqb c sep then EmptyString :: split sep s'
      else match split sep s' with
           | p :: ps => String c p :: ps
           | [] => [String c EmptyString]
           end
  end.

(** [int(s)] for a string of decimal digits; [None] stands for the
    [ValueError] of any other text. *)
Fixpoint int_go (acc : Z) (s : string) : option Z :=
  match s with
  | EmptyString => Some acc
  | String c s' =>
      if re_digit c then int_go (10 * acc + (code c - 48)) s' else None
  end.

Definition int (s : string) : option Z :=
  match s with
  | EmptyString => None
  | _ => int_go 0 s
  end.

(** [s.endswith(suffix)] *)
Definition endswith (s suffix : string) : bool :=
  String.prefix (String.rev suffix) (String.rev s).

End Text.

(** ** Python exceptions and results *)

Inductive exn : Type :=
| ConnectionError            (* requests.exceptions.ConnectionError *)
| RequestTimeout             (* the timeout of requests.exceptions *)
| HTTPError (status : Z)     (* requests.exceptions.HTTPError, from raise_for_status *)
| ValueError (msg : string)
| OSError (msg : string)
| OverflowError (msg : string)
| AnalysisException (msg : string)
| Exception (msg : string).

(** [isinstance(e, requests.exceptions.RequestException)]: in the requests
    library the connection error, the timeout and HTTPError all derive from it. *)
Definition is_RequestException (e : exn) : bool :=
  match e with
  | ConnectionError | RequestTimeout | HTTPError _ => true
  | _ => false
  end.

Inductive result (A : Type) : Type :=
| Ok (a : A)
| Raise (e : exn).
Arguments Ok {A} a.
Arguments Raise {A} e.

(** ** Regular expressions: the fragment the program uses

    A backtracking matcher in continuation-passing style, trying the
    alternatives in the order of Python's [re] (greedy repetition first,
    left alternative first).  Groups do not nest in the patterns of the
    program, so a group is recorded when it closes. *)

Module Regex.

Inductive regex : Type :=
| Eps
| Chr (c : ascii)
| Cls (p : ascii -> bool)
| Rep (p : ascii -> bool) (lo hi : nat)
| Star (p : ascii -> bool)
| Cat (r1 r2 : regex)
| Alt (r1 r2 : regex)
| Grp (r : regex).

Fixpoint lit (s : string) : regex :=
  match s with
  | EmptyString => Eps
  | String c s' => Cat (Chr c) (lit s')
  end.

Definition Plus (p : ascii -> bool) : regex := Cat (Cls p) (Star p).

Fixpoint star {A} (p : ascii -> bool) (s : string)
    (k : string -> option A) : option A :=
  match s with
  | String c s' =>
      if p c
      then match star p s' k with Some x => Some x | None => k s end
      else k s
  | EmptyString => k s
  end.

Fixpoint rep {A} (p : ascii -> bool) (lo hi : nat) (s : string)
    (k : string -> option A) : option A :=
  let stop := match lo with O => k s | S _ => None end in
  match hi with
  | O => stop
  | S hi' =>
      match s with
      | String c s' =>
          if p c
          then match rep p (Nat.pred lo) hi' s' k with
               | Some x => Some x
               | None => stop
               end
          else stop
      | EmptyString => stop
      end
  end.

(** The text [s] lost on the way to its suffix [s']. *)
Definition taken (s s' : string) : string :=
  String.substring 0 (String.length s - String.length s') s.

Fixpoint run {A} (r : regex) (s : string) (caps : list string)
    (k : list string -> string -> option A) : option A :=
  match r with
  | Eps => k caps s
  | Chr c =>
      match s with
      | String c' s' => if Ascii.eqb c c' then k caps s' else None
      | EmptyString => None
      end
  | Cls p =>
      match s with
      | String c' s' => if p c' then k caps s' else None
      | EmptyString => None
      end
  | Rep p lo hi => rep p lo hi s (k caps)
  | Star p => star p s (k caps)
  | Cat r1 r2 => run r1 s caps (fun caps' s' => run r2 s' caps' k)
  | Alt r1 r2 =>
      match run r1 s caps k with
      | Some x => Some x
      | None => run r2 s caps k
      end
  | Grp r1 => run r1 s caps (fun caps' s' => k (caps' ++ [taken s s']) s')
  end.

(** [re.match(r, s)]: the groups and the text after the match. *)
Definition re_match (r : regex) (s : string) : option (list string * string) :=
  run r s [] (fun caps rest => Some (caps, rest)).

(** [re.sub(r, repl, s)] for a replacement without group references.
    [skip] counts the characters of the current match still to be dropped. *)
Fixpoint sub_go (r : regex) (repl : string) (skip : nat) (s : string) : string :=
  let copy := match s with
              | EmptyString => EmptyString
              | String c s' => String c (sub_go r repl O s')
              end in
  match skip with
  | S n =>
      match s with
      | EmptyString => EmptyString
      | String _ s' => sub_go r repl n s'
      end
  | O =>
      match re_match r s with
      | None => copy
      | Some (_, rest) =>
          match (String.length s - String.length rest)%nat with
          | O => repl +:+ copy
          | S n =>
              repl +:+ match s with
                       | EmptyString => EmptyString
                       | String _ s' => sub_go r repl n s'
                       end
          end
      end
  end.

Definition re_sub (r : regex) (repl s : string) : string := sub_go r repl O s.

(** The language of a pattern: the text a match consumes, with the groups
    it records. *)
Inductive matches : regex -> string -> list string -> Prop :=
| m_eps : matches Eps EmptyString []
| m_chr c : matches (Chr c) (String c EmptyString) []
| m_cls p c : p c = true -> matches (Cls p) (String c EmptyString) []
| m_rep p lo hi t :
    Text.forallb p t = true -> (lo <= String.length t <= hi)%nat ->
    matches (Rep p lo hi) t []
| m_star p t : Text.forallb p t = true -> matches (Star p) t []
| m_cat r1 r2 t1 t2 g1 g2 :
    matches r1 t1 g1 -> matches r2 t2 g2 ->
    matches (Cat r1 r2) (t1 +:+ t2) (g1 ++ g2)
| m_alt_l r1 r2 t g : matches r1 t g -> matches (Alt r1 r2) t g
| m_alt_r r1 r2 t g : matches r2 t g -> matches (Alt r1 r2) t g
| m_grp r t g : matches r t g -> matches (Grp r) t (g ++ [t]).

End Regex.

(** ** The quarter gate: labels and their order *)

Module Quarter.
Import Chars Regex.

(** [st|nd|rd|th] *)
Definition suffix_re : regex :=
  Alt (lit "st") (Alt (lit "nd") (Alt (lit "rd") (lit "th"))).

(** [r'(\d{4}) (\d{1,2})(st|nd|rd|th) quarter'] *)
Definition quarter_re : regex :=
  Cat (Grp (Rep re_digit 4 4))
    (Cat (Chr " ")
       (Cat (Grp (Rep re_digit 1 2))
          (Cat (Grp suffix_re) (lit " quarter")))).

(** [r'^\d{4} \d{1,2}(st|nd|rd|th) quarter'], used with [re.match], which
    anchors at the start anyway. *)
Definition quarter_column_re : regex :=
  Cat (Rep re_digit 4 4)
    (Cat (Chr " ")
       (Cat (Rep re_digit 1 2) (Cat (Grp suffix_re) (lit " quarter")))).

(** [r'\s*\[.*\]'] *)
Definition annotation_re : regex :=
  Cat (Star py_space) (Cat (Chr "[") (Cat (Star re_dot) (Chr "]"))).

Definition invalid_quarter (quarter_str : string) : exn :=
  ValueError ("Invalid quarter format: " +:+ quarter_str).

(** [quarter_to_tuple] *)
Definition quarter_to_tuple (quarter_str : string) : result (Z * Z) :=
  match re_match quarter_re quarter_str with
  | Some (groups, _) =>
      match Text.int (nth 0 groups EmptyString), Text.int (nth 1 groups EmptyString) with
      | Some year, Some quarter_number => Ok (year, quarter_number)
      | _, _ => Raise (ValueError "invalid literal for int()")
      end
  | None => Raise (invalid_quarter quarter_str)
  end.

(** Python's order on pairs of integers: [a > b]. *)
Definition tuple_gt (a b : Z * Z) : bool :=
  (fst b <? fst a) || ((fst a =? fst b) && (snd b <? snd a)).

Definition tuple_le (a b : Z * Z) : Prop :=
  fst a < fst b \/ (fst a = fst b /\ snd a <= snd b).

(** [max(items, key=key)]: the first item whose key is greatest; the empty
    sequence and a failing key raise. *)
Fixpoint max_loop {A K} (key : A -> result K) (gt : K -> K -> bool)
    (maxitem : A) (maxval : K) (items : list A) : result A :=
  match items with
  | [] => Ok maxitem
  | item :: rest =>
      match key item with
      | Raise e => Raise e
      | Ok val =>
          if gt val maxval then max_loop key gt item val rest
          else max_loop key gt maxitem maxval rest
      end
  end.

Definition py_max {A K} (key : A -> result K) (gt : K -> K -> bool)
    (items : list A) : result A :=
  match items with
  | [] => Raise (ValueError "max() arg is an empty sequence")
  | first :: rest =>
      match key first with
      | Raise e => Raise e
      | Ok val => max_loop key gt first val rest
      end
  end.

(** [df.columns.str.strip().str.replace('\n', ' ', regex=False)] *)
Definition normalize_header (columns : list string) : list string :=
  List.map (fun c => Text.replace (String "010" EmptyString) " " (Text.strip c)) columns.

(** [[col for col in df.columns if re.match(..., col)]] *)
Definition quarter_columns (columns : list string) : list string :=
  List.filter
    (fun col => match re_match quarter_column_re col with
                | Some _ => true
                | None => false
                end)
    columns.

(** [lambda x: quarter_to_tuple(re.sub(r'\s*\[.*\]', '', x))] *)
Definition column_key (x : string) : result (Z * Z) :=
  quarter_to_tuple (re_sub annotation_re EmptyString x).

Definition latest_quarter_in_file (columns : list string) : result string :=
  py_max column_key tuple_gt (quarter_columns columns).

(** *** Labels, in words *)

Definition is_suffix (sfx : string) : Prop :=
  sfx = "st" \/ sfx = "nd" \/ sfx = "rd" \/ sfx = "th".

Definition label_text (ys ns sfx : string) : string :=
  ys +:+ " " +:+ ns +:+ sfx +:+ " quarter".

(** Four digits of year, one or two digits of quarter, an ordinal suffix. *)
Definition label_shape (ys ns sfx : string) : Prop :=
  String.length ys = 4%nat /\ Text.forallb re_digit ys = true
  /\ (1 <= String.length ns <= 2)%nat /\ Text.forallb re_digit ns = true
  /\ is_suffix sfx.

(** [s] begins with a label that reads as year [y], quarter [n]. *)
Definition quarter_prefix (s : string) (y n : Z) : Prop :=
  exists ys ns sfx rest,
    s = label_text ys ns sfx +:+ rest /\ label_shape ys ns sfx
    /\ Text.int ys = Some y /\ Text.int ns = Some n.

(** The valid labels of the specification: the whole text is a label and
    the quarter is one of 1, 2, 3, 4. *)
Definition valid_label (s : string) (y n : Z) : Prop :=
  exists ys q sfx,
    s = label_text ys (String q EmptyString) sfx
    /\ String.length ys = 4%nat /\ Text.forallb re_digit ys = true
    /\ is_suffix sfx
    /\ Text.int ys = Some y /\ Text.int (String q EmptyString) = Some n
    /\ 1 <= n <= 4.

(** A text without an opening bracket that does not end in white space:
    no annotation can start inside it. *)
Fixpoint solid (t : string) : bool :=
  match t with
  | EmptyString => false
  | String c t' =>
      negb (Ascii.eqb c "[")
      && match t' with
         | EmptyString => negb (py_space c)
         | String _ _ => solid t'
         end
  end.

End Quarter.

(** ** The world of one run and the monad of effects *)

(** What [pd.read_excel(path, sheet_name='Quarter', header=4)] finds in a file:
    the header row of the sheet named Quarter, or no such sheet. *)
Record file : Type := Workbook { quarter_header : option (list string) }.

(** The answer to [requests.get(url, stream=True, timeout=10)]. *)
Inductive get_outcome : Type :=
| GetRaises (e : exn)
| GetResponse (status : Z) (body : file).

(** What the environment does during one call of the download body.  A
    failure while the answer is saved comes with what it leaves at the path:
    nothing when [open] itself fails, the content written so far when a
    later chunk fails. *)
Record attempt : Type := {
  get : get_outcome;
  write_error : option (exn * option file);
  cp_error : option exn          (* dbutils.fs.cp fails *)
}.

(** A fetched listing page, as BeautifulSoup presents it. *)
Record page : Type := {
  status_code : Z;
  texts : list string;           (* the text nodes *)
  hrefs : list string            (* href of every <a href=...>, in document order *)
}.

Record world : Type := {
  net : nat -> attempt;          (* behaviour of the n-th download call *)
  calls : nat;                   (* download calls made so far *)
  requested : list string;       (* URLs asked for, oldest first *)
  slept : list Z;                (* arguments of time.sleep, oldest first *)
  local_fs : gmap string file;
  dbfs : gmap string file;
  listing : string -> result page  (* requests.get(url) for a listing page *)
}.

Module Monad.

Definition M (A : Type) : Type := world -> result A * world.

Definition ret {A} (a : A) : M A := fun w => (Ok a, w).

Definition bind {A B} (m : M A) (f : A -> M B) : M B :=
  fun w => match m w with
           | (Ok a, w') => f a w'
           | (Raise e, w') => (Raise e, w')
           end.

Definition raise {A} (e : exn) : M A := fun w => (Raise e, w).

(** [try: body  except Exception as e: handler(e)] *)
Definition try_except {A} (body : M A) (handler : exn -> M A) : M A :=
  fun w => match body w with
           | (Ok a, w') => (Ok a, w')
           | (Raise e, w') => handler e w'
           end.

Definition lift {A} (r : result A) : M A := fun w => (r, w).

Definition modify (f : world -> world) : M unit := fun w => (Ok tt, f w).

End Monad.

Notation "x <- c1 ; c2" := (Monad.bind c1 (fun x => c2))
  (at level 20, c1 at level 100, c2 at level 200, only parsing).
Notation "'_' <- c1 ; c2" := (Monad.bind c1 (fun _ => c2))
  (at level 20, c1 at level 100, c2 at level 200, only parsing).

Module IO.
Import Monad.

Definition next_attempt (url : string) : M attempt :=
  fun w =>
    (Ok (net w (calls w)),
     {| net := net w; calls := S (calls w); requested := requested w ++ [url];
        slept := slept w; local_fs := local_fs w; dbfs := dbfs w;
        listing := listing w |}).

(** The greatest whole number of seconds that [time.sleep] can turn into the
    nanoseconds of its 64-bit clock. *)
Definition sleep_max : Z := 9223372036.

(** [time.sleep(seconds)] for a whole number of seconds: a length that does
    not fit the clock is refused, and so is a negative length. *)
Definition sleep (seconds : Z) : M unit :=
  if (seconds <? - sleep_max) || (sleep_max <? seconds)
  then raise (OverflowError "timestamp too large to convert to C _PyTime_t")
  else if seconds <? 0
  then raise (ValueError "sleep length must be non-negative")
  else
    modify (fun w =>
      {| net := net w; calls := calls w; requested := requested w;
         slept := slept w ++ [seconds]; local_fs := local_fs w; dbfs := dbfs w;
         listing := listing w |}).

Definition set_local_fs (fs : gmap string file) (w : world) : world :=
  {| net := net w; calls := calls w; requested := requested w;
     slept := slept w; local_fs := fs; dbfs := dbfs w; listing := listing w |}.

Definition set_dbfs (fs : gmap string file) (w : world) : world :=
  {| net := net w; calls := calls w; requested := requested w;
     slept := slept w; local_fs := local_fs w; dbfs := fs; listing := listing w |}.

(** [with open(path, 'wb') as file: ... file.write(chunk)] *)
Definition write_file (path : string) (body : file)
    (failure : option (exn * option file)) : M unit :=
  match failure with
  | Some (e, Some partial) =>
      fun w => (Raise e, set_local_fs (<[path := partial]> (local_fs w)) w)
  | Some (e, None) => raise e
  | None => modify (fun w => set_local_fs (<[path := body]> (local_fs w)) w)
  end.

(** [dbutils.fs.cp(f"file:{src}", dst)] *)
Definition dbutils_fs_cp (src dst : string) (failure : option exn) : M unit :=
  match failure with
  | Some e => raise e
  | None =>
      fun w => match local_fs w !! src with
               | Some body => (Ok tt, set_dbfs (<[dst := body]> (dbfs w)) w)
               | None => (Raise (Exception "java.io.FileNotFoundException"), w)
               end
  end.

(** [os.remove(path)] *)
Definition os_remove (path : string) : M unit :=
  fun w => match local_fs w !! path with
           | Some _ => (Ok tt, set_local_fs (delete path (local_fs w)) w)
           | None => (Raise (OSError "No such file or directory"), w)
           end.

(** [pd.read_excel(path, sheet_name='Quarter', header=4).columns] *)
Definition read_excel_columns (path : string) : M (list string) :=
  fun w => match local_fs w !! path with
           | Some (Workbook (Some header)) => (Ok header, w)
           | Some (Workbook None) =>
               (Raise (ValueError "Worksheet named 'Quarter' not found"), w)
           | None => (Raise (OSError "No such file or directory"), w)
           end.

(** [requests.get(url)] for the listing page. *)
Definition requests_get (url : string) : M page :=
  fun w => (listing w url, w).

End IO.

(** ** Acquisition: the retry decorator and the download primitive *)

Module Acquisition.
Import Monad IO.

Definition show_nat (n : nat) : string := NilEmpty.string_of_uint (Nat.to_uint n).

(** The [while retries < max_retries] loop of [wrapper]; [todo] is
    [max_retries - retries], so the loop is over when it reaches zero. *)
Fixpoint wrapper_loop {A} (func : M A) (max_retries : nat) (backoff : Z)
    (todo : nat) (current_delay : Z) : M A :=
  match todo with
  | O => raise (Exception ("Failed to complete after " +:+ show_nat max_retries
                             +:+ " retries."))
  | S todo' =>
      fun w =>
        match func w with
        | (Ok a, w') => (Ok a, w')
        | (Raise e, w') =>
            if is_RequestException e
            then (_ <- sleep current_delay ;
                  wrapper_loop func max_retries backoff todo'
                    (current_delay * backoff)) w'
            else (Raise e, w')
        end
  end.

(** [retry_request(max_retries, delay, backoff)(func)] *)
Definition retry_request {A} (max_retries : nat) (delay backoff : Z)
    (func : M A) : M A :=
  wrapper_loop func max_retries backoff max_retries delay.

(** [response.raise_for_status()] *)
Definition raise_for_status (status : Z) : M unit :=
  if (400 <=? status) && (status <? 600) then raise (HTTPError status) else ret tt.

(** The body of [download_excel_file], before decoration. *)
Definition download_excel_file_body (url dbfs_save_path file_name : string) : M unit :=
  try_except
    (let temp_save_path := "/tmp/" +:+ file_name in
     a <- next_attempt url ;
     match get a with
     | GetRaises e => raise e
     | GetResponse status body =>
         _ <- raise_for_status status ;
         _ <- write_file temp_save_path body (write_error a) ;
         let final_dbfs_path := dbfs_save_path +:+ "/" +:+ file_name in
         dbutils_fs_cp temp_save_path final_dbfs_path (cp_error a)
     end)
    (fun e => raise e).

(** [@retry_request(max_retries=3, delay=5, backoff=2) def download_excel_file] *)
Definition download_excel_file (url dbfs_save_path file_name : string) : M unit :=
  retry_request 3 5 2 (download_excel_file_body url dbfs_save_path file_name).

(** *** Worlds along a download *)

(** The call fails in a way the requests library reports: it raises a
    RequestException itself, or answers with a 4xx/5xx status, which
    [raise_for_status] turns into an HTTPError. *)
Definition request_failure (a : attempt) : bool :=
  match get a with
  | GetRaises e => is_RequestException e
  | GetResponse status _ => (400 <=? status) && (status <? 600)
  end.

(** The world after one more download call for [url]. *)
Definition asked (url : string) (w : world) : world :=
  {| net := net w; calls := S (calls w); requested := requested w ++ [url];
     slept := slept w; local_fs := local_fs w; dbfs := dbfs w;
     listing := listing w |}.

Definition rested (seconds : Z) (w : world) : world :=
  {| net := net w; calls := calls w; requested := requested w;
     slept := slept w ++ [seconds]; local_fs := local_fs w; dbfs := dbfs w;
     listing := listing w |}.

(** One more call of the decorated function fails with an exception of the
    requests library and is followed by a pause of [seconds]: the world goes
    from [w] to [w']. *)
Definition failed_attempt {A} (func : M A) (seconds : Z) (w w' : world) : Prop :=
  exists e w1,
    func w = (Raise e, w1) /\ is_RequestException e = true /\ w' = rested seconds w1.

(** A result that is not an exception of the requests library: a value, or
    an exception of another kind. *)
Definition settled {A} (r : result A) : Prop :=
  forall e, r = Raise e -> is_RequestException e = false.

(** The world after [k] failed calls, each followed by its pause. *)
Definition retried (url : string) (k : nat) (w : world) : world :=
  {| net := net w; calls := calls w + k; requested := requested w ++ repeat url k;
     slept := slept w ++ firstn k [5; 10; 20]; local_fs := local_fs w;
     dbfs := dbfs w; listing := listing w |}.

(** The world after three failed calls and their three pauses. *)
Definition gave_up (url : string) (w : world) : world :=
  {| net := net w; calls := calls w + 3; requested := requested w ++ [url; url; url];
     slept := slept w ++ [5; 10; 20]; local_fs := local_fs w; dbfs := dbfs w;
     listing := listing w |}.

End Acquisition.

(** ** The quarter gate and the page scanner *)

Module Gate.
Import Monad IO Acquisition Quarter.

(** The scratch copy of the gate: [f'/tmp/{file_name}']. *)
Definition scratch_path (file_name : string) : string := "/tmp/" +:+ file_name.

(** The world after one successful download through the gate. *)
Definition downloaded (url name : string) (body : file) (w : world) : world :=
  {| net := net w; calls := S (calls w); requested := requested w ++ [url];
     slept := slept w;
     local_fs := <[scratch_path name := body]> (local_fs w);
     dbfs := <[scratch_path name +:+ "/" +:+ name := body]> (dbfs w);
     listing := listing w |}.

(** [check_excel_for_latest_quarter] *)
Definition check_excel_for_latest_quarter
    (excel_url latest_quarter save_path file_name : string) : M (bool * string) :=
  try_except
    (let temp_excel_path := "/tmp/" +:+ file_name in
     _ <- download_excel_file excel_url temp_excel_path file_name ;
     df_columns <- read_excel_columns temp_excel_path ;
     let columns := normalize_header df_columns in
     let quarter_columns := quarter_columns columns in
     let normalized_latest_quarter := Text.strip latest_quarter in
     latest_quarter_in_file <- lift (py_max column_key tuple_gt quarter_columns) ;
     in_file <- lift (quarter_to_tuple latest_quarter_in_file) ;
     known <- lift (quarter_to_tuple normalized_latest_quarter) ;
     if tuple_gt in_file known
     then _ <- os_remove temp_excel_path ; ret (true, latest_quarter_in_file)
     else _ <- os_remove temp_excel_path ; ret (false, latest_quarter))
    (fun e => ret (false, latest_quarter)).

(** The [for link in soup.find_all('a', href=True)] loop with its [break]. *)
Fixpoint find_excel_link (links : list string) : option string :=
  match links with
  | [] => None
  | href :: rest =>
      if Text.contains ".xls" href || Text.contains ".xlsx" href
      then Some href
      else find_excel_link rest
  end.

(** [excel_link.split('/')[-1]] *)
Definition file_name_of (excel_link : string) : string :=
  List.last (Text.split "/" excel_link) EmptyString.

(** [if not excel_link.startswith('http'): excel_link = 'https://www.gov.uk' + excel_link] *)
Definition absolute_url (excel_link : string) : string :=
  if negb (Text.startswith excel_link "http")
  then "https://www.gov.uk" +:+ excel_link
  else excel_link.

(** [search_for_energy_trend] *)
Definition search_for_energy_trend
    (url search_term latest_quarter excel_save_path : string) : M unit :=
  try_except
    (response <- requests_get url ;
     if status_code response =? 200 then
       let matches :=
         List.filter
           (fun text => Text.contains (Text.lower search_term) (Text.lower text))
           (texts response) in
       match matches with
       | [] => ret tt
       | _ :: _ =>
           match find_excel_link (hrefs response) with
           | Some excel_link =>
               let file_name := file_name_of excel_link in
               let excel_link := absolute_url excel_link in
               r <- check_excel_for_latest_quarter excel_link latest_quarter
                      excel_save_path file_name ;
               let '(should_download, latest_quarter) := r in
               if should_download : bool
               then download_excel_file excel_link excel_save_path file_name
               else ret tt
           | None => ret tt
           end
       end
     else ret tt)
    (fun e => ret tt).

End Gate.

(** ** The reshaper: a table of named columns *)

Module Frame.

(** [\s*\[note\s*\d+\]], in the dialect of [java.util.regex]. *)
Definition note_re : Regex.regex :=
  Regex.Cat (Regex.Star Chars.java_space)
    (Regex.Cat (Regex.lit "[note")
       (Regex.Cat (Regex.Star Chars.java_space)
          (Regex.Cat (Regex.Plus Chars.java_digit) (Regex.Chr "]")))).

(** The loop body of [rename_columns]: the new name of one column. *)
Definition quarter_num (quarter : string) : option string :=
  if Text.contains "1st" quarter then Some "01"
  else if Text.contains "2nd" quarter then Some "02"
  else if Text.contains "3rd" quarter || Text.contains "3nd" quarter then Some "03"
  else if Text.contains "4th" quarter then Some "04"
  else None.

Definition clean_col_name (col_name : string) : string :=
  Text.strip
    (Text.replace "_" " "
       (Text.replace (String "010" EmptyString) " "
          (Text.replace (String "_" (String "010" EmptyString)) " " col_name))).

Definition new_col_name (col_name : string) : string :=
  let parts := Text.split " " (clean_col_name col_name) in
  match parts with
  | p0 :: p1 :: _ =>
      let year := Text.strip p0 in
      let quarter := Text.lower (Text.strip p1) in
      match quarter_num quarter with
      | Some quarter_num =>
          if Text.isdigit year then year +:+ quarter_num else col_name
      | None => col_name
      end
  | _ => col_name
  end.

(** *** Column names, in words *)

Definition newline : ascii := "010"%char.

(** A character that the cleaning of a name leaves alone and at which
    [split] does not cut. *)
Definition plain (c : ascii) : bool :=
  negb (Ascii.eqb c "_") && negb (Ascii.eqb c newline) && negb (Chars.py_space c).

Definition clean_tail (tail : string) : string :=
  Text.drop_while_end Chars.py_space
    (Text.replace "_" " "
       (Text.replace (String newline EmptyString) " "
          (Text.replace (String "_" (String newline EmptyString)) " " tail))).

(** The test of the loop body passes on [col_name], and gives [target]. *)
Definition renamed_to (col_name target : string) : Prop :=
  exists p0 p1 rest qq,
    Text.split " " (clean_col_name col_name) = p0 :: p1 :: rest
    /\ Text.isdigit (Text.strip p0) = true
    /\ quarter_num (Text.lower (Text.strip p1)) = Some qq
    /\ target = Text.strip p0 +:+ qq.

Definition ordinal (ord qq : string) : Prop :=
  In (ord, qq) [("1st", "01"); ("2nd", "02"); ("3rd", "03"); ("4th", "04")].

(** [pat] occurs in [s]. *)
Definition occurs (pat s : string) : Prop :=
  exists pre post, s = pre +:+ pat +:+ post.

(** The two digits for the text [q] of a second part: the first of 1st, 2nd,
    3rd or 3nd, 4th that occurs somewhere in [q] decides. *)
Definition ordinal_inside (q qq : string) : Prop :=
  (occurs "1st" q /\ qq = "01")
  \/ (~ occurs "1st" q /\ occurs "2nd" q /\ qq = "02")
  \/ (~ occurs "1st" q /\ ~ occurs "2nd" q
      /\ (occurs "3rd" q \/ occurs "3nd" q) /\ qq = "03")
  \/ (~ occurs "1st" q /\ ~ occurs "2nd" q /\ ~ occurs "3rd" q /\ ~ occurs "3nd" q
      /\ occurs "4th" q /\ qq = "04").

(** The name with a blank for every underscore and every line feed, and one
    blank for an underscore with the line feed after it. *)
Fixpoint blanked (s : string) : string :=
  match s with
  | EmptyString => EmptyString
  | String c s' =>
      if Ascii.eqb c "_"
      then match s' with
           | String c' s'' =>
               if Ascii.eqb c' newline then String " " (blanked s'')
               else String " " (blanked s')
           | EmptyString => String " " EmptyString
           end
      else if Ascii.eqb c newline then String " " (blanked s')
      else String c (blanked s')
  end.

(** The rule of the renaming, in words: the name, blanked and stripped, has
    at least two parts between single blanks; the first part, stripped, is
    all digits; the second part, stripped and in lower case, has an ordinal
    inside; the new name is the first part followed by the two digits of
    that ordinal. *)
Definition quarter_rule (col_name target : string) : Prop :=
  exists p0 p1 rest qq,
    Text.split " " (Text.strip (blanked col_name)) = p0 :: p1 :: rest
    /\ Text.isdigit (Text.strip p0) = true
    /\ ordinal_inside (Text.lower (Text.strip p1)) qq
    /\ target = Text.strip p0 +:+ qq.

(** The shape of the specification: a four-digit year, an ordinal, the word
    quarter. *)
Definition quarter_column_name (s : string) : Prop :=
  exists ys ord qq,
    String.length ys = 4%nat /\ Text.forallb Chars.re_digit ys = true
    /\ ordinal ord qq
    /\ s = ys +:+ " " +:+ ord +:+ " quarter".

(** A name through a sequence of [withColumnRenamed]. *)
Definition apply_all (pairs : list (string * string)) (x : string) : string :=
  fold_left (fun x on => if String.eqb x (fst on) then snd on else x) pairs x.

(** The prefix the row id selects, with its separator. *)
Definition bucket_prefix (id : Z) : string :=
  if existsb (Z.eqb id) [1; 2; 3] then "Indigenous production_"
  else if existsb (Z.eqb id) [5; 6] then "Imports_"
  else if existsb (Z.eqb id) [8; 9] then "Exports_"
  else EmptyString.

(** The text before the first [sep] of [s]; all of [s] when there is none. *)
Fixpoint before (sep : ascii) (s : string) : string :=
  match s with
  | EmptyString => EmptyString
  | String c s' => if Ascii.eqb c sep then EmptyString else String c (before sep s')
  end.

Section Cells.

(** The numbers of the sheet are doubles; their arithmetic stays abstract.

    A cell carries its own kind and a column has no declared type.  The
    tables meant are those of a sheet with text or nothing in its category
    column and numbers of one type in its other columns: on them Spark casts
    nothing and its type checks ([unionByName], [stack]) pass, so neither is
    part of the operations below.  Column names are compared as Python
    compares them; Spark ignores the letter case, which makes no difference
    as long as the names of a table, those the notebook adds included,
    differ in more than that. *)
Context {value : Type} `{EqDecision value}.
Variable vadd : value -> value -> value.
Variable of_long : Z -> value.
Variable cast_double : string -> option value.
(** [monotonically_increasing_id()]: the id given to the row at a position. *)
Variable mono_id : nat -> Z.

Inductive cell : Type :=
| Null
| Str (s : string)
| Long (n : Z)
| Dbl (x : value).

#[export] Instance cell_eq_dec : EqDecision cell.
Proof. solve_decision. Defined.

(** A cell of a text column: a text, or null. *)
Definition text_cell (t : option string) : cell :=
  match t with
  | Some s => Str s
  | None => Null
  end.

Record DataFrame : Type := { columns : list string; rows : list (list cell) }.

Definition count (df : DataFrame) : nat := length (rows df).

(** *** Column references *)

Fixpoint positions (name : string) (cols : list string) (i : nat) : list nat :=
  match cols with
  | [] => []
  | c :: cols' =>
      if String.eqb c name then i :: positions name cols' (S i)
      else positions name cols' (S i)
  end.

(** [col(name)] against a schema: the name must denote exactly one column. *)
Definition resolve (name : string) (cols : list string) : result nat :=
  match positions name cols 0 with
  | [i] => Ok i
  | [] => Raise (AnalysisException ("cannot resolve " +:+ name))
  | _ => Raise (AnalysisException ("ambiguous reference " +:+ name))
  end.

Fixpoint resolve_all (names cols : list string) : result (list nat) :=
  match names with
  | [] => Ok []
  | n :: names' =>
      match resolve n cols with
      | Raise e => Raise e
      | Ok i =>
          match resolve_all names' cols with
          | Raise e => Raise e
          | Ok idx => Ok (i :: idx)
          end
      end
  end.

Definition at_ (row : list cell) (i : nat) : cell := nth i row Null.

(** Every row has one cell per column. *)
Definition well_formed (df : DataFrame) : Prop :=
  Forall (fun r : list cell => length r = length (columns df)) (rows df).

(** The cell of a row under a column name, when the name denotes one
    column. *)
Definition cell_of (df : DataFrame) (name : string) (r : list cell) : option cell :=
  match resolve name (columns df) with
  | Ok i => Some (at_ r i)
  | Raise _ => None
  end.

(** *** The DataFrame operations the notebook uses *)

(** Writes [v] in every column called [name], or appends it. *)
Fixpoint put (cols : list string) (row : list cell) (name : string) (v : cell)
    : list cell :=
  match cols, row with
  | c :: cols', x :: row' =>
      (if String.eqb c name then v else x) :: put cols' row' name v
  | _, _ => []
  end.

Definition has_column (name : string) (cols : list string) : bool :=
  existsb (String.eqb name) cols.

Definition set_column (df : DataFrame) (name : string)
    (f : nat -> list cell -> cell) : DataFrame :=
  if has_column name (columns df)
  then {| columns := columns df;
          rows := imap (fun i r => put (columns df) r name (f i r)) (rows df) |}
  else {| columns := columns df ++ [name];
          rows := imap (fun i r => r ++ [f i r]) (rows df) |}.

(** [df.withColumn(name, lit(v))] *)
Definition withColumn_lit (df : DataFrame) (name : string) (v : cell) : DataFrame :=
  set_column df name (fun _ _ => v).

(** [df.withColumn("id", monotonically_increasing_id())] *)
Definition withColumn_id (df : DataFrame) : DataFrame :=
  set_column df "id" (fun i _ => Long (mono_id i)).

(** [df.withColumn(name, f(col(a)))] *)
Definition withColumn1 (df : DataFrame) (name a : string) (f : cell -> cell)
    : result DataFrame :=
  match resolve a (columns df) with
  | Raise e => Raise e
  | Ok i => Ok (set_column df name (fun _ r => f (at_ r i)))
  end.

(** [df.withColumn(name, f(col(a), col(b)))] *)
Definition withColumn2 (df : DataFrame) (name a b : string)
    (f : cell -> cell -> cell) : result DataFrame :=
  match resolve a (columns df), resolve b (columns df) with
  | Ok i, Ok j => Ok (set_column df name (fun _ r => f (at_ r i) (at_ r j)))
  | Raise e, _ => Raise e
  | _, Raise e => Raise e
  end.

(** [df.filter(p(col(a), col(b)))]; a row on which the condition is null
    is dropped, so [p] answers [true] only for a condition that holds. *)
Definition filter2 (df : DataFrame) (a b : string) (p : cell -> cell -> bool)
    : result DataFrame :=
  match resolve a (columns df), resolve b (columns df) with
  | Ok i, Ok j =>
      Ok {| columns := columns df;
            rows := List.filter (fun r => p (at_ r i) (at_ r j)) (rows df) |}
  | Raise e, _ => Raise e
  | _, Raise e => Raise e
  end.

(** [col(name)] reads a dot in [name] as the access to a field and a
    backtick as a quote, so a name that has one of them does not denote the
    column of that name: the reference is refused. *)
Definition plain_reference (name : string) : bool :=
  negb (Text.contains "." name || Text.contains "`" name).

(** [df.select([col(c).alias(a) for (c, a) in named])] *)
Definition select_alias (df : DataFrame) (named : list (string * string))
    : result DataFrame :=
  if forallb plain_reference (List.map fst named)
  then
    match resolve_all (List.map fst named) (columns df) with
    | Raise e => Raise e
    | Ok idx =>
        Ok {| columns := List.map snd named;
              rows := List.map (fun r => List.map (at_ r) idx) (rows df) |}
    end
  else Raise (AnalysisException "cannot resolve a column name with a dot or a backtick").

(** [df.withColumnRenamed(existing, new)] *)
Definition withColumnRenamed (df : DataFrame) (existing new : string) : DataFrame :=
  {| columns := List.map (fun c => if String.eqb c existing then new else c)
                  (columns df);
     rows := rows df |}.

(** *** Column expressions

    The category column of the sheet holds text or nothing: the text
    functions below see a cell that is not text as null. *)

(** [trim(c)]: Spark removes the space character only. *)
Definition trim (c : cell) : cell :=
  match c with
  | Str s =>
      Str (Text.drop_while_end (Ascii.eqb " ") (Text.drop_while (Ascii.eqb " ") s))
  | _ => Null
  end.

(** [regexp_replace(col, note_re, empty)] *)
Definition strip_note (c : cell) : cell :=
  match c with
  | Str s => Str (Regex.re_sub note_re EmptyString s)
  | _ => Null
  end.

(** [concat_ws('_', lit(prefix), c)]: a null argument is skipped. *)
Definition concat_ws_prefix (prefix : string) (c : cell) : cell :=
  match c with
  | Str s => Str (prefix +:+ "_" +:+ s)
  | _ => Str prefix
  end.

(** [col("id").isin(ids)] as a condition that holds. *)
Definition isin (c : cell) (ids : list Z) : bool :=
  match c with
  | Long n => existsb (Z.eqb n) ids
  | _ => false
  end.

(** The [when(...).when(...).when(...).otherwise(...)] of [Sub_Category]. *)
Definition sub_category_of (id category : cell) : cell :=
  if isin id [1; 2; 3] then concat_ws_prefix "Indigenous production" category
  else if isin id [5; 6] then concat_ws_prefix "Imports" category
  else if isin id [8; 9] then concat_ws_prefix "Exports" category
  else category.

(** [a != b] as a condition that holds: null when either side is null. *)
Definition neq (a b : cell) : bool :=
  match a, b with
  | Null, _ | _, Null => false
  | _, _ => negb (bool_decide (a = b))
  end.

(** [split(c, '_')[0]] *)
Definition split_first (c : cell) : cell :=
  match c with
  | Str s => Str (hd EmptyString (Text.split "_" s))
  | _ => Null
  end.

(** [when(col('Sub_Category') != col('Category'), split(...)[0]).otherwise(col('Category'))] *)
Definition category_of (sub_category category : cell) : cell :=
  if neq sub_category category then split_first sub_category else category.

(** [(col("Category") == "Indigenous production")
     & (col("Sub_Category") != "Indigenous production")
     & (col("Sub_Category") != "Indigenous production_Feedstocks")] *)
Definition is_indigenous (category sub_category : cell) : bool :=
  bool_decide (category = Str "Indigenous production")
  && neq sub_category (Str "Indigenous production")
  && neq sub_category (Str "Indigenous production_Feedstocks").

(** [(col("Sub_Category") != "Indigenous production_Crude oil")
     & (col("Sub_Category") != "Indigenous production_NGLs")] *)
Definition not_superseded (sub_category _unused : cell) : bool :=
  neq sub_category (Str "Indigenous production_Crude oil")
  && neq sub_category (Str "Indigenous production_NGLs").

(** *** Aggregation *)

Definition numeric (c : cell) : cell :=
  match c with
  | Str s => match cast_double s with Some x => Dbl x | None => Null end
  | _ => c
  end.

(** Addition of two [bigint]: in 64 bits, around the ends (Spark without
    the ANSI mode). *)
Definition wrap64 (z : Z) : Z := (z + 2 ^ 63) mod 2 ^ 64 - 2 ^ 63.

Definition plus (a b : cell) : cell :=
  match a, b with
  | Null, x | x, Null => x
  | Long m, Long n => Long (wrap64 (m + n))
  | Long m, Dbl y => Dbl (vadd (of_long m) y)
  | Dbl x, Long n => Dbl (vadd x (of_long n))
  | Dbl x, Dbl y => Dbl (vadd x y)
  | x, _ => x
  end.

(** [spark_sum(col(c))] over the cells of a group: nulls are skipped, and
    the sum of nothing is null. *)
Definition spark_sum (cells : list cell) : cell :=
  fold_left (fun acc c => plus acc (numeric c)) cells Null.

(** The distinct keys, in the order they first occur. *)
Fixpoint distinct (keys : list cell) : list cell :=
  match keys with
  | [] => []
  | k :: keys' =>
      k :: List.filter (fun k' => negb (bool_decide (k' = k))) (distinct keys')
  end.

(** [df.groupBy(key).agg(...)] with one [spark_sum(col(c)).alias(c)] for every
    [c] of [summed]. *)
Definition groupBy_sum (df : DataFrame) (key : string) (summed : list string)
    : result DataFrame :=
  match resolve key (columns df), resolve_all summed (columns df) with
  | Ok k, Ok idx =>
      Ok {| columns := key :: summed;
            rows :=
              List.map
                (fun g =>
                   let members :=
                     List.filter (fun r => bool_decide (at_ r k = g)) (rows df) in
                   g :: List.map (fun i => spark_sum (List.map (fun r => at_ r i) members)) idx)
                (distinct (List.map (fun r => at_ r k) (rows df))) |}
  | Raise e, _ => Raise e
  | _, Raise e => Raise e
  end.

(** [left.unionByName(right)] *)
Definition unionByName (left right : DataFrame) : result DataFrame :=
  match resolve_all (columns left) (columns left),
        resolve_all (columns left) (columns right) with
  | Ok _, Ok idx =>
      if Nat.eqb (length (columns left)) (length (columns right))
      then Ok {| columns := columns left;
                 rows := rows left
                         ++ List.map (fun r => List.map (at_ r) idx) (rows right) |}
      else Raise (AnalysisException "unionByName: different numbers of columns")
  | Raise e, _ => Raise e
  | _, Raise e => Raise e
  end.

(** [df.select("Category", "Sub_Category",
               expr("stack(n, 'c1', `c1`, ...) as (Quarter, Quantity)"))] *)
Definition unpivot (df : DataFrame) (quarter_columns : list string)
    : result DataFrame :=
  match resolve "Category" (columns df), resolve "Sub_Category" (columns df),
        resolve_all quarter_columns (columns df) with
  | Ok c, Ok s, Ok idx =>
      match quarter_columns with
      | [] => Raise (AnalysisException "stack(0, ): syntax error")
      | _ :: _ =>
          Ok {| columns := ["Category"; "Sub_Category"; "Quarter"; "Quantity"];
                rows :=
                  List.concat
                    (List.map
                       (fun r =>
                          List.map
                            (fun qi => [at_ r c; at_ r s; Str (fst qi); at_ r (snd qi)])
                            (combine quarter_columns idx))
                       (rows df)) |}
      end
  | Raise e, _, _ => Raise e
  | _, Raise e, _ => Raise e
  | _, _, Raise e => Raise e
  end.

(** [rename_columns] *)
Definition rename_columns (df : DataFrame) : DataFrame :=
  let renamed_cols := List.map (fun c => (c, new_col_name c)) (columns df) in
  fold_left (fun d on => withColumnRenamed d (fst on) (snd on)) renamed_cols df.

(** *** The notebook, cell by cell *)

(** Lines 260-269: ids, underscores for spaces, [Column1] becomes [Category]. *)
Definition load (df_quarter : DataFrame) : result DataFrame :=
  let df := withColumn_id df_quarter in
  match select_alias df
          (List.map (fun c => (c, Text.replace " " "_" c)) (columns df)) with
  | Raise e => Raise e
  | Ok df =>
      if has_column "Column1" (columns df)
      then Ok (withColumnRenamed df "Column1" "Category")
      else Ok df
  end.

Definition bind_r {A B} (r : result A) (f : A -> result B) : result B :=
  match r with
  | Ok a => f a
  | Raise e => Raise e
  end.

(** Lines 276-277 *)
Definition clean_category (df : DataFrame) : result DataFrame :=
  bind_r (withColumn1 df "Category" "Category" trim)
    (fun df => withColumn1 df "Category" "Category" strip_note).

(** Lines 281-285 *)
Definition add_sub_category (df : DataFrame) : result DataFrame :=
  withColumn2 df "Sub_Category" "id" "Category" sub_category_of.

(** Lines 289-290 *)
Definition update_category (df : DataFrame) : result DataFrame :=
  withColumn2 df "Category" "Sub_Category" "Category" category_of.

(** Lines 294-304 *)
Definition indigenous_of (spark_df : DataFrame) : result DataFrame :=
  filter2 spark_df "Category" "Sub_Category" is_indigenous.

Definition summed_of (indigenous_df : DataFrame) : result DataFrame :=
  let columns_to_sum :=
    List.filter
      (fun c => negb (String.eqb c "Category" || String.eqb c "Sub_Category"))
      (columns indigenous_df) in
  bind_r (groupBy_sum indigenous_df "Category" columns_to_sum)
    (fun df =>
       Ok (withColumn_lit df "Sub_Category"
             (Str "Indigenous production_Crude Oil & NGLs"))).

(** Lines 308-310 *)
Definition final_of (spark_df summed_df : DataFrame) : result DataFrame :=
  bind_r (unionByName spark_df summed_df)
    (fun df => filter2 df "Sub_Category" "Sub_Category" not_superseded).

(** The file Spark writes with [option("header", "true")]. *)
Record csv : Type := { header : list string; lines : list (list cell) }.

Definition write_csv (df : DataFrame) : csv :=
  {| header := columns df; lines := rows df |}.

Record notebook : Type := {
  spark_df : DataFrame;
  final_df : DataFrame;
  df_renamed : DataFrame;
  quarter_columns : list string;
  df_unpivot : DataFrame;
  finalDF : DataFrame;
  saved : csv                  (* what ends at [csv_save_path] *)
}.

(** The transformation cells, lines 260-419, on the sheet [df_quarter] of
    the file [file_name], run on the day [today]. *)
Definition transform (df_quarter : DataFrame) (file_name today : string)
    : result notebook :=
  bind_r (load df_quarter) (fun spark_df =>
  bind_r (clean_category spark_df) (fun spark_df =>
  bind_r (add_sub_category spark_df) (fun spark_df =>
  bind_r (update_category spark_df) (fun spark_df =>
  bind_r (indigenous_of spark_df) (fun indigenous_df =>
  bind_r (summed_of indigenous_df) (fun summed_df =>
  bind_r (final_of spark_df summed_df) (fun final_df =>
  let df_renamed := rename_columns final_df in
  let quarter_columns := List.filter Text.isdigit (columns df_renamed) in
  bind_r (unpivot df_renamed quarter_columns) (fun df_unpivot =>
  let finalDF :=
    withColumn_lit (withColumn_lit df_unpivot "FileName" (Str file_name))
      "ProcessedDate" (Str today) in
  Ok {| spark_df := spark_df; final_df := final_df; df_renamed := df_renamed;
        quarter_columns := quarter_columns; df_unpivot := df_unpivot;
        finalDF := finalDF;
        saved := write_csv spark_df |})))))))).

End Cells.

End Frame.

(** ** Small runs *)

Module Samples.
Import Frame.

Definition two_quarters : file :=
  Workbook (Some ["Column1"; "2023 1st quarter"; "2024 2nd quarter"]).

Definition no_quarters : file := Workbook (Some ["Column1"; "Notes"]).

Definition answers (status : Z) (body : file) : attempt :=
  {| get := GetResponse status body; write_error := None; cp_error := None |}.

(** A world in which nothing has happened yet. *)
Definition new_world (behaviour : nat -> attempt) : world :=
  {| net := behaviour; calls := 0; requested := []; slept := [];
     local_fs := ∅; dbfs := ∅; listing := fun _ => Raise ConnectionError |}.

(** The result of a run, the number of download calls, the pauses and the
    local files left behind. *)
Definition observe {A} (r : result A * world)
    : result A * nat * list Z * list (string * file) :=
  (fst r, calls (snd r), slept (snd r), map_to_list (local_fs (snd r))).

Definition sample_sheet : @DataFrame Z :=
  {| columns := ["Column1"; "2023 1st quarter"; "2024 2nd quarter [note 1]"];
     rows := [ [Str "Indigenous production [note 2]"; Dbl 10; Dbl 11];
               [Str " Crude oil"; Dbl 6; Dbl 7];
               [Str "NGLs [note 3]"; Dbl 3; Dbl 3];
               [Str "Feedstocks"; Dbl 1; Dbl 1];
               [Str "Imports"; Dbl 20; Dbl 21];
               [Str "Crude oil & NGLs"; Dbl 15; Dbl 16];
               [Str "Feedstocks"; Dbl 5; Dbl 5];
               [Str "Exports"; Dbl 20; Dbl 21];
               [Str "Crude oil & NGLs"; Dbl 15; Dbl 16];
               [Str "Feedstocks"; Dbl 5; Dbl 5];
               [Str "Stock change"; Dbl 5; Dbl 5] ] |}.

Definition sample_run : result (@notebook Z) :=
  transform Z.add (fun n => n) (fun _ => None) Z.of_nat sample_sheet
    "ET_3.1.xlsx" "03/11/2026".

Definition or_else {A} (r : result A) (d : A) : A :=
  match r with
  | Ok a => a
  | Raise _ => d
  end.

Definition empty_frame : @DataFrame Z := {| columns := []; rows := [] |}.

Definition no_notebook : @notebook Z :=
  {| spark_df := empty_frame; final_df := empty_frame; df_renamed := empty_frame;
     quarter_columns := []; df_unpivot := empty_frame; finalDF := empty_frame;
     saved := write_csv empty_frame |}.

(** The notebook after its run on the sample sheet. *)
Definition sample_notebook : @notebook Z := or_else sample_run no_notebook.

Definition sample_cleaned : @DataFrame Z :=
  {| columns := ["Category"; "2023_1st_quarter"; "id"];
     rows := [ [Str "Indigenous production"; Dbl 10; Long 0];
               [Str "Crude oil"; Dbl 6; Long 1];
               [Str "Imports"; Dbl 20; Long 4];
               [Str "Crude oil & NGLs"; Dbl 15; Long 5] ] |}.

(** A row in the first bucket that has no category. *)
Definition sample_unnamed : @DataFrame Z :=
  {| columns := ["Category"; "2023_1st_quarter"; "id"];
     rows := [ [Null; Dbl 6; Long 1] ] |}.

Definition sample_with_sub : @DataFrame Z :=
  or_else (add_sub_category sample_cleaned) sample_cleaned.

Definition sample_derived : @DataFrame Z :=
  or_else (update_category sample_with_sub) sample_cleaned.

End Samples.

(** ** The rest of the notebook, and words for its properties *)

Module Schedule.
Import Monad Acquisition.



End Schedule.

(** ** The directory listings of the transformation *)

Module Store.

(** An entry of [dbutils.fs.ls]. *)
Record FileInfo : Type := {
  path : string;
  name : string;
  size : Z;
  modificationTime : Z
}.

(** Line 237: the directory the transformation lists. *)
Definition listing_dir : string := "/FileStore/tables/final_data_petroineous".

(** Line 240: [max(file_list, key=lambda f: f.modificationTime).name] *)
Definition file_name (file_list : list FileInfo) : result string :=
  match Quarter.py_max (fun f => Ok (modificationTime f)) Z.gtb file_list with
  | Ok f => Ok (name f)
  | Raise e => Raise e
  end.

(** Lines 408-413: the [for f in files] loop with its [break]. *)
Fixpoint part_file_path (files : list FileInfo) : option string :=
  match files with
  | [] => None
  | f :: rest =>
      if Text.endswith (name f) ".csv" then Some (path f) else part_file_path rest
  end.

Definition csv_save_path : string :=
  "/FileStore/tables/final_data_petroineous/TransformedEnergyData.csv".

(** Lines 416-422: the move the last cell asks of [dbutils.fs.mv], as
    (source, destination); a path that is the empty text counts as not
    found, like [None]. *)
Definition part_file_move (files : list FileInfo) : option (string * string) :=
  match part_file_path files with
  | Some (String c p) => Some (String c p, csv_save_path)
  | Some EmptyString => None
  | None => None
  end.

End Store.

Module Directory.

(** The listed directory after a run: the workbook the ingestion stored and
    the CSV the last cell moved there later. *)
Definition after_a_run : list Store.FileInfo :=
  [ {| Store.path := "dbfs:/FileStore/tables/final_data_petroineous/ET_3.1.xlsx";
       Store.name := "ET_3.1.xlsx"; Store.size := 250000;
       Store.modificationTime := 1730600000000 |};
    {| Store.path := "dbfs:/FileStore/tables/final_data_petroineous/TransformedEnergyData.csv";
       Store.name := "TransformedEnergyData.csv"; Store.size := 4000;
       Store.modificationTime := 1730600900000 |} ].

End Directory.

Module Header.

(** The name a column of the sheet has after lines 264-269: underscores for
    spaces, and [Category] for [Column1]. *)
Definition header_name (c : string) : string :=
  let c' := Text.replace " " "_" c in
  if String.eqb c' "Column1" then "Category" else c'.

End Header.

Module Site.

(** A listing page with the phrase of the configuration and one workbook. *)
Definition listing_page : page :=
  {| status_code := 200;
     texts := ["Oil and oil products"; "Supply and use of crude oil, natural gas liquids and feedstocks"];
     hrefs := ["/government/statistics"; "/media/ET_3.1.xlsx"] |}.

(** A world that serves that page and answers the downloads as [behaviour] says. *)
Definition site (behaviour : nat -> attempt) : world :=
  {| net := behaviour; calls := 0; requested := []; slept := [];
     local_fs := ∅; dbfs := ∅; listing := fun _ => Ok listing_page |}.

End Site.

Module Note.

(** A note reference as the sheet writes it: blanks, [[note], blanks, the
    number, []]. *)
Definition note_text (ws ws' ds : string) : string :=
  ws +:+ "[note" +:+ ws' +:+ ds +:+ "]".

Definition note_shape (ws ws' ds : string) : Prop :=
  Text.forallb Chars.java_space ws = true /\ Text.forallb Chars.java_space ws' = true
  /\ Text.forallb Chars.java_digit ds = true /\ ds <> EmptyString.

End Note.


(** * Proofs *)

Import Chars Regex Quarter Monad IO Acquisition Gate Frame Samples.

Local Arguments String.append !_ _ / : simpl nomatch.

Lemma length_append (s t : string) :
  String.length (s +:+ t) = (String.length s + String.length t)%nat.
Proof. induction s as [|c s IH]; simpl; congruence. Qed.

Lemma append_assoc (s t u : string) : (s +:+ t) +:+ u = s +:+ (t +:+ u).
Proof. induction s as [|c s IH]; simpl; congruence. Qed.

Lemma append_nil_r (s : string) : s +:+ EmptyString = s.
Proof. induction s as [|c s IH]; simpl; congruence. Qed.

Lemma taken_app t s : taken (t +:+ s) s = t.
Proof.
  unfold taken. rewrite length_append.
  replace (String.length t + String.length s - String.length s)%nat with (String.length t) by lia.
  induction t as [|c t IH]; simpl.
  - destruct s; reflexivity.
  - f_equal. exact IH.
Qed.

Lemma star_sound {A} p s (k : string -> option A) x :
  star p s k = Some x ->
  exists t s', s = t +:+ s' /\ Text.forallb p t = true /\ k s' = Some x.
Proof.
  induction s as [|c s IH]; simpl; intros H.
  - exists EmptyString, EmptyString. auto.
  - destruct (p c) eqn:Hc.
    + destruct (star p s k) eqn:Hs.
      * injection H as ->. destruct (IH eq_refl) as (t & s' & -> & Ht & Hk).
        exists (String c t), s'. simpl. rewrite Hc, Ht. auto.
      * exists EmptyString, (String c s). auto.
    + exists EmptyString, (String c s). auto.
Qed.

Lemma star_complete {A} p s (k : string -> option A) :
  star p s k = None ->
  forall t s', s = t +:+ s' -> Text.forallb p t = true -> k s' = None.
Proof.
  induction s as [|c s IH]; simpl; intros H t s' E Ht.
  - destruct t; [simpl in E; subst; exact H | discriminate].
  - destruct t as [|c' t]; simpl in E.
    + subst s'. destruct (p c); [destruct (star p s k); [discriminate | exact H] | exact H].
    + injection E as <- ->. simpl in Ht. apply andb_prop in Ht as [Hc Ht].
      rewrite Hc in H. destruct (star p (t +:+ s') k) eqn:Hs; [discriminate|].
      eapply IH; eauto.
Qed.

Lemma rep_sound {A} p lo hi s (k : string -> option A) x :
  rep p lo hi s k = Some x ->
  exists t s', s = t +:+ s' /\ Text.forallb p t = true
               /\ (lo <= String.length t <= hi)%nat /\ k s' = Some x.
Proof.
  revert lo s. induction hi as [|hi IH]; intros lo s H.
  - simpl in H. destruct lo; [|discriminate]. exists EmptyString, s. simpl. auto with lia.
  - assert (Hstop : match lo with O => k s | S _ => None end = Some x ->
                    exists t s', s = t +:+ s' /\ Text.forallb p t = true
                      /\ (lo <= String.length t <= S hi)%nat /\ k s' = Some x).
    { destruct lo; [|discriminate]. intros Hk. exists EmptyString, s. simpl. auto with lia. }
    simpl in H. destruct s as [|c s]; [auto|].
    destruct (p c) eqn:Hc; [|auto].
    destruct (rep p (Nat.pred lo) hi s k) eqn:Hr; [|auto].
    injection H as ->. destruct (IH _ _ Hr) as (t & s' & -> & Ht & Hlen & Hk).
    exists (String c t), s'. simpl. rewrite Hc, Ht. repeat split; auto; lia.
Qed.

Lemma rep_complete {A} p lo hi s (k : string -> option A) :
  rep p lo hi s k = None ->
  forall t s', s = t +:+ s' -> Text.forallb p t = true ->
               (lo <= String.length t <= hi)%nat -> k s' = None.
Proof.
  revert lo s. induction hi as [|hi IH]; intros lo s H t s' E Ht Hlen.
  - destruct t; simpl in Hlen; [|lia]. simpl in E. subst s'.
    simpl in H. destruct lo; [exact H | lia].
  - destruct t as [|c t]; simpl in E.
    + subst s'. simpl in Hlen. destruct lo; [|lia].
      simpl in H. destruct s as [|c s]; [exact H|].
      destruct (p c); [destruct (rep p _ hi s k); [discriminate | exact H] | exact H].
    + subst s. simpl in H, Ht, Hlen. apply andb_prop in Ht as [Hc Ht].
      rewrite Hc in H. destruct (rep p (Nat.pred lo) hi (t +:+ s') k) eqn:Hr;
        [destruct lo; discriminate|].
      eapply IH; eauto. lia.
Qed.

Lemma run_sound {A} r : forall s caps (k : list string -> string -> option A) x,
  run r s caps k = Some x ->
  exists t s' g, s = t +:+ s' /\ matches r t g /\ k (caps ++ g) s' = Some x.
Proof.
  induction r; intros s caps k x H; simpl in H.
  - exists EmptyString, s, []. rewrite app_nil_r. repeat split; auto. constructor.
  - destruct s as [|c' s]; [discriminate|].
    destruct (Ascii.eqb_spec c c'); [subst|discriminate].
    exists (String c' EmptyString), s, []. rewrite app_nil_r. repeat split; auto. constructor.
  - destruct s as [|c' s]; [discriminate|].
    destruct (p c') eqn:Hc; [|discriminate].
    exists (String c' EmptyString), s, []. rewrite app_nil_r. repeat split; auto. now constructor.
  - apply rep_sound in H as (t & s' & -> & Ht & Hlen & Hk).
    exists t, s', []. rewrite app_nil_r. repeat split; auto. now constructor.
  - apply star_sound in H as (t & s' & -> & Ht & Hk).
    exists t, s', []. rewrite app_nil_r. repeat split; auto. now constructor.
  - apply IHr1 in H as (t1 & s1 & g1 & -> & M1 & H).
    apply IHr2 in H as (t2 & s2 & g2 & -> & M2 & H).
    exists (t1 +:+ t2), s2, (g1 ++ g2). rewrite append_assoc, app_assoc.
    repeat split; auto. now constructor.
  - destruct (run r1 s caps k) eqn:H1.
    + injection H as ->. apply IHr1 in H1 as (t & s' & g & -> & M & H).
      exists t, s', g. repeat split; auto. now apply m_alt_l.
    + apply IHr2 in H as (t & s' & g & -> & M & H).
      exists t, s', g. repeat split; auto. now apply m_alt_r.
  - apply IHr in H as (t & s' & g & -> & M & H). rewrite taken_app in H.
    exists t, s', (g ++ [t]). rewrite app_assoc. repeat split; auto. now constructor.
Qed.

Lemma run_complete {A} r : forall s caps (k : list string -> string -> option A),
  run r s caps k = None ->
  forall t s' g, s = t +:+ s' -> matches r t g -> k (caps ++ g) s' = None.
Proof.
  induction r; intros s caps k H t s' g E M; simpl in H; inversion M; subst; clear M.
  - now rewrite app_nil_r.
  - simpl in H. rewrite Ascii.eqb_refl in H. now rewrite app_nil_r.
  - simpl in H. rewrite H1 in H. now rewrite app_nil_r.
  - rewrite app_nil_r. eapply rep_complete; eauto.
  - rewrite app_nil_r. eapply star_complete; eauto.
  - rewrite app_assoc. eapply IHr2; [|reflexivity|eassumption].
    eapply (IHr1 _ _ _ H); [|eassumption]. apply append_assoc.
  - destruct (run r1 (t +:+ s') caps k) eqn:H1; [discriminate|]. eapply IHr1; eauto.
  - destruct (run r1 (t +:+ s') caps k) eqn:H1; [discriminate|]. eapply IHr2; eauto.
  - rewrite app_assoc. pose proof (IHr _ _ _ H t s' g0 eq_refl H1) as Hk.
    simpl in Hk. now rewrite taken_app in Hk.
Qed.

(** ** Labels and [quarter_to_tuple] *)

Lemma matches_lit u t g : matches (lit u) t g -> t = u /\ g = [].
Proof.
  revert t g. induction u as [|c u IH]; simpl; intros t g M.
  - inversion M; auto.
  - inversion M as [| | | | |? ? ? ? ? ? M1 M2| | |]; subst.
    inversion M1; subst. apply IH in M2 as [-> ->]. auto.
Qed.

Lemma lit_matches u : matches (lit u) u [].
Proof.
  induction u as [|c u IH]; simpl; [constructor|].
  change (String c u) with (String c EmptyString +:+ u). change (@nil string) with (@nil string ++ []).
  constructor; [constructor | exact IH].
Qed.

Lemma matches_suffix t g : matches suffix_re t g -> is_suffix t /\ g = [].
Proof.
  unfold suffix_re, is_suffix. intros M.
  repeat match goal with
         | H : matches (Alt _ _) _ _ |- _ => inversion H; subst; clear H
         end;
  match goal with
  | H : matches _ _ _ |- _ =>
      first [ apply (matches_lit "st") in H | apply (matches_lit "nd") in H
            | apply (matches_lit "rd") in H | apply (matches_lit "th") in H ];
      destruct H as [-> ->]
  end; tauto.
Qed.

Lemma suffix_matches sfx : is_suffix sfx -> matches suffix_re sfx [].
Proof.
  unfold suffix_re. intros [-> | [-> | [-> | ->]]].
  - apply m_alt_l, lit_matches.
  - apply m_alt_r, m_alt_l, lit_matches.
  - apply m_alt_r, m_alt_r, m_alt_l, lit_matches.
  - apply m_alt_r, m_alt_r, m_alt_r, lit_matches.
Qed.

Ltac invert_matches :=
  repeat match goal with
         | H : matches (Cat _ _) _ _ |- _ => inversion H; subst; clear H
         | H : matches (Grp _) _ _ |- _ => inversion H; subst; clear H
         | H : matches (Rep _ _ _) _ _ |- _ => inversion H; subst; clear H
         | H : matches (Star _) _ _ |- _ => inversion H; subst; clear H
         | H : matches (Chr _) _ _ |- _ => inversion H; subst; clear H
         | H : matches Eps _ _ |- _ => inversion H; subst; clear H
         | H : matches suffix_re _ _ |- _ => apply matches_suffix in H as [? ->]
         | H : matches (lit _) _ _ |- _ => apply matches_lit in H as [-> ->]
         end.

Lemma matches_quarter_re t g :
  matches quarter_re t g ->
  exists ys ns sfx, t = label_text ys ns sfx /\ label_shape ys ns sfx /\ g = [ys; ns; sfx].
Proof.
  unfold quarter_re. intros M. invert_matches.
  eexists _, _, _. split; [reflexivity|]. split; [|reflexivity].
  unfold label_shape. repeat split; auto; lia.
Qed.

Lemma quarter_re_matches ys ns sfx :
  label_shape ys ns sfx -> matches quarter_re (label_text ys ns sfx) [ys; ns; sfx].
Proof.
  intros (Hl & Hd & Hn & Hnd & Hs). unfold quarter_re, label_text.
  change [ys; ns; sfx] with (([] ++ [ys]) ++ [] ++ ([] ++ [ns]) ++ ([] ++ [sfx]) ++ []).
  repeat (apply m_cat || apply m_grp).
  - apply m_rep; [assumption | lia].
  - constructor.
  - apply m_rep; [assumption | lia].
  - now apply suffix_matches.
  - apply lit_matches.
Qed.

Lemma matches_quarter_column_re t g :
  matches quarter_column_re t g ->
  exists ys ns sfx, t = label_text ys ns sfx /\ label_shape ys ns sfx.
Proof.
  unfold quarter_column_re. intros M. invert_matches.
  eexists _, _, _. split; [reflexivity|].
  unfold label_shape. repeat split; auto; lia.
Qed.

Lemma quarter_column_re_matches ys ns sfx :
  label_shape ys ns sfx -> matches quarter_column_re (label_text ys ns sfx) [sfx].
Proof.
  intros (Hl & Hd & Hn & Hnd & Hs). unfold quarter_column_re, label_text.
  change [sfx] with ([] ++ [] ++ [] ++ ([] ++ [sfx]) ++ []).
  repeat (apply m_cat || apply m_grp).
  - apply m_rep; [assumption | lia].
  - constructor.
  - apply m_rep; [assumption | lia].
  - now apply suffix_matches.
  - apply lit_matches.
Qed.

Lemma length_1_inv s : String.length s = 1%nat -> exists a, s = String a EmptyString.
Proof. destruct s as [|a [|]]; try discriminate. eauto. Qed.

Lemma length_2_inv s : String.length s = 2%nat -> exists a b, s = String a (String b EmptyString).
Proof. destruct s as [|a [|b [|]]]; try discriminate. eauto. Qed.

Lemma length_4_inv s :
  String.length s = 4%nat ->
  exists a b c d, s = String a (String b (String c (String d EmptyString))).
Proof. destruct s as [|a [|b [|c [|d [|]]]]]; try discriminate. eauto 6. Qed.

Lemma label_unique ys ns sfx rest ys' ns' sfx' rest' :
  label_shape ys ns sfx -> label_shape ys' ns' sfx' ->
  label_text ys ns sfx +:+ rest = label_text ys' ns' sfx' +:+ rest' ->
  ys = ys' /\ ns = ns' /\ sfx = sfx' /\ rest = rest'.
Proof.
  intros (Hl & Hd & Hn & Hnd & Hs) (Hl' & Hd' & Hn' & Hnd' & Hs') E.
  apply length_4_inv in Hl as (a & b & c & d & ->).
  apply length_4_inv in Hl' as (a' & b' & c' & d' & ->).
  assert (Hn1 : String.length ns = 1%nat \/ String.length ns = 2%nat) by lia.
  assert (Hn1' : String.length ns' = 1%nat \/ String.length ns' = 2%nat) by lia.
  clear Hn Hn' Hd Hd'.
  unfold label_text in E.
  destruct Hn1 as [H1 | H1]; [apply length_1_inv in H1 as (n1 & ->)
                             | apply length_2_inv in H1 as (n1 & n2 & ->)];
  (destruct Hn1' as [H1' | H1']; [apply length_1_inv in H1' as (m1 & ->)
                                 | apply length_2_inv in H1' as (m1 & m2 & ->)]);
  destruct Hs as [-> | [-> | [-> | ->]]];
  destruct Hs' as [-> | [-> | [-> | ->]]];
  simpl in E; injection E; intros; subst;
  try discriminate; simpl in Hnd, Hnd';
  repeat match goal with
         | H : (_ && _)%bool = true |- _ => apply andb_prop in H as [? ?]
         end;
  try discriminate; auto.
Qed.

Lemma int_go_digits s : forall acc,
  Text.forallb re_digit s = true -> exists z, Text.int_go acc s = Some z.
Proof.
  induction s as [|c s IH]; simpl; intros acc H; [eauto|].
  apply andb_prop in H as [Hc Hs]. rewrite Hc. auto.
Qed.

Lemma int_digits s :
  Text.forallb re_digit s = true -> (1 <= String.length s)%nat ->
  exists z, Text.int s = Some z.
Proof.
  destruct s as [|c s]; simpl; [lia|]. intros H _.
  apply andb_prop in H as [Hc Hs]. rewrite Hc. now apply int_go_digits.
Qed.

Lemma re_match_quarter_shape ys ns sfx rest :
  label_shape ys ns sfx ->
  re_match quarter_re (label_text ys ns sfx +:+ rest) = Some ([ys; ns; sfx], rest).
Proof.
  intros Hsh. unfold re_match.
  destruct (run quarter_re _ [] _) as [[g rest']|] eqn:E.
  - apply run_sound in E as (t & s' & g' & Es & M & Hk). simpl in Hk.
    injection Hk as <- <-.
    apply matches_quarter_re in M as (ys' & ns' & sfx' & -> & Hsh' & ->).
    destruct (label_unique _ _ _ _ _ _ _ _ Hsh Hsh' Es) as (-> & -> & -> & ->).
    reflexivity.
  - eapply run_complete in E; [|reflexivity|apply quarter_re_matches, Hsh].
    discriminate.
Qed.

Lemma re_match_quarter_inv s g rest :
  re_match quarter_re s = Some (g, rest) ->
  exists ys ns sfx, s = label_text ys ns sfx +:+ rest /\ label_shape ys ns sfx
                    /\ g = [ys; ns; sfx].
Proof.
  unfold re_match. intros E.
  apply run_sound in E as (t & s' & g' & -> & M & Hk). simpl in Hk.
  injection Hk as <- <-.
  apply matches_quarter_re in M as (ys & ns & sfx & -> & Hsh & ->). eauto 6.
Qed.

Lemma re_match_quarter_none s :
  re_match quarter_re s = None ->
  forall ys ns sfx rest, label_shape ys ns sfx -> s <> label_text ys ns sfx +:+ rest.
Proof.
  intros E ys ns sfx rest Hsh ->. rewrite re_match_quarter_shape in E by assumption.
  discriminate.
Qed.

Lemma quarter_to_tuple_prefix s y n :
  quarter_prefix s y n -> quarter_to_tuple s = Ok (y, n).
Proof.
  intros (ys & ns & sfx & rest & -> & Hsh & Hy & Hn). unfold quarter_to_tuple.
  rewrite re_match_quarter_shape by assumption. simpl. now rewrite Hy, Hn.
Qed.

Lemma quarter_to_tuple_ok s y n :
  quarter_to_tuple s = Ok (y, n) -> quarter_prefix s y n.
Proof.
  unfold quarter_to_tuple. destruct (re_match quarter_re s) as [[g rest]|] eqn:E; [|discriminate].
  apply re_match_quarter_inv in E as (ys & ns & sfx & -> & Hsh & ->). simpl.
  destruct (Text.int ys) as [y'|] eqn:Hy; [|destruct (Text.int ns); discriminate].
  destruct (Text.int ns) as [n'|] eqn:Hn; [|discriminate].
  intros [= <- <-]. exists ys, ns, sfx, rest. auto.
Qed.

Lemma quarter_to_tuple_raise s e :
  quarter_to_tuple s = Raise e ->
  e = invalid_quarter s /\ forall y n, ~ quarter_prefix s y n.
Proof.
  unfold quarter_to_tuple. destruct (re_match quarter_re s) as [[g rest]|] eqn:E.
  - apply re_match_quarter_inv in E as (ys & ns & sfx & -> & Hsh & ->). simpl.
    destruct Hsh as (Hl & Hd & Hn & Hnd & Hs).
    destruct (int_digits ys Hd) as [y ->]; [lia|].
    destruct (int_digits ns Hnd) as [n ->]; [lia|]. discriminate.
  - intros [= <-]. split; [reflexivity|].
    intros y n (ys & ns & sfx & rest & -> & Hsh & _).
    eapply re_match_quarter_none; eauto.
Qed.


(** ** Annotations start after the label *)

Lemma annotation_match_inv s x :
  re_match annotation_re s = Some x ->
  exists u, Text.drop_while py_space s = String "[" u.
Proof.
  unfold re_match, annotation_re. intros H.
  apply run_sound in H as (t & s' & g & -> & M & _).
  invert_matches.
  match goal with H : Text.forallb py_space ?ws = true |- _ =>
    revert H; generalize ws end.
  intros ws Hws. induction ws as [|c ws IH]; simpl in *.
  - eauto.
  - apply andb_prop in Hws as [-> Hws]. auto.
Qed.

Lemma solid_first t rest :
  solid t = true ->
  exists c u, Text.drop_while py_space (t +:+ rest) = String c u /\ c <> "["%char.
Proof.
  induction t as [|c t IH]; [discriminate|]. intros H.
  cbn [solid] in H. apply andb_prop in H as [Hc Ht].
  assert (c <> "["%char).
  { intros ->. discriminate. }
  simpl. destruct (py_space c) eqn:Hsp.
  - destruct t; [discriminate | auto].
  - eauto.
Qed.

Lemma solid_no_match t rest :
  solid t = true -> re_match annotation_re (t +:+ rest) = None.
Proof.
  intros Ht. destruct (re_match annotation_re (t +:+ rest)) eqn:E; [|reflexivity].
  apply annotation_match_inv in E as [u Hu].
  destruct (solid_first t rest Ht) as (c & u' & Hc & Hne). congruence.
Qed.

Lemma sub_go_solid t : forall rest,
  solid t = true ->
  sub_go annotation_re EmptyString 0 (t +:+ rest)
  = t +:+ sub_go annotation_re EmptyString 0 rest.
Proof.
  induction t as [|c t IH]; [discriminate|]. intros rest Ht.
  pose proof (solid_no_match _ rest Ht) as Hno.
  change (String c t +:+ rest) with (String c (t +:+ rest)) in *.
  cbn [sub_go]. rewrite Hno. simpl. f_equal.
  destruct t as [|c' t']; [reflexivity|].
  apply IH. cbn [solid] in Ht. apply andb_prop in Ht as [_ Ht]. exact Ht.
Qed.

Lemma solid_app s t :
  Text.forallb (fun c => negb (Ascii.eqb c "[")) s = true -> solid t = true ->
  solid (s +:+ t) = true.
Proof.
  induction s as [|c s IH]; simpl; intros Hs Ht; [exact Ht|].
  apply andb_prop in Hs as [Hc Hs]. rewrite Hc. simpl.
  specialize (IH Hs Ht). destruct (s +:+ t) eqn:E; [|exact IH].
  destruct s; simpl in E; [subst; discriminate | discriminate].
Qed.

Lemma digit_not_bracket c : re_digit c = true -> negb (Ascii.eqb c "[") = true.
Proof. destruct (Ascii.eqb_spec c "["); [subst; discriminate | reflexivity]. Qed.

Lemma digits_no_bracket s :
  Text.forallb re_digit s = true ->
  Text.forallb (fun c => negb (Ascii.eqb c "[")) s = true.
Proof.
  induction s as [|c s IH]; simpl; [reflexivity|]. intros H.
  apply andb_prop in H as [Hc Hs]. now rewrite digit_not_bracket, IH.
Qed.

Lemma label_solid ys ns sfx : label_shape ys ns sfx -> solid (label_text ys ns sfx) = true.
Proof.
  intros (_ & Hd & _ & Hnd & Hs). unfold label_text.
  apply solid_app; [now apply digits_no_bracket|].
  apply (solid_app " "); [reflexivity|].
  apply solid_app; [now apply digits_no_bracket|].
  destruct Hs as [-> | [-> | [-> | ->]]]; reflexivity.
Qed.

Lemma re_sub_label ys ns sfx rest :
  label_shape ys ns sfx ->
  re_sub annotation_re EmptyString (label_text ys ns sfx +:+ rest)
  = label_text ys ns sfx +:+ re_sub annotation_re EmptyString rest.
Proof. intros H. apply sub_go_solid, label_solid, H. Qed.

Lemma quarter_column_inv c :
  re_match quarter_column_re c <> None ->
  exists ys ns sfx rest, c = label_text ys ns sfx +:+ rest /\ label_shape ys ns sfx.
Proof.
  unfold re_match. destruct (run quarter_column_re c [] _) as [x|] eqn:E; [|congruence].
  intros _. apply run_sound in E as (t & s' & g & -> & M & _).
  apply matches_quarter_column_re in M as (ys & ns & sfx & -> & Hsh). eauto 6.
Qed.

Lemma quarter_column_parses cols c :
  In c (Quarter.quarter_columns cols) ->
  exists t, quarter_to_tuple c = Ok t /\ column_key c = Ok t.
Proof.
  unfold Quarter.quarter_columns. rewrite filter_In. intros [_ Hm].
  destruct (quarter_column_inv c) as (ys & ns & sfx & rest & -> & Hsh).
  { destruct (re_match quarter_column_re c); [discriminate | discriminate]. }
  pose proof Hsh as (Hl & Hd & Hn & Hnd & Hs).
  destruct (int_digits ys Hd) as [y Hy]; [lia|].
  destruct (int_digits ns Hnd) as [n Hn']; [lia|].
  exists (y, n). split.
  - apply quarter_to_tuple_prefix. exists ys, ns, sfx, rest. auto.
  - unfold column_key. rewrite re_sub_label by assumption.
    apply quarter_to_tuple_prefix. eexists ys, ns, sfx, _. auto.
Qed.

(** ** The greatest label *)

Lemma tuple_gt_false a b : tuple_gt a b = false <-> tuple_le a b.
Proof.
  unfold tuple_gt, tuple_le. destruct a as [a1 a2], b as [b1 b2]. simpl.
  rewrite orb_false_iff, andb_false_iff, Z.ltb_ge, Z.eqb_neq, Z.ltb_ge. lia.
Qed.

Lemma tuple_gt_true a b : tuple_gt a b = true <-> ~ tuple_le a b.
Proof. rewrite <- tuple_gt_false. destruct (tuple_gt a b); split; congruence. Qed.

Lemma tuple_le_trans a b c : tuple_le a b -> tuple_le b c -> tuple_le a c.
Proof. unfold tuple_le. lia. Qed.

Lemma tuple_le_total a b : tuple_le a b \/ tuple_le b a.
Proof. unfold tuple_le. lia. Qed.

Lemma max_loop_spec {A} (key : A -> result (Z * Z)) items : forall m km r,
  key m = Ok km ->
  max_loop key tuple_gt m km items = Ok r ->
  (r = m \/ In r items)
  /\ exists kr, key r = Ok kr /\ tuple_le km kr
                /\ forall x, In x items -> exists kx, key x = Ok kx /\ tuple_le kx kr.
Proof.
  induction items as [|x items IH]; simpl; intros m km r Hm H.
  - injection H as <-. split; [auto|]. exists km. repeat split; auto.
    + unfold tuple_le; lia.
    + contradiction.
  - destruct (key x) as [kx|e] eqn:Hx; [|discriminate].
    destruct (tuple_gt kx km) eqn:Hgt.
    + destruct (IH _ _ _ Hx H) as (Hin & kr & Hr & Hle & Hall).
      split; [destruct Hin; subst; simpl; auto|]. exists kr. repeat split; auto.
      * apply tuple_gt_true in Hgt. destruct (tuple_le_total km kx); [|tauto].
        eapply tuple_le_trans; eauto.
      * intros z [<- | Hz]; eauto.
    + destruct (IH _ _ _ Hm H) as (Hin & kr & Hr & Hle & Hall).
      split; [destruct Hin; subst; simpl; auto|]. exists kr. repeat split; auto.
      intros z [<- | Hz]; eauto.
      exists kx. split; auto. apply tuple_gt_false in Hgt.
      eapply tuple_le_trans; eauto.
Qed.

Lemma py_max_spec {A} (key : A -> result (Z * Z)) items r :
  py_max key tuple_gt items = Ok r ->
  In r items
  /\ exists kr, key r = Ok kr
                /\ forall x, In x items -> exists kx, key x = Ok kx /\ tuple_le kx kr.
Proof.
  unfold py_max. destruct items as [|x items]; [discriminate|].
  destruct (key x) as [kx|e] eqn:Hx; [|discriminate]. intros H.
  destruct (max_loop_spec key items _ _ _ Hx H) as (Hin & kr & Hr & Hle & Hall).
  split; [destruct Hin; subst; simpl; auto|]. exists kr. split; auto.
  intros z [<- | Hz]; eauto.
Qed.

(** ** The retry decorator *)

Lemma body_request_failure url path name w :
  request_failure (net w (calls w)) = true ->
  exists e, download_excel_file_body url path name w = (Raise e, asked url w)
            /\ is_RequestException e = true.
Proof.
  unfold request_failure, download_excel_file_body, try_except, bind, next_attempt.
  simpl. destruct (get (net w (calls w))) as [e|status body]; intros H.
  - exists e. auto.
  - exists (HTTPError status). unfold raise_for_status. rewrite H. auto.
Qed.

Lemma body_other_failure url path name w status body e :
  get (net w (calls w)) = GetResponse status body ->
  (400 <=? status) && (status <? 600) = false ->
  write_error (net w (calls w)) = Some (e, None) ->
  download_excel_file_body url path name w = (Raise e, asked url w).
Proof.
  unfold download_excel_file_body, try_except, bind, next_attempt.
  simpl. intros -> Hs ->. unfold raise_for_status. rewrite Hs. reflexivity.
Qed.

Lemma sleep_rested seconds w :
  0 <= seconds <= sleep_max -> sleep seconds w = (Ok tt, rested seconds w).
Proof.
  intros H. unfold sleep.
  destruct (Z.ltb_spec seconds (- sleep_max)); [unfold sleep_max in *; lia|].
  destruct (Z.ltb_spec sleep_max seconds); [lia|].
  destruct (Z.ltb_spec seconds 0); [lia | reflexivity].
Qed.


Lemma retry_step {A} (func : M A) max_retries backoff todo delay w e w' :
  func w = (Raise e, w') -> is_RequestException e = true ->
  0 <= delay <= sleep_max ->
  wrapper_loop func max_retries backoff (S todo) delay w
  = wrapper_loop func max_retries backoff todo (delay * backoff) (rested delay w').
Proof.
  intros Hf He Hd. simpl. rewrite Hf, He. unfold bind. now rewrite sleep_rested.
Qed.

Lemma retry_stop {A} (func : M A) max_retries backoff todo delay w e w' :
  func w = (Raise e, w') -> is_RequestException e = false ->
  wrapper_loop func max_retries backoff (S todo) delay w = (Raise e, w').
Proof. intros Hf He. simpl. rewrite Hf, He. reflexivity. Qed.

Lemma retry_ok {A} (func : M A) max_retries backoff todo delay w a w' :
  func w = (Ok a, w') ->
  wrapper_loop func max_retries backoff (S todo) delay w = (Ok a, w').
Proof. intros Hf. simpl. rewrite Hf. reflexivity. Qed.

Lemma download_persistent_failure url path name w :
  (forall k, (k < 3)%nat -> request_failure (net w (calls w + k)) = true) ->
  download_excel_file url path name w
  = (Raise (Exception "Failed to complete after 3 retries."), gave_up url w).
Proof.
  intros H. unfold download_excel_file, retry_request.
  destruct (body_request_failure url path name w) as (e1 & B1 & R1).
  { specialize (H 0%nat). rewrite Nat.add_0_r in H. apply H. lia. }
  rewrite (retry_step _ _ _ _ _ _ _ _ B1 R1) by (unfold sleep_max; lia).
  destruct (body_request_failure url path name (rested 5 (asked url w))) as (e2 & B2 & R2).
  { simpl. specialize (H 1%nat). rewrite Nat.add_1_r in H. apply H. lia. }
  rewrite (retry_step _ _ _ _ _ _ _ _ B2 R2) by (unfold sleep_max; lia).
  destruct (body_request_failure url path name
              (rested (5 * 2) (asked url (rested 5 (asked url w))))) as (e3 & B3 & R3).
  { simpl. specialize (H 2%nat). replace (calls w + 2)%nat with (S (S (calls w))) in H by lia.
    apply H. lia. }
  rewrite (retry_step _ _ _ _ _ _ _ _ B3 R3) by (unfold sleep_max; lia).
  simpl. unfold raise, gave_up, asked, rested. simpl. f_equal. f_equal.
  - lia.
  - now rewrite <- !app_assoc.
  - now rewrite <- !app_assoc.
Qed.

Lemma retried_0 url w : retried url 0 w = w.
Proof.
  destruct w. unfold retried. simpl. f_equal; [lia | apply app_nil_r | apply app_nil_r].
Qed.

Lemma retried_1 url w : retried url 1 w = rested 5 (asked url w).
Proof. unfold retried, rested, asked. simpl. f_equal. lia. Qed.

Lemma retried_2 url w :
  retried url 2 w = rested (5 * 2) (asked url (rested 5 (asked url w))).
Proof.
  unfold retried, rested, asked. simpl. f_equal; [lia | |]; now rewrite <- !app_assoc.
Qed.

Lemma wrapper_loop_settles {A} (func : M A) max_retries backoff todo delay w r w' :
  func w = (r, w') -> settled r ->
  wrapper_loop func max_retries backoff (S todo) delay w = (r, w').
Proof.
  intros E Hr. destruct r as [a|e].
  - now apply retry_ok.
  - apply retry_stop; [exact E | now apply Hr].
Qed.

(** After [k < 3] calls that failed at the request, the download is what the
    body does next, unless that is one more failure of the requests library. *)
Lemma download_settles url path name w k r w' :
  (k < 3)%nat ->
  (forall j, (j < k)%nat -> request_failure (net w (calls w + j)) = true) ->
  download_excel_file_body url path name (retried url k w) = (r, w') ->
  settled r ->
  download_excel_file url path name w = (r, w').
Proof.
  intros Hk Hfail Hb Hr.
  assert (Hend : forall todo delay w0,
             download_excel_file_body url path name w0 = (r, w') ->
             wrapper_loop (download_excel_file_body url path name) 3 2 (S todo) delay w0
             = (r, w')).
  { intros todo delay w0 E. now apply wrapper_loop_settles. }
  unfold download_excel_file, retry_request.
  destruct k as [|[|[|k]]]; [| | |lia].
  - rewrite retried_0 in Hb. now apply Hend.
  - destruct (body_request_failure url path name w) as (e1 & B1 & R1).
    { specialize (Hfail 0%nat). rewrite Nat.add_0_r in Hfail. apply Hfail. lia. }
    rewrite (retry_step _ _ _ _ _ _ _ _ B1 R1) by (unfold sleep_max; lia).
    rewrite retried_1 in Hb. now apply Hend.
  - destruct (body_request_failure url path name w) as (e1 & B1 & R1).
    { specialize (Hfail 0%nat). rewrite Nat.add_0_r in Hfail. apply Hfail. lia. }
    rewrite (retry_step _ _ _ _ _ _ _ _ B1 R1) by (unfold sleep_max; lia).
    destruct (body_request_failure url path name (rested 5 (asked url w)))
      as (e2 & B2 & R2).
    { simpl. specialize (Hfail 1%nat). rewrite Nat.add_1_r in Hfail. apply Hfail. lia. }
    rewrite (retry_step _ _ _ _ _ _ _ _ B2 R2) by (unfold sleep_max; lia).
    rewrite retried_2 in Hb. now apply Hend.
Qed.

(** ** The gate *)

Lemma check_cases url lq sp name w :
  (exists w', check_excel_for_latest_quarter url lq sp name w = (Ok (false, lq), w'))
  \/ exists q w1 w' hdr newest known,
       check_excel_for_latest_quarter url lq sp name w = (Ok (true, q), w')
       /\ download_excel_file url (scratch_path name) name w = (Ok tt, w1)
       /\ local_fs w1 !! scratch_path name = Some (Workbook (Some hdr))
       /\ py_max column_key tuple_gt (Quarter.quarter_columns (normalize_header hdr)) = Ok q
       /\ quarter_to_tuple q = Ok newest
       /\ quarter_to_tuple (Text.strip lq) = Ok known
       /\ tuple_gt newest known = true
       /\ w' = set_local_fs (delete (scratch_path name) (local_fs w1)) w1.
Proof.
  unfold check_excel_for_latest_quarter, try_except, bind, scratch_path.
  destruct (download_excel_file url ("/tmp/" +:+ name) name w) as [[[]|e] w1] eqn:D;
    [|left; eexists; reflexivity].
  unfold read_excel_columns.
  destruct (local_fs w1 !! ("/tmp/" +:+ name)) as [[[hdr|]]|] eqn:F;
    [| left; eexists; reflexivity | left; eexists; reflexivity].
  unfold lift.
  destruct (py_max column_key tuple_gt (Quarter.quarter_columns (normalize_header hdr)))
    as [q|e] eqn:Hmax; [|left; eexists; reflexivity].
  destruct (quarter_to_tuple q) as [newest|e] eqn:Hq; [|left; eexists; reflexivity].
  destruct (quarter_to_tuple (Text.strip lq)) as [known|e] eqn:Hk;
    [|left; eexists; reflexivity].
  unfold os_remove, ret.
  destruct (tuple_gt newest known) eqn:Hgt; rewrite F.
  - right. exists q, w1, (set_local_fs (delete ("/tmp/" +:+ name) (local_fs w1)) w1),
      hdr, newest, known. repeat split; auto.
  - left. eexists; reflexivity.
Qed.

Lemma check_no_quarter_columns url lq sp name w w1 hdr :
  download_excel_file url (scratch_path name) name w = (Ok tt, w1) ->
  local_fs w1 !! scratch_path name = Some (Workbook (Some hdr)) ->
  Quarter.quarter_columns (normalize_header hdr) = [] ->
  check_excel_for_latest_quarter url lq sp name w = (Ok (false, lq), w1).
Proof.
  unfold check_excel_for_latest_quarter, try_except, bind, scratch_path.
  intros -> F E. unfold read_excel_columns. rewrite F. unfold lift. rewrite E.
  reflexivity.
Qed.

(** ** The page scanner *)

Lemma prefix_app_l a b : forall s,
  String.prefix (a +:+ b) s = true -> String.prefix a s = true.
Proof.
  induction a as [|c a IH]; simpl; intros s H; [destruct s; reflexivity|].
  destruct s as [|c' s]; [discriminate|]. simpl in *.
  destruct (ascii_dec c c'); [auto | discriminate].
Qed.

Lemma prefix_xlsx_xls s : String.prefix ".xlsx" s = true -> String.prefix ".xls" s = true.
Proof. apply (prefix_app_l ".xls" "x"). Qed.

Lemma contains_xlsx_xls s : Text.contains ".xlsx" s = true -> Text.contains ".xls" s = true.
Proof.
  induction s as [|c s IH].
  - simpl. discriminate.
  - cbn [Text.contains]. rewrite !orb_true_iff. intros [H | H].
    + left. now apply prefix_xlsx_xls.
    + right. auto.
Qed.

Lemma find_excel_link_spec links :
  match find_excel_link links with
  | Some l =>
      exists before after,
        links = before ++ l :: after /\ Text.contains ".xls" l = true
        /\ Forall (fun x => Text.contains ".xls" x = false) before
  | None => Forall (fun x => Text.contains ".xls" x = false) links
  end.
Proof.
  induction links as [|href rest IH]; simpl; [constructor|].
  destruct (Text.contains ".xls" href) eqn:H1; simpl.
  - exists [], rest. auto.
  - destruct (Text.contains ".xlsx" href) eqn:H2.
    + apply contains_xlsx_xls in H2. congruence.
    + destruct (find_excel_link rest) as [l|].
      * destruct IH as (before & after & -> & Hl & Hb).
        exists (href :: before), after. auto.
      * constructor; auto.
Qed.

(** ** Renaming one column *)

Lemma isdigit_plain c : py_isdigit c = true -> plain c = true.
Proof. destruct c as [[] [] [] [] [] [] [] []]; vm_compute; congruence. Qed.

Lemma re_digit_isdigit c : re_digit c = true -> py_isdigit c = true.
Proof. unfold py_isdigit. intros ->. reflexivity. Qed.

Lemma forallb_impl (p q : ascii -> bool) s :
  (forall c, p c = true -> q c = true) ->
  Text.forallb p s = true -> Text.forallb q s = true.
Proof.
  intros Hpq. induction s as [|c s IH]; simpl; [reflexivity|]. intros H.
  apply andb_prop in H as [Hc Hs]. now rewrite (Hpq _ Hc), IH.
Qed.

Lemma forallb_app p s t :
  Text.forallb p (s +:+ t) = Text.forallb p s && Text.forallb p t.
Proof. induction s as [|c s IH]; simpl; [reflexivity|]. now rewrite IH, andb_assoc. Qed.

Lemma replace_plain o old new s t :
  plain o = false -> Text.forallb plain s = true ->
  Text.replace (String o old) new (s +:+ t) = s +:+ Text.replace (String o old) new t.
Proof.
  intros Ho. unfold Text.replace. induction s as [|c s IH]; simpl; [reflexivity|].
  intros H. apply andb_prop in H as [Hc Hs].
  destruct (ascii_dec o c) as [->|_]; [congruence|].
  f_equal. now apply IH.
Qed.

Lemma drop_while_end_plain s t :
  Text.forallb plain s = true ->
  Text.drop_while_end py_space (s +:+ t) = s +:+ Text.drop_while_end py_space t.
Proof.
  induction s as [|c s IH]; simpl; [reflexivity|]. intros H.
  apply andb_prop in H as [Hc Hs]. rewrite IH by assumption.
  assert (py_space c = false) as ->.
  { unfold plain in Hc. apply andb_prop in Hc as [_ Hc]. now destruct (py_space c). }
  now destruct (s +:+ Text.drop_while_end py_space t).
Qed.

Lemma drop_while_plain c s :
  plain c = true -> Text.drop_while py_space (String c s) = String c s.
Proof.
  intros Hc. simpl. unfold plain in Hc. apply andb_prop in Hc as [_ Hc].
  now destruct (py_space c).
Qed.

Lemma strip_plain s t :
  Text.forallb plain s = true -> s <> EmptyString ->
  Text.strip (s +:+ t) = s +:+ Text.drop_while_end py_space t.
Proof.
  intros Hs Hne. unfold Text.strip. destruct s as [|c s]; [congruence|].
  pose proof Hs as Hs'. simpl in Hs'. apply andb_prop in Hs' as [Hc _].
  change (String c s +:+ t) with (String c (s +:+ t)).
  rewrite drop_while_plain by assumption.
  now apply (drop_while_end_plain (String c s)).
Qed.

Lemma split_nonempty sep s : Text.split sep s <> [].
Proof.
  induction s as [|c s IH]; simpl; [discriminate|].
  destruct (Ascii.eqb c sep); [discriminate|].
  destruct (Text.split sep s); [congruence | discriminate].
Qed.

Lemma split_plain s t :
  Text.forallb plain s = true ->
  Text.split " " (s +:+ t)
  = match Text.split " " t with
    | p :: ps => (s +:+ p) :: ps
    | [] => [s]
    end.
Proof.
  induction s as [|c s IH]; simpl; intros H.
  - pose proof (split_nonempty " " t).
    destruct (Text.split " " t); [congruence | reflexivity].
  - apply andb_prop in H as [Hc Hs]. rewrite IH by assumption.
    assert (Ascii.eqb c " " = false) as ->.
    { destruct (Ascii.eqb_spec c " "); [subst; discriminate | reflexivity]. }
    pose proof (split_nonempty " " t). now destruct (Text.split " " t).
Qed.

Lemma clean_plain s tail :
  Text.forallb plain s = true -> s <> EmptyString ->
  clean_col_name (s +:+ tail) = s +:+ clean_tail tail.
Proof.
  intros Hs Hne. unfold clean_col_name, clean_tail.
  rewrite !replace_plain by (assumption || reflexivity).
  now apply strip_plain.
Qed.

Lemma isdigit_forallb s : Text.isdigit s = true -> Text.forallb py_isdigit s = true.
Proof. destruct s; [discriminate | auto]. Qed.

Lemma new_col_name_year ys tail p1 rest qq :
  Text.forallb py_isdigit ys = true -> ys <> EmptyString ->
  Text.split " " (clean_tail tail) = EmptyString :: p1 :: rest ->
  quarter_num (Text.lower (Text.strip p1)) = Some qq ->
  new_col_name (ys +:+ tail) = ys +:+ qq.
Proof.
  intros Hd Hne Hsplit Hq.
  assert (Hp : Text.forallb plain ys = true).
  { eapply forallb_impl; [apply isdigit_plain | exact Hd]. }
  unfold new_col_name. rewrite clean_plain, split_plain, Hsplit by assumption.
  rewrite append_nil_r.
  replace (Text.strip ys) with ys.
  2:{ rewrite <- (append_nil_r ys) at 2. rewrite strip_plain by assumption.
      now rewrite append_nil_r. }
  rewrite Hq. destruct ys; [congruence|]. unfold Text.isdigit. now rewrite Hd.
Qed.

Lemma new_col_name_digits x : Text.forallb py_isdigit x = true -> new_col_name x = x.
Proof.
  intros Hd. destruct x as [|c x]; [reflexivity|].
  assert (Hp : Text.forallb plain (String c x) = true).
  { eapply forallb_impl; [apply isdigit_plain | exact Hd]. }
  unfold new_col_name. rewrite <- (append_nil_r (String c x)) at 1.
  rewrite clean_plain, split_plain by (assumption || discriminate). reflexivity.
Qed.

Lemma quarter_num_digits q qq :
  quarter_num q = Some qq -> Text.forallb py_isdigit qq = true.
Proof.
  unfold quarter_num.
  repeat match goal with |- context [if ?b then _ else _] => destruct b end;
    intros [= <-]; reflexivity.
Qed.

Lemma new_col_name_cases c :
  renamed_to c (new_col_name c)
  \/ (new_col_name c = c /\ forall t, ~ renamed_to c t).
Proof.
  unfold new_col_name, renamed_to.
  destruct (Text.split " " (clean_col_name c)) as [|p0 [|p1 rest]] eqn:E.
  - right. split; [reflexivity|]. intros t (? & ? & ? & ? & ? & _). discriminate.
  - right. split; [reflexivity|]. intros t (? & ? & ? & ? & ? & _). discriminate.
  - destruct (quarter_num (Text.lower (Text.strip p1))) as [qq|] eqn:Hq.
    + destruct (Text.isdigit (Text.strip p0)) eqn:Hd.
      * left. exists p0, p1, rest, qq. auto.
      * right. split; [reflexivity|].
        intros t (? & ? & ? & ? & [= <- <- <-] & Hd' & _). congruence.
    + right. split; [reflexivity|].
      intros t (? & ? & ? & ? & [= <- <- <-] & _ & Hq' & _). congruence.
Qed.

(** The loop body against the rule in words *)

Lemma prefix_occurs p : forall s,
  String.prefix p s = true <-> exists post, s = p +:+ post.
Proof.
  induction p as [|a p IH]; intros s.
  - split; [intros _; exists s; reflexivity | intros _; destruct s; reflexivity].
  - destruct s as [|b s]; simpl.
    + split; [discriminate | intros [post E]; discriminate].
    + destruct (ascii_dec a b) as [->|Hne].
      * rewrite IH. split; intros [post E]; exists post; [now rewrite E | now injection E].
      * split; [discriminate | intros [post E]; injection E as E _; congruence].
Qed.

Lemma contains_occurs pat s : Text.contains pat s = true <-> occurs pat s.
Proof.
  unfold occurs. induction s as [|c s IH].
  - cbn [Text.contains]. rewrite orb_false_r, prefix_occurs. split.
    + intros [post E]. exists EmptyString, post. exact E.
    + intros (pre & post & E). destruct pre; [eauto | discriminate].
  - cbn [Text.contains]. rewrite orb_true_iff, prefix_occurs, IH. split.
    + intros [[post E] | (pre & post & E)].
      * exists EmptyString, post. exact E.
      * exists (String c pre), post. simpl. now rewrite E.
    + intros (pre & post & E). destruct pre as [|c' pre].
      * left. exists post. exact E.
      * right. simpl in E. injection E as _ E. eauto.
Qed.

Lemma contains_not_occurs pat s : Text.contains pat s = false <-> ~ occurs pat s.
Proof.
  rewrite <- contains_occurs. destruct (Text.contains pat s); split; congruence.
Qed.

Lemma quarter_num_spec q qq : quarter_num q = Some qq <-> ordinal_inside q qq.
Proof.
  unfold quarter_num, ordinal_inside.
  rewrite <- !contains_occurs.
  destruct (Text.contains "1st" q), (Text.contains "2nd" q), (Text.contains "3rd" q),
    (Text.contains "3nd" q), (Text.contains "4th" q); simpl;
    (split; [intros E; try discriminate E; injection E as <-; intuition congruence
            | intuition congruence]).
Qed.

Lemma replace_char x new c s :
  Text.replace (String x EmptyString) new (String c s)
  = if Ascii.eqb c x then new +:+ Text.replace (String x EmptyString) new s
    else String c (Text.replace (String x EmptyString) new s).
Proof.
  unfold Text.replace. cbn [Text.replace_go String.prefix String.length Nat.pred].
  destruct (ascii_dec x c) as [->|Hne].
  - rewrite Ascii.eqb_refl. now destruct s.
  - destruct (Ascii.eqb_spec c x); [congruence | reflexivity].
Qed.

Lemma replace_char_other x new c s :
  c <> x ->
  Text.replace (String x EmptyString) new (String c s)
  = String c (Text.replace (String x EmptyString) new s).
Proof.
  intros H. rewrite replace_char. destruct (Ascii.eqb_spec c x); [congruence | reflexivity].
Qed.

Lemma replace_char_same x new s :
  Text.replace (String x EmptyString) new (String x s)
  = new +:+ Text.replace (String x EmptyString) new s.
Proof. rewrite replace_char. now rewrite Ascii.eqb_refl. Qed.

Lemma replace_pair_hit x y new s :
  Text.replace (String x (String y EmptyString)) new (String x (String y s))
  = new +:+ Text.replace (String x (String y EmptyString)) new s.
Proof.
  unfold Text.replace. cbn [Text.replace_go String.prefix String.length Nat.pred].
  destruct (ascii_dec x x); [|congruence]. destruct (ascii_dec y y); [|congruence].
  now destruct s.
Qed.

Lemma replace_pair_miss x y new c s :
  String.prefix (String x (String y EmptyString)) (String c s) = false ->
  Text.replace (String x (String y EmptyString)) new (String c s)
  = String c (Text.replace (String x (String y EmptyString)) new s).
Proof.
  unfold Text.replace. cbn [Text.replace_go]. now intros ->.
Qed.

Lemma clean_blanked_go n : forall s,
  (String.length s <= n)%nat ->
  Text.replace "_" " "
    (Text.replace (String newline EmptyString) " "
       (Text.replace (String "_" (String newline EmptyString)) " " s))
  = blanked s.
Proof.
  induction n as [|n IH]; intros s Hn.
  - destruct s; [reflexivity | simpl in Hn; lia].
  - destruct s as [|c s]; [reflexivity|]. simpl in Hn.
    cbn [blanked]. destruct (Ascii.eqb_spec c "_") as [->|Hu].
    + destruct s as [|c' s].
      * reflexivity.
      * destruct (Ascii.eqb_spec c' newline) as [->|Hl].
        -- rewrite replace_pair_hit. cbn [String.append].
           rewrite !replace_char_other by discriminate.
           f_equal. apply IH. simpl in Hn. lia.
        -- rewrite replace_pair_miss.
           2:{ cbn [String.prefix]. destruct (ascii_dec "_" "_"); [|congruence].
               destruct (ascii_dec newline c'); [congruence|reflexivity]. }
           rewrite replace_char_other by discriminate.
           rewrite replace_char_same. cbn [String.append].
           f_equal. apply IH. lia.
    + rewrite replace_pair_miss.
      2:{ cbn [String.prefix]. destruct (ascii_dec "_" c); [congruence|reflexivity]. }
      destruct (Ascii.eqb_spec c newline) as [->|Hl].
      * rewrite replace_char_same. cbn [String.append].
        rewrite replace_char_other by discriminate.
        f_equal. apply IH. lia.
      * rewrite !replace_char_other by assumption.
        f_equal. apply IH. lia.
Qed.

Lemma clean_blanked c : clean_col_name c = Text.strip (blanked c).
Proof. unfold clean_col_name. f_equal. now apply (clean_blanked_go (String.length c)). Qed.

Lemma renamed_to_rule c t : renamed_to c t <-> quarter_rule c t.
Proof.
  unfold renamed_to, quarter_rule. rewrite clean_blanked.
  split; intros (p0 & p1 & rest & qq & Hs & Hd & Hq & Ht); exists p0, p1, rest, qq;
    (split; [exact Hs|]); (split; [exact Hd|]); (split; [|exact Ht]);
    now apply quarter_num_spec.
Qed.

(** What the loop body does to a name, by the rule in words. *)
Lemma new_col_name_rule c :
  quarter_rule c (new_col_name c)
  \/ (new_col_name c = c /\ forall t, ~ quarter_rule c t).
Proof.
  destruct (new_col_name_cases c) as [H | [H Hn]].
  - left. now apply renamed_to_rule.
  - right. split; [exact H|]. intros t Ht. apply (Hn t). now apply renamed_to_rule.
Qed.

Lemma quarter_rule_functional c t t' : quarter_rule c t -> quarter_rule c t' -> t = t'.
Proof.
  intros (p0 & p1 & rest & qq & Hs & _ & Hq & ->) (p0' & p1' & rest' & qq' & Hs' & _ & Hq' & ->).
  rewrite Hs in Hs'. injection Hs' as <- <- <-.
  apply quarter_num_spec in Hq, Hq'. congruence.
Qed.

Lemma renamed_to_digits c t : renamed_to c t -> Text.forallb py_isdigit t = true.
Proof.
  intros (p0 & p1 & rest & qq & _ & Hd & Hq & ->).
  rewrite forallb_app, (isdigit_forallb _ Hd), (quarter_num_digits _ _ Hq). reflexivity.
Qed.

Lemma new_col_name_idempotent c : new_col_name (new_col_name c) = new_col_name c.
Proof.
  destruct (new_col_name_cases c) as [H | [H _]].
  - now apply new_col_name_digits, (renamed_to_digits c).
  - now rewrite !H.
Qed.

(** ** Tables *)

Section FrameFacts.
Context {value : Type} `{EqDecision value}.
Variable vadd : value -> value -> value.
Variable of_long : Z -> value.
Variable cast_double : string -> option value.
Variable mono_id : nat -> Z.

Abbreviation DataFrame := (@DataFrame value).
Abbreviation cell := (@cell value).

(** *** Renaming all the columns *)

Lemma fold_rename_columns pairs : forall df : DataFrame,
  columns (fold_left (fun d on => withColumnRenamed d (fst on) (snd on)) pairs df)
  = List.map (apply_all pairs) (columns df)
  /\ rows (fold_left (fun d on => withColumnRenamed d (fst on) (snd on)) pairs df)
     = rows df.
Proof.
  induction pairs as [|[old new] pairs IH]; intros df; simpl.
  - split; [|reflexivity]. unfold apply_all. simpl. now rewrite map_id.
  - destruct (IH (withColumnRenamed df old new)) as [Hc Hr].
    rewrite Hc, Hr. split; [|reflexivity]. simpl.
    rewrite List.map_map. reflexivity.
Qed.

Lemma apply_all_fixed l x :
  new_col_name x = x ->
  apply_all (List.map (fun c => (c, new_col_name c)) l) x = x.
Proof.
  unfold apply_all. induction l as [|c l IH]; simpl; intros Hx; [reflexivity|].
  destruct (String.eqb_spec x c) as [<-|_]; [rewrite Hx|]; auto.
Qed.

Lemma apply_all_member l x :
  In x l -> apply_all (List.map (fun c => (c, new_col_name c)) l) x = new_col_name x.
Proof.
  induction l as [|c l IH]; simpl; [contradiction|]. intros Hin.
  unfold apply_all. simpl. destruct (String.eqb_spec x c) as [<-|Hne].
  - apply apply_all_fixed, new_col_name_idempotent.
  - apply IH. destruct Hin; [congruence | assumption].
Qed.

Lemma rename_columns_spec (df : DataFrame) :
  columns (rename_columns df) = List.map new_col_name (columns df)
  /\ rows (rename_columns df) = rows df.
Proof.
  unfold rename_columns.
  destruct (fold_rename_columns
              (List.map (fun c => (c, new_col_name c)) (columns df)) df) as [Hc Hr].
  rewrite Hc, Hr. split; [|reflexivity].
  apply map_ext_in. intros x Hx. now apply apply_all_member.
Qed.

(** *** Unpivoting *)

Lemma resolve_all_length names cols idx :
  resolve_all names cols = Ok idx -> length idx = length names.
Proof.
  revert idx. induction names as [|n names IH]; simpl; intros idx H.
  - now injection H as <-.
  - destruct (resolve n cols); [|discriminate].
    destruct (resolve_all names cols); [|discriminate].
    injection H as <-. simpl. f_equal. now apply IH.
Qed.

Lemma length_concat_const {A} (ls : list (list A)) n :
  Forall (fun l => length l = n) ls -> length (List.concat ls) = (length ls * n)%nat.
Proof.
  induction 1 as [|l ls Hl _ IH]; simpl; [reflexivity|].
  rewrite length_app, IH, Hl. reflexivity.
Qed.

Lemma unpivot_count (df out : DataFrame) qcols :
  unpivot df qcols = Ok out ->
  count out = (count df * length qcols)%nat
  /\ columns out = ["Category"; "Sub_Category"; "Quarter"; "Quantity"].
Proof.
  unfold unpivot, count.
  destruct (resolve "Category" (columns df)) as [c|]; [|discriminate].
  destruct (resolve "Sub_Category" (columns df)) as [s|]; [|discriminate].
  destruct (resolve_all qcols (columns df)) as [idx|] eqn:Hidx; [|discriminate].
  destruct qcols as [|q qcols]; [discriminate|]. intros [= <-]. cbn [rows columns].
  split; [|reflexivity].
  apply resolve_all_length in Hidx.
  rewrite (length_concat_const _ (length (q :: qcols))), length_map; [reflexivity|].
  apply List.Forall_forall. intros l Hl. apply List.in_map_iff in Hl as (r & <- & _).
  change (length (List.map (fun qi : string * nat =>
                              [at_ r c; at_ r s; Str (fst qi); at_ r (snd qi)])
                    (combine (q :: qcols) idx)) = length (q :: qcols)).
  rewrite length_map, length_combine, Hidx. apply Nat.min_id.
Qed.

Lemma unpivot_succeeds (df : DataFrame) qcols c s idx :
  resolve "Category" (columns df) = Ok c ->
  resolve "Sub_Category" (columns df) = Ok s ->
  resolve_all qcols (columns df) = Ok idx ->
  qcols <> [] ->
  exists out, unpivot df qcols = Ok out.
Proof.
  intros Hc Hs Hidx Hne. unfold unpivot. rewrite Hc, Hs, Hidx.
  destruct qcols; [congruence | eauto].
Qed.

Lemma set_column_count (df : DataFrame) name f :
  count (set_column df name f) = count df.
Proof.
  unfold set_column, count. destruct (has_column name (columns df)); simpl;
    apply length_imap.
Qed.

Lemma transform_inv (sheet : DataFrame) file_name today nb :
  transform vadd of_long cast_double mono_id sheet file_name today = Ok nb ->
  df_renamed nb = rename_columns (final_df nb)
  /\ Frame.quarter_columns nb = List.filter Text.isdigit (columns (df_renamed nb))
  /\ unpivot (df_renamed nb) (Frame.quarter_columns nb) = Ok (df_unpivot nb)
  /\ finalDF nb
     = withColumn_lit (withColumn_lit (df_unpivot nb) "FileName" (Str file_name))
         "ProcessedDate" (Str today)
  /\ saved nb = write_csv (spark_df nb).
Proof.
  unfold transform, bind_r.
  repeat match goal with
         | |- match ?x with Ok _ => _ | Raise _ => _ end = _ -> _ =>
             let H := fresh "E" in destruct x eqn:H; [|discriminate]
         end.
  intros [= <-]. simpl. auto.
Qed.

(** *** What the saved table looks like *)

Lemma set_column_keeps (df : DataFrame) name f x :
  In x (columns df) -> In x (columns (set_column df name f)).
Proof.
  unfold set_column. destruct (has_column name (columns df)); simpl; [auto|].
  intros Hx. apply in_or_app. auto.
Qed.

Lemma set_column_has (df : DataFrame) name f :
  In name (columns (set_column df name f)).
Proof.
  unfold set_column. destruct (has_column name (columns df)) eqn:Hh; simpl.
  - unfold has_column in Hh. apply existsb_exists in Hh as (c & Hc & E).
    apply String.eqb_eq in E. now subst.
  - apply in_or_app. simpl. auto.
Qed.

Lemma withColumn1_keeps (df df' : DataFrame) name a f x :
  withColumn1 df name a f = Ok df' ->
  (In x (columns df) -> In x (columns df')) /\ count df' = count df.
Proof.
  unfold withColumn1. destruct (resolve a (columns df)); [|discriminate].
  intros [= <-]. split; [apply set_column_keeps | apply set_column_count].
Qed.

Lemma withColumn2_keeps (df df' : DataFrame) name a b f x :
  withColumn2 df name a b f = Ok df' ->
  (In x (columns df) -> In x (columns df')) /\ count df' = count df.
Proof.
  unfold withColumn2. destruct (resolve a (columns df)); [|discriminate].
  destruct (resolve b (columns df)); [|discriminate].
  intros [= <-]. split; [apply set_column_keeps | apply set_column_count].
Qed.

Lemma load_has_id (sheet df : DataFrame) :
  load mono_id sheet = Ok df -> In "id" (columns df) /\ count df = count sheet.
Proof.
  unfold load, select_alias.
  destruct (forallb plain_reference _); [|discriminate].
  destruct (resolve_all _ _) as [idx|]; [|discriminate].
  assert (Hid : In "id" (List.map
                           (fun c : string => Text.replace " " "_" c)
                           (columns (withColumn_id mono_id sheet)))).
  { apply in_map_iff. exists "id". split; [reflexivity | apply set_column_has]. }
  assert (Hn : length (List.map (fun r : list cell => List.map (at_ r) idx)
                         (rows (withColumn_id mono_id sheet))) = count sheet).
  { rewrite length_map. apply set_column_count. }
  rewrite List.map_map. cbn [snd columns].
  destruct (has_column "Column1" _); intros [= <-]; split; try exact Hn.
  - cbn [withColumnRenamed columns]. apply in_map_iff. exists "id". split; [reflexivity|].
    exact Hid.
  - exact Hid.
Qed.

Lemma transform_saved (sheet : DataFrame) file_name today nb :
  transform vadd of_long cast_double mono_id sheet file_name today = Ok nb ->
  In "id" (columns (spark_df nb)) /\ count (spark_df nb) = count sheet.
Proof.
  unfold transform, bind_r.
  destruct (load mono_id sheet) as [d0|] eqn:E0; [|discriminate].
  destruct (clean_category d0) as [d1|] eqn:E1; [|discriminate].
  destruct (add_sub_category d1) as [d2|] eqn:E2; [|discriminate].
  destruct (update_category d2) as [d3|] eqn:E3; [|discriminate].
  repeat match goal with
         | |- match ?x with Ok _ => _ | Raise _ => _ end = _ -> _ =>
             destruct x; [|discriminate]
         end.
  intros [= <-]. cbn [spark_df].
  apply load_has_id in E0 as [I0 C0].
  unfold clean_category, bind_r in E1.
  destruct (withColumn1 d0 "Category" "Category" trim) as [d0'|] eqn:E1a; [|discriminate].
  apply (withColumn1_keeps _ _ _ _ _ "id") in E1a as [I1a C1a].
  apply (withColumn1_keeps _ _ _ _ _ "id") in E1 as [I1 C1].
  apply (withColumn2_keeps _ _ _ _ _ _ "id") in E2 as [I2 C2].
  apply (withColumn2_keeps _ _ _ _ _ _ "id") in E3 as [I3 C3].
  split; [auto | congruence].
Qed.

Lemma finalDF_columns (df out : DataFrame) qcols (file_name today : cell) :
  unpivot df qcols = Ok out ->
  columns (withColumn_lit (withColumn_lit out "FileName" file_name)
             "ProcessedDate" today)
  = ["Category"; "Sub_Category"; "Quarter"; "Quantity"; "FileName"; "ProcessedDate"].
Proof.
  intros H. apply unpivot_count in H as [_ Hc].
  unfold withColumn_lit, set_column. rewrite Hc. reflexivity.
Qed.

End FrameFacts.

(** ** Sub_Category and Category *)

Lemma hd_split sep s : hd EmptyString (Text.split sep s) = before sep s.
Proof.
  induction s as [|c s IH]; simpl; [reflexivity|].
  destruct (Ascii.eqb c sep); [reflexivity|].
  destruct (Text.split sep s); simpl in *; congruence.
Qed.

Section Buckets.
Context {value : Type} `{EqDecision value}.

Abbreviation DataFrame := (@DataFrame value).
Abbreviation cell := (@cell value).

Lemma positions_ge name cols : forall k j, In j (positions name cols k) -> (k <= j)%nat.
Proof.
  induction cols as [|c cols IH]; simpl; intros k j Hj; [contradiction|].
  destruct (String.eqb c name).
  - destruct Hj as [<- | Hj]; [lia|]. apply IH in Hj. lia.
  - apply IH in Hj. lia.
Qed.

Lemma positions_nth name cols : forall k j,
  In j (positions name cols k) <-> (k <= j)%nat /\ nth_error cols (j - k) = Some name.
Proof.
  induction cols as [|c cols IH]; simpl; intros k j.
  - split; [contradiction|]. intros [_ H]. destruct (j - k)%nat; discriminate.
  - assert (Hstep : In j (positions name cols (S k))
                    <-> (S k <= j)%nat /\ nth_error cols (j - S k) = Some name)
      by apply IH.
    destruct (String.eqb_spec c name) as [->|Hne]; simpl; rewrite Hstep.
    + split.
      * intros [<- | [Hle Hn]].
        -- rewrite Nat.sub_diag. auto.
        -- split; [lia|]. replace (j - k)%nat with (S (j - S k)) by lia. exact Hn.
      * intros [Hle Hn]. destruct (Nat.eq_dec k j) as [->|]; [auto|]. right.
        split; [lia|]. replace (j - k)%nat with (S (j - S k)) in Hn by lia. exact Hn.
    + split.
      * intros [Hle Hn]. split; [lia|].
        replace (j - k)%nat with (S (j - S k)) by lia. exact Hn.
      * intros [Hle Hn]. destruct (Nat.eq_dec k j) as [->|].
        -- rewrite Nat.sub_diag in Hn. simpl in Hn. congruence.
        -- split; [lia|]. replace (j - k)%nat with (S (j - S k)) in Hn by lia. exact Hn.
Qed.

Lemma resolve_positions name cols i :
  resolve name cols = Ok i <-> positions name cols 0 = [i].
Proof.
  unfold resolve. destruct (positions name cols 0) as [|j [|j' l]]; split;
    intros H; try discriminate; congruence.
Qed.

Lemma resolve_nth name cols i :
  resolve name cols = Ok i -> nth_error cols i = Some name.
Proof.
  intros H. apply resolve_positions in H.
  assert (Hin : In i (positions name cols 0)) by (rewrite H; simpl; auto).
  apply positions_nth in Hin as [_ Hn]. now rewrite Nat.sub_0_r in Hn.
Qed.

Lemma resolve_has name cols i : resolve name cols = Ok i -> has_column name cols = true.
Proof.
  intros H. apply resolve_nth in H. unfold has_column. apply existsb_exists.
  exists name. split; [eapply nth_error_In; eauto | apply String.eqb_refl].
Qed.

Lemma positions_absent name cols :
  has_column name cols = false -> forall k, positions name cols k = [].
Proof.
  unfold has_column. induction cols as [|c cols IH]; simpl; intros H k; [reflexivity|].
  apply orb_false_iff in H as [Hc Hr]. rewrite String.eqb_sym, Hc. now apply IH.
Qed.

Lemma positions_app name cols extra : forall k,
  positions name (cols ++ extra) k
  = positions name cols k ++ positions name extra (k + length cols).
Proof.
  induction cols as [|c cols IH]; simpl; intros k.
  - now rewrite Nat.add_0_r.
  - rewrite IH. replace (S k + length cols)%nat with (k + S (length cols))%nat by lia.
    now destruct (String.eqb c name).
Qed.

Lemma at_put cols : forall (r : list cell) name v j c,
  length r = length cols -> nth_error cols j = Some c ->
  at_ (put cols r name v) j = if String.eqb c name then v else at_ r j.
Proof.
  unfold at_. induction cols as [|c0 cols IH]; intros r name v j c Hl Hn.
  - destruct j; discriminate.
  - destruct r as [|x r]; [discriminate|]. simpl in Hl. destruct j as [|j]; simpl in *.
    + now injection Hn as ->.
    + apply IH; [lia | assumption].
Qed.

Lemma length_put cols : forall (r : list cell) name v,
  length r = length cols -> length (put cols r name v) = length cols.
Proof.
  induction cols as [|c cols IH]; intros [|x r] name v Hl; simpl in *; try lia.
  f_equal. apply IH. lia.
Qed.

Lemma at_app_l (r : list cell) v j : (j < length r)%nat -> at_ (r ++ [v]) j = at_ r j.
Proof. intros Hj. unfold at_. now rewrite app_nth1. Qed.

Lemma at_app_end (r : list cell) v : at_ (r ++ [v]) (length r) = v.
Proof. unfold at_. rewrite app_nth2, Nat.sub_diag by lia. reflexivity. Qed.

(** One row through [set_column]: the new column holds the computed cell,
    every other column keeps its cell. *)
Lemma set_column_cell (df : DataFrame) name f i (r : list cell) name' j :
  well_formed df -> rows df !! i = Some r ->
  resolve name' (columns (set_column df name f)) = Ok j ->
  exists r', rows (set_column df name f) !! i = Some r'
    /\ ((name' = name /\ at_ r' j = f i r)
        \/ (name' <> name /\ resolve name' (columns df) = Ok j /\ at_ r' j = at_ r j)).
Proof.
  intros Hwf Hr Hres.
  assert (Hlen : length r = length (columns df)).
  { eapply (proj1 (List.Forall_forall _ _) Hwf), list_elem_of_In, list_elem_of_lookup_2, Hr. }
  unfold set_column in *. destruct (has_column name (columns df)) eqn:Hhas; simpl in *.
  - exists (put (columns df) r name (f i r)). split.
    { rewrite list_lookup_imap, Hr. reflexivity. }
    pose proof (resolve_nth _ _ _ Hres) as Hn.
    rewrite (at_put _ _ _ _ _ _ Hlen Hn).
    destruct (String.eqb_spec name' name); [left | right]; auto.
  - exists (r ++ [f i r]). split.
    { rewrite list_lookup_imap, Hr. reflexivity. }
    apply resolve_positions in Hres. rewrite positions_app in Hres. simpl in Hres.
    destruct (String.eqb_spec name name') as [<-|Hne].
    + rewrite positions_absent in Hres by assumption. simpl in Hres.
      injection Hres as <-. left. split; [reflexivity|].
      rewrite <- Hlen. apply at_app_end.
    + rewrite app_nil_r in Hres. right. split; [congruence|].
      split; [now apply resolve_positions|].
      apply at_app_l. rewrite Hlen. apply nth_error_Some.
      assert (Hn : nth_error (columns df) j = Some name').
      { apply resolve_nth. now apply resolve_positions. }
      congruence.
Qed.

Lemma set_column_well_formed (df : DataFrame) name f :
  well_formed df -> well_formed (set_column df name f).
Proof.
  unfold well_formed, set_column. intros Hwf.
  destruct (has_column name (columns df)); simpl;
    apply List.Forall_forall; intros r' Hin;
    apply list_elem_of_In, list_elem_of_lookup in Hin as [i Hi];
    rewrite list_lookup_imap in Hi;
    destruct (rows df !! i) as [r|] eqn:Hr; try discriminate;
    injection Hi as <-;
    assert (Hlen : length r = length (columns df))
      by (eapply (proj1 (List.Forall_forall _ _) Hwf), list_elem_of_In,
            list_elem_of_lookup_2, Hr).
  - now apply length_put.
  - rewrite !length_app, Hlen. reflexivity.
Qed.

(** Lines 281-290 on one row: both new cells are functions of the row's id
    and of its cleaned category. *)
Lemma derive_row (df df1 df2 : DataFrame) i (r : list cell) id category :
  well_formed df ->
  add_sub_category df = Ok df1 ->
  update_category df1 = Ok df2 ->
  rows df !! i = Some r ->
  cell_of df "id" r = Some id ->
  cell_of df "Category" r = Some category ->
  exists r2,
    rows df2 !! i = Some r2
    /\ cell_of df2 "Sub_Category" r2 = Some (sub_category_of id category)
    /\ cell_of df2 "Category" r2
       = Some (category_of (sub_category_of id category) category).
Proof.
  intros Hwf H1 H2 Hr Hid Hcat.
  unfold add_sub_category, withColumn2 in H1. unfold cell_of in Hid, Hcat.
  destruct (resolve "id" (columns df)) as [ii|] eqn:Rid; [|discriminate].
  destruct (resolve "Category" (columns df)) as [ic|] eqn:Rcat; [|discriminate].
  injection Hid as <-. injection Hcat as <-. injection H1 as <-.
  set (df1 := set_column df "Sub_Category"
                (fun _ r => sub_category_of (at_ r ii) (at_ r ic))) in *.
  unfold update_category, withColumn2 in H2.
  destruct (resolve "Sub_Category" (columns df1)) as [s1|] eqn:Rs1; [|discriminate].
  destruct (resolve "Category" (columns df1)) as [c1|] eqn:Rc1; [|discriminate].
  injection H2 as <-.
  set (g := fun (_ : nat) (r : list cell) => category_of (at_ r s1) (at_ r c1)).
  assert (Hcols : columns (set_column df1 "Category" g) = columns df1).
  { unfold set_column. now rewrite (resolve_has _ _ _ Rc1). }
  assert (Hwf1 : well_formed df1) by now apply set_column_well_formed.
  destruct (set_column_cell df "Sub_Category" _ i r "Sub_Category" s1 Hwf Hr Rs1)
    as (r1 & Hr1 & [[_ Hs] | [Hne _]]); [|congruence].
  destruct (set_column_cell df "Sub_Category" _ i r "Category" c1 Hwf Hr Rc1)
    as (r1' & Hr1' & [[Hne _] | (_ & Rc & Hc)]); [discriminate|].
  fold df1 in Hr1, Hr1'. assert (r1' = r1) by congruence. subst r1'.
  assert (c1 = ic) by congruence. subst c1.
  assert (Rs2 : resolve "Sub_Category" (columns (set_column df1 "Category" g)) = Ok s1)
    by now rewrite Hcols.
  assert (Rc2 : resolve "Category" (columns (set_column df1 "Category" g)) = Ok ic)
    by now rewrite Hcols.
  destruct (set_column_cell df1 "Category" g i r1 "Sub_Category" s1 Hwf1 Hr1 Rs2)
    as (r2 & Hr2 & [[Hne _] | (_ & _ & Hs2)]); [discriminate|].
  destruct (set_column_cell df1 "Category" g i r1 "Category" ic Hwf1 Hr1 Rc2)
    as (r2' & Hr2' & [[_ Hc2] | [Hne _]]); [|congruence].
  assert (r2' = r2) by congruence. subst r2'.
  exists r2. split; [exact Hr2|]. unfold cell_of. rewrite Rs2, Rc2.
  rewrite Hs2, Hc2. unfold g. now rewrite Hs, Hc.
Qed.

Lemma length_append_lt (p s : string) :
  p <> EmptyString -> p +:+ s <> s.
Proof.
  intros Hp E. apply (f_equal String.length) in E. rewrite length_append in E.
  destruct p; [congruence | simpl in E; lia].
Qed.

Lemma sub_category_text (n : Z) (c : string) :
  sub_category_of (Long n) (Str c) = Str (value:=value) (bucket_prefix n +:+ c).
Proof.
  unfold sub_category_of, bucket_prefix, isin, concat_ws_prefix.
  destruct (existsb (Z.eqb n) [1; 2; 3]); [reflexivity|].
  destruct (existsb (Z.eqb n) [5; 6]); [reflexivity|].
  destruct (existsb (Z.eqb n) [8; 9]); reflexivity.
Qed.

Lemma sub_category_null (n : Z) :
  sub_category_of (Long n) Null
  = if String.eqb (bucket_prefix n) EmptyString then Null (value:=value)
    else Str (before "_" (bucket_prefix n)).
Proof.
  unfold sub_category_of, bucket_prefix, isin, concat_ws_prefix.
  destruct (existsb (Z.eqb n) [1; 2; 3]); [reflexivity|].
  destruct (existsb (Z.eqb n) [5; 6]); [reflexivity|].
  destruct (existsb (Z.eqb n) [8; 9]); reflexivity.
Qed.

Lemma category_null (s : cell) : category_of s Null = Null.
Proof. unfold category_of, neq. now destruct s. Qed.

Lemma category_text (s c : string) :
  category_of (Str s) (Str c)
  = Str (value:=value) (if String.eqb s c then c else before "_" s).
Proof.
  unfold category_of, neq, split_first. rewrite hd_split.
  destruct (String.eqb_spec s c) as [->|Hne].
  - now rewrite bool_decide_eq_true_2.
  - rewrite bool_decide_eq_false_2; [reflexivity | congruence].
Qed.

End Buckets.

(** * The claims *)

(** ** Quarter labels *)

Lemma valid_label_prefix s y n : valid_label s y n -> quarter_prefix s y n.
Proof.
  intros (ys & q & sfx & -> & Hl & Hd & Hs & Hy & Hn & _).
  exists ys, (String q EmptyString), sfx, EmptyString.
  rewrite append_nil_r. repeat split; auto; simpl; try lia.
  simpl in Hn. unfold Text.int in Hn. simpl in Hn.
  destruct (re_digit q); [reflexivity | discriminate].
Qed.

(** C4, as the code has it: [quarter_to_tuple] succeeds exactly on the texts
    that begin with four digits, a space, one or two digits, one of the
    suffixes st, nd, rd, th and the word quarter after a space; whatever
    follows is ignored and the quarter number is not limited to 1-4.  It
    returns the year and the quarter number read as integers, so every valid
    label of the specification yields its pair; every other text raises
    the ValueError that names it. *)
Theorem quarter_to_tuple_spec (s : string) :
  match quarter_to_tuple s with
  | Ok (y, n) => quarter_prefix s y n
  | Raise e => e = invalid_quarter s /\ forall y n, ~ quarter_prefix s y n
  end
  /\ (forall y n, quarter_prefix s y n -> quarter_to_tuple s = Ok (y, n))
  /\ (forall y n, valid_label s y n -> quarter_to_tuple s = Ok (y, n)).
Proof.
  split; [|split].
  - destruct (quarter_to_tuple s) as [[y n]|e] eqn:E.
    + now apply quarter_to_tuple_ok.
    + now apply quarter_to_tuple_raise.
  - apply quarter_to_tuple_prefix.
  - intros y n H. now apply quarter_to_tuple_prefix, valid_label_prefix.
Qed.

Lemma quarter_to_tuple_spec_witness :
  quarter_to_tuple "2024 2nd quarter" = Ok (2024, 2).
Proof.
  apply (proj2 (proj2 (quarter_to_tuple_spec "2024 2nd quarter"))).
  exists "2024", "2"%char, "nd". repeat split; try reflexivity; try lia.
  right. left. reflexivity.
Defined.

(** C4 fails as stated: a fifth quarter and a label followed by an annotation
    are parsed although neither is a valid label. *)
Lemma fifth_quarter_is_parsed :
  quarter_to_tuple "2024 5th quarter" = Ok (2024, 5)
  /\ quarter_to_tuple "2024 1st quarter [note 3]" = Ok (2024, 1)
  /\ (forall y n, ~ valid_label "2024 5th quarter" y n)
  /\ (forall y n, ~ valid_label "2024 1st quarter [note 3]" y n).
Proof.
  split; [reflexivity|]. split; [reflexivity|]. split.
  - intros y n (ys & q & sfx & E & Hl & _ & _ & _ & Hn & Hr).
    apply length_4_inv in Hl as (a & b & c & d & ->).
    unfold label_text in E. simpl in E. injection E as <- <- <- <- <- _.
    vm_compute in Hn. injection Hn as <-. lia.
  - intros y n (ys & q & sfx & E & Hl & _ & Hs & _).
    apply length_4_inv in Hl as (a & b & c & d & ->).
    unfold label_text in E.
    destruct Hs as [-> | [-> | [-> | ->]]]; simpl in E; discriminate.
Qed.

(** ** The download primitive *)

(** C3, as the code has it: the retry fires on every exception of the
    requests library, and the HTTPError that [raise_for_status] raises for a
    4xx/5xx status is one of them.  Three calls in a row that fail that way
    (connection failures or error statuses alike) are followed by pauses of 5,
    10 and 20 seconds and end in the terminal error.  An exception of any
    other kind surfaces at once, as it was raised, and a call that succeeds
    ends the download: at the first call, and as well at the second and at
    the third, after one or two failed requests and their pauses of 5 and 10
    seconds.  The last three parts say the same of any failure the requests
    library reports, wherever in the body it is raised: one such failure and
    its pause of 5 seconds, a second one and its pause of 10, then a third
    one and its pause of 20 and the terminal error. *)
Theorem download_retry_policy (url path name : string) (w : world) :
  ((forall k, (k < 3)%nat -> request_failure (net w (calls w + k)) = true) ->
   download_excel_file url path name w
   = (Raise (Exception "Failed to complete after 3 retries."), gave_up url w))
  /\ (forall e w',
        download_excel_file_body url path name w = (Raise e, w') ->
        is_RequestException e = false ->
        download_excel_file url path name w = (Raise e, w'))
  /\ (forall w',
        download_excel_file_body url path name w = (Ok tt, w') ->
        download_excel_file url path name w = (Ok tt, w'))
  /\ (forall k r w',
        (k < 3)%nat ->
        (forall j, (j < k)%nat -> request_failure (net w (calls w + j)) = true) ->
        download_excel_file_body url path name (retried url k w) = (r, w') ->
        settled r ->
        download_excel_file url path name w = (r, w'))
  /\ (forall w1 r w',
        failed_attempt (download_excel_file_body url path name) 5 w w1 ->
        download_excel_file_body url path name w1 = (r, w') ->
        settled r ->
        download_excel_file url path name w = (r, w'))
  /\ (forall w1 w2 r w',
        failed_attempt (download_excel_file_body url path name) 5 w w1 ->
        failed_attempt (download_excel_file_body url path name) 10 w1 w2 ->
        download_excel_file_body url path name w2 = (r, w') ->
        settled r ->
        download_excel_file url path name w = (r, w'))
  /\ (forall w1 w2 w3,
        failed_attempt (download_excel_file_body url path name) 5 w w1 ->
        failed_attempt (download_excel_file_body url path name) 10 w1 w2 ->
        failed_attempt (download_excel_file_body url path name) 20 w2 w3 ->
        download_excel_file url path name w
        = (Raise (Exception "Failed to complete after 3 retries."), w3)).
Proof.
  split; [apply download_persistent_failure|]. split.
  { intros e w' Hb He. unfold download_excel_file, retry_request.
    now apply retry_stop. }
  split.
  { intros w' Hb. unfold download_excel_file, retry_request. now apply retry_ok. }
  split.
  { intros k r w'. apply download_settles. }
  split; [|split].
  - intros w1 r w' (e1 & v1 & B1 & R1 & ->) Hb Hr.
    unfold download_excel_file, retry_request.
    rewrite (retry_step _ _ _ _ _ _ _ _ B1 R1) by (unfold sleep_max; lia).
    now apply wrapper_loop_settles.
  - intros w1 w2 r w' (e1 & v1 & B1 & R1 & ->) (e2 & v2 & B2 & R2 & ->) Hb Hr.
    unfold download_excel_file, retry_request.
    rewrite (retry_step _ _ _ _ _ _ _ _ B1 R1) by (unfold sleep_max; lia).
    rewrite (retry_step _ _ _ _ _ _ _ _ B2 R2) by (unfold sleep_max; lia).
    now apply wrapper_loop_settles.
  - intros w1 w2 w3 (e1 & v1 & B1 & R1 & ->) (e2 & v2 & B2 & R2 & ->)
      (e3 & v3 & B3 & R3 & ->).
    unfold download_excel_file, retry_request.
    rewrite (retry_step _ _ _ _ _ _ _ _ B1 R1) by (unfold sleep_max; lia).
    rewrite (retry_step _ _ _ _ _ _ _ _ B2 R2) by (unfold sleep_max; lia).
    rewrite (retry_step _ _ _ _ _ _ _ _ B3 R3) by (unfold sleep_max; lia).
    reflexivity.
Qed.

Lemma download_retry_policy_witness :
  download_excel_file "u" "/s" "f.xlsx" (new_world (fun _ => answers 503 two_quarters))
  = (Raise (Exception "Failed to complete after 3 retries."),
     gave_up "u" (new_world (fun _ => answers 503 two_quarters))).
Proof.
  apply (proj1 (download_retry_policy "u" "/s" "f.xlsx"
                  (new_world (fun _ => answers 503 two_quarters)))).
  intros k _. reflexivity.
Defined.

(** C3 fails as stated: a 503 answer is retried.  The second call, made after
    a pause of 5 seconds, succeeds and so does the download. *)
Lemma http_error_is_retried :
  observe (download_excel_file "u" "/s" "f.xlsx"
             (new_world (fun n => match n with
                                  | O => answers 503 two_quarters
                                  | S _ => answers 200 two_quarters
                                  end)))
  = (Ok tt, 2%nat, [5], [("/tmp/f.xlsx", two_quarters)]).
Proof. vm_compute. reflexivity. Qed.

(** A persistent connection failure: three calls, pauses of 5, 10 and 20
    seconds, then the terminal error. *)
Lemma connection_failure_gives_up :
  observe (download_excel_file "u" "/s" "f.xlsx"
             (new_world (fun _ => {| get := GetRaises ConnectionError;
                                     write_error := None; cp_error := None |})))
  = (Raise (Exception "Failed to complete after 3 retries."), 3%nat, [5; 10; 20], []).
Proof. vm_compute. reflexivity. Qed.

(** A 503 answer, then an answer that cannot be saved: the error of the file
    system is not retried, it surfaces after two calls and one pause. *)
Lemma save_error_is_not_retried :
  observe (download_excel_file "u" "/s" "f.xlsx"
             (new_world (fun n => match n with
                                  | O => answers 503 two_quarters
                                  | S _ =>
                                      {| get := GetResponse 200 two_quarters;
                                         write_error :=
                                           Some (OSError "No space left on device", None);
                                         cp_error := None |}
                                  end)))
  = (Raise (OSError "No space left on device"), 2%nat, [5], []).
Proof. vm_compute. reflexivity. Qed.

(** ** The gate *)

(** C5: [check_excel_for_latest_quarter] always returns, never raises.  When
    it answers [True], the download succeeded, the answer is the quarter
    column of the inspected sheet that [max] picks, its parsed label is the
    greatest of all the quarter columns (each of which parses, with or
    without its annotation) and is strictly above the parsed [last_known].
    In every other case, a caught failure included, the answer is
    [(False, last_known)]; so it is when the newest label of the file equals
    or precedes [last_known]. *)
Theorem gate_fails_closed (url lq sp name : string) (w : world) :
  exists b q w',
    check_excel_for_latest_quarter url lq sp name w = (Ok (b, q), w')
    /\ (b = false -> q = lq)
    /\ (b = true ->
        exists w1 hdr newest known,
          download_excel_file url (scratch_path name) name w = (Ok tt, w1)
          /\ local_fs w1 !! scratch_path name = Some (Workbook (Some hdr))
          /\ latest_quarter_in_file (normalize_header hdr) = Ok q
          /\ In q (Quarter.quarter_columns (normalize_header hdr))
          /\ quarter_to_tuple q = Ok newest
          /\ (forall c, In c (Quarter.quarter_columns (normalize_header hdr)) ->
                exists t, quarter_to_tuple c = Ok t /\ column_key c = Ok t
                          /\ tuple_le t newest)
          /\ quarter_to_tuple (Text.strip lq) = Ok known
          /\ tuple_gt newest known = true)
    /\ (forall w1 hdr q0 newest known,
          download_excel_file url (scratch_path name) name w = (Ok tt, w1) ->
          local_fs w1 !! scratch_path name = Some (Workbook (Some hdr)) ->
          latest_quarter_in_file (normalize_header hdr) = Ok q0 ->
          quarter_to_tuple q0 = Ok newest ->
          quarter_to_tuple (Text.strip lq) = Ok known ->
          tuple_le newest known ->
          b = false).
Proof.
  destruct (check_cases url lq sp name w)
    as [[w' H] | (q & w1 & w' & hdr & newest & known & H & D & F & Hmax & Hq & Hk & Hgt & _)].
  - exists false, lq, w'. split; [exact H|]. split; [reflexivity|].
    split; [discriminate | reflexivity].
  - exists true, q, w'. split; [exact H|]. split; [discriminate|]. split.
    + intros _. exists w1, hdr, newest, known.
      pose proof Hmax as Hmax'.
      apply py_max_spec in Hmax as (Hin & kq & Hkq & Hall).
      destruct (quarter_column_parses _ _ Hin) as (t & Ht & Hkt).
      assert (kq = newest) by congruence. subst kq.
      repeat split; auto.
      intros c Hc. destruct (quarter_column_parses _ _ Hc) as (tc & Htc & Hkc).
      destruct (Hall c Hc) as (kc & Hkc' & Hle).
      exists tc. repeat split; auto. congruence.
    + intros w1' hdr' q0 newest' known' D' F' Hmax' Hq' Hk' Hle.
      rewrite D in D'. injection D' as <-.
      rewrite F in F'. injection F' as <-.
      unfold latest_quarter_in_file in Hmax'. rewrite Hmax in Hmax'.
      injection Hmax' as <-.
      rewrite Hq in Hq'. injection Hq' as <-.
      rewrite Hk in Hk'. injection Hk' as <-.
      apply tuple_gt_true in Hgt. contradiction.
Qed.

Lemma gate_fails_closed_witness :
  exists b q w',
    check_excel_for_latest_quarter "u" "2024 2nd quarter" "/s" "f.xlsx"
      (new_world (fun _ => answers 200 two_quarters)) = (Ok (b, q), w')
    /\ b = false /\ q = "2024 2nd quarter".
Proof.
  destruct (gate_fails_closed "u" "2024 2nd quarter" "/s" "f.xlsx"
              (new_world (fun _ => answers 200 two_quarters)))
    as (b & q & w' & H & Hfalse & _ & Hle).
  assert (Hb : b = false).
  { apply (Hle (downloaded "u" "f.xlsx" two_quarters
                  (new_world (fun _ => answers 200 two_quarters)))
               ["Column1"; "2023 1st quarter"; "2024 2nd quarter"]
               "2024 2nd quarter" (2024, 2) (2024, 2)).
    - reflexivity.
    - reflexivity.
    - reflexivity.
    - reflexivity.
    - reflexivity.
    - right. simpl. lia. }
  exists b, q, w'. split; [exact H|]. split; [exact Hb | exact (Hfalse Hb)].
Defined.

(** The two end-to-end scenarios of the specification. *)
Lemma gate_reports_newer :
  observe (check_excel_for_latest_quarter "u" "2023 1st quarter" "/s" "f.xlsx"
             (new_world (fun _ => answers 200 two_quarters)))
  = (Ok (true, "2024 2nd quarter"), 1%nat, [], []).
Proof. vm_compute. reflexivity. Qed.

Lemma gate_reports_no_update :
  observe (check_excel_for_latest_quarter "u" "2024 2nd quarter" "/s" "f.xlsx"
             (new_world (fun _ => answers 200 two_quarters)))
  = (Ok (false, "2024 2nd quarter"), 1%nat, [], []).
Proof. vm_compute. reflexivity. Qed.

(** C10: when the download succeeds and the header of the inspected sheet has
    no quarter column, the maximum over the empty list raises inside the gate,
    the handler catches it, and the gate returns [(False, last_known)] to its
    caller.  The world is the one the download left. *)
Theorem no_quarter_columns_fails_closed
    (url lq sp name : string) (w w1 : world) (hdr : list string) :
  download_excel_file url (scratch_path name) name w = (Ok tt, w1) ->
  local_fs w1 !! scratch_path name = Some (Workbook (Some hdr)) ->
  Quarter.quarter_columns (normalize_header hdr) = [] ->
  latest_quarter_in_file (normalize_header hdr)
  = Raise (ValueError "max() arg is an empty sequence")
  /\ check_excel_for_latest_quarter url lq sp name w = (Ok (false, lq), w1).
Proof.
  intros D F E. split.
  - unfold latest_quarter_in_file. now rewrite E.
  - now apply check_no_quarter_columns with (hdr := hdr).
Qed.

Lemma no_quarter_columns_witness :
  latest_quarter_in_file (normalize_header ["Column1"; "Notes"])
  = Raise (ValueError "max() arg is an empty sequence")
  /\ check_excel_for_latest_quarter "u" "2023 1st quarter" "/s" "f.xlsx"
       (new_world (fun _ => answers 200 no_quarters))
     = (Ok (false, "2023 1st quarter"),
        downloaded "u" "f.xlsx" no_quarters
          (new_world (fun _ => answers 200 no_quarters))).
Proof.
  apply (no_quarter_columns_fails_closed "u" "2023 1st quarter" "/s" "f.xlsx"
           (new_world (fun _ => answers 200 no_quarters)) _ ["Column1"; "Notes"]).
  - reflexivity.
  - reflexivity.
  - reflexivity.
Defined.

(** C2 at its failing inputs: after a caught error the scratch copy is still
    on the local disk.  First a sheet without quarter columns, then a stored
    last quarter that does not parse. *)
Theorem scratch_copy_survives_error :
  observe (check_excel_for_latest_quarter "u" "2023 1st quarter" "/s" "f.xlsx"
             (new_world (fun _ => answers 200 no_quarters)))
  = (Ok (false, "2023 1st quarter"), 1%nat, [], [("/tmp/f.xlsx", no_quarters)])
  /\ observe (check_excel_for_latest_quarter "u" "last quarter" "/s" "f.xlsx"
                (new_world (fun _ => answers 200 two_quarters)))
     = (Ok (false, "last quarter"), 1%nat, [], [("/tmp/f.xlsx", two_quarters)]).
Proof. split; vm_compute; reflexivity. Qed.

(** On its two ordinary branches the gate does delete the scratch copy. *)
Lemma gate_removes_scratch_when_newer url lq sp name w q w' :
  check_excel_for_latest_quarter url lq sp name w = (Ok (true, q), w') ->
  local_fs w' !! scratch_path name = None.
Proof.
  intros H.
  destruct (check_cases url lq sp name w)
    as [[w2 H2] | (q2 & w1 & w2 & hdr & newest & known & H2 & _ & _ & _ & _ & _ & _ & ->)];
    rewrite H in H2.
  - discriminate.
  - injection H2 as _ ->. simpl. apply lookup_delete_eq.
Qed.

(** ** The page scanner *)

(** C6, as the code has it: the scan returns the first link, in document
    order, whose target contains [.xls] anywhere (a target containing
    [.xlsx] contains [.xls]), and none when no target does; a link that does
    not start with [http] is prefixed with [https://www.gov.uk]. *)
Theorem find_excel_link_first_containing (links : list string) :
  match find_excel_link links with
  | Some l =>
      exists before after,
        links = before ++ l :: after /\ Text.contains ".xls" l = true
        /\ Forall (fun x => Text.contains ".xls" x = false) before
  | None => Forall (fun x => Text.contains ".xls" x = false) links
  end
  /\ (forall l, absolute_url l
                = if Text.startswith l "http" then l else "https://www.gov.uk" +:+ l).
Proof.
  split; [apply find_excel_link_spec|].
  intros l. unfold absolute_url. now destruct (Text.startswith l "http").
Qed.

(** C6 fails as stated: a target that only contains [.xls] is selected, ahead
    of a later one that ends in [.xlsx]. *)
Lemma link_containing_xls_is_selected :
  find_excel_link ["/about"; "/files/report.xls.html"; "/files/data.xlsx"]
  = Some "/files/report.xls.html"
  /\ Text.endswith "/files/report.xls.html" ".xls" = false
  /\ Text.endswith "/files/report.xls.html" ".xlsx" = false
  /\ find_excel_link ["/files/data.xlsb"; "/files/data.xlsx"] = Some "/files/data.xlsb"
  /\ Text.endswith "/files/data.xlsb" ".xls" = false
  /\ Text.endswith "/files/data.xlsb" ".xlsx" = false.
Proof. repeat split; reflexivity. Qed.

(** ** The reshaper *)

Lemma new_col_name_label ys ord qq :
  String.length ys = 4%nat -> Text.forallb re_digit ys = true -> ordinal ord qq ->
  new_col_name (ys +:+ " " +:+ ord +:+ " quarter") = ys +:+ qq
  /\ new_col_name (ys +:+ "_" +:+ ord +:+ "_quarter") = ys +:+ qq.
Proof.
  intros Hl Hd Ho.
  assert (Hd' : Text.forallb py_isdigit ys = true).
  { eapply forallb_impl; [apply re_digit_isdigit | exact Hd]. }
  assert (Hne : ys <> EmptyString) by (destruct ys; [discriminate | congruence]).
  unfold ordinal in Ho. simpl in Ho.
  destruct Ho as [[= <- <-] | [[= <- <-] | [[= <- <-] | [[= <- <-] | []]]]];
    split; eapply new_col_name_year; try eassumption; reflexivity.
Qed.

Section Claims.
Context {value : Type} `{EqDecision value}.
Variable vadd : value -> value -> value.
Variable of_long : Z -> value.
Variable cast_double : string -> option value.
Variable mono_id : nat -> Z.

(** C7, as the code has it: on a table whose column names differ in more
    than their letter case, [rename_columns] gives every column the name the
    loop body computes for it and leaves the rows alone.  That name is the
    year followed by 01-04 for every name made of a four-digit year, an
    ordinal 1st-4th and the word quarter, written with spaces or with
    underscores.  In general the new name follows [quarter_rule], which is
    written without the functions of the loop body: underscores and line
    feeds count as blanks; the name must have at least two parts, the first
    all digits, the second with 1st, 2nd, 3rd, 3nd or 4th somewhere inside,
    in any letter case, the first of these in that order giving 01, 02, 03,
    03 or 04; the new name is the first part followed by these two digits,
    whatever else the name holds.  The rule gives at most one name, and a
    name to which it gives none is kept as it is. *)
Theorem rename_columns_behaviour :
  (forall df : @DataFrame value,
      NoDup (List.map Text.lower (columns df)) ->
      columns (rename_columns df) = List.map new_col_name (columns df)
      /\ rows (rename_columns df) = rows df)
  /\ (forall ys ord qq,
        String.length ys = 4%nat -> Text.forallb re_digit ys = true -> ordinal ord qq ->
        new_col_name (ys +:+ " " +:+ ord +:+ " quarter") = ys +:+ qq
        /\ new_col_name (ys +:+ "_" +:+ ord +:+ "_quarter") = ys +:+ qq)
  /\ (forall c,
        quarter_rule c (new_col_name c)
        \/ (new_col_name c = c /\ forall t, ~ quarter_rule c t))
  /\ (forall c t t', quarter_rule c t -> quarter_rule c t' -> t = t').
Proof.
  split; [intros df _; apply rename_columns_spec|]. split; [apply new_col_name_label|].
  split; [apply new_col_name_rule | apply quarter_rule_functional].
Qed.

(** C8, as the code has it.  For a row whose id is the integer [n] and whose
    cleaned category is the text [c], Sub_Category is the prefix that [n]
    selects followed by [c] (Indigenous production_ for 1, 2, 3; Imports_
    for 5, 6; Exports_ for 8, 9; nothing otherwise), and Category becomes the
    text before the first underscore of Sub_Category exactly when
    Sub_Category differs from [c].  For a row that has no category,
    Sub_Category is the prefix alone, without the underscore, in the three
    buckets and null outside them, and Category stays null. *)
Theorem sub_category_by_row_id
    (df df1 df2 : @DataFrame value) (i : nat) (r : list (@cell value))
    (n : Z) (category : option string) :
  well_formed df ->
  add_sub_category df = Ok df1 ->
  update_category df1 = Ok df2 ->
  rows df !! i = Some r ->
  cell_of df "id" r = Some (Long n) ->
  cell_of df "Category" r = Some (text_cell category) ->
  exists r2,
    rows df2 !! i = Some r2
    /\ cell_of df2 "Sub_Category" r2
       = Some (match category with
               | Some c => Str (bucket_prefix n +:+ c)
               | None =>
                   if String.eqb (bucket_prefix n) EmptyString then Null
                   else Str (before "_" (bucket_prefix n))
               end)
    /\ cell_of df2 "Category" r2
       = Some (match category with
               | Some c =>
                   Str (if String.eqb (bucket_prefix n +:+ c) c then c
                        else before "_" (bucket_prefix n +:+ c))
               | None => Null
               end).
Proof.
  intros Hwf H1 H2 Hr Hid Hcat.
  destruct (derive_row df df1 df2 i r _ _ Hwf H1 H2 Hr Hid Hcat) as (r2 & Hr2 & Hs & Hc).
  exists r2. destruct category as [c|]; cbn [text_cell] in Hs, Hc.
  - rewrite sub_category_text in Hs, Hc. rewrite category_text in Hc. auto.
  - rewrite category_null in Hc. rewrite sub_category_null in Hs. auto.
Qed.


(** C1, on the code: whenever the notebook runs through, the file it saves
    is [spark_df], the wide table: its header has the id column and it has one
    line per row of the sheet.  [finalDF], the long table with the six
    columns Category, Sub_Category, Quarter, Quantity, FileName and
    ProcessedDate, is computed and not written, so the saved header is never
    the one the specification gives. *)
Theorem saved_file_is_the_wide_table
    (sheet : @DataFrame value) (file_name today : string) (nb : @notebook value) :
  transform vadd of_long cast_double mono_id sheet file_name today = Ok nb ->
  saved nb = write_csv (spark_df nb)
  /\ In "id" (header (saved nb))
  /\ length (lines (saved nb)) = count sheet
  /\ columns (finalDF nb)
     = ["Category"; "Sub_Category"; "Quarter"; "Quantity"; "FileName"; "ProcessedDate"]
  /\ header (saved nb) <> columns (finalDF nb).
Proof.
  intros H. destruct (transform_saved _ _ _ _ _ _ _ _ H) as [Hid Hcount].
  apply transform_inv in H as (_ & _ & Hun & Hfin & Hsaved).
  assert (Hcols : columns (finalDF nb)
                  = ["Category"; "Sub_Category"; "Quarter"; "Quantity"; "FileName";
                     "ProcessedDate"]).
  { rewrite Hfin. eapply finalDF_columns, Hun. }
  rewrite Hsaved. cbn [write_csv header lines]. repeat split; auto.
  rewrite Hcols. intros E. rewrite E in Hid. simpl in Hid.
  repeat (destruct Hid as [Hid | Hid]; [discriminate|]). exact Hid.
Qed.

End Claims.

Lemma rename_columns_witness :
  new_col_name "2024 1st quarter" = "202401"
  /\ new_col_name "1999_3rd_quarter" = "199903".
Proof.
  split.
  - apply (proj1 (proj2 (@rename_columns_behaviour Z)) "2024" "1st" "01");
      [reflexivity | reflexivity | left; reflexivity].
  - apply (proj1 (proj2 (@rename_columns_behaviour Z)) "1999" "3rd" "03");
      [reflexivity | reflexivity | right; right; left; reflexivity].
Defined.

(** The two renamings the specification names. *)
Lemma rename_round_trip :
  new_col_name "2024 1st quarter" = "202401"
  /\ new_col_name "1999 3rd quarter" = "199903".
Proof. split; reflexivity. Qed.

(** The ordinal may stand anywhere in the second part, in any letter case;
    3nd counts as 3rd, and 1st is looked for first; line feeds separate
    like blanks. *)
Lemma loose_ordinals_are_renamed :
  new_col_name "2024 3nd quarter" = "202403"
  /\ new_col_name "2024 21ST x" = "202401"
  /\ new_col_name "2024 Q4TH" = "202404"
  /\ new_col_name "2024 2nd1st" = "202401"
  /\ new_col_name (String "2" (String "0" (String newline "3RD"))) = "2003"
  /\ new_col_name "2024 5th quarter" = "2024 5th quarter".
Proof. repeat split; reflexivity. Qed.

(** C7 fails as stated: names that are not of the shape year, ordinal,
    quarter are renamed all the same. *)
Lemma half_year_column_is_renamed :
  new_col_name "2024 1st half" = "202401"
  /\ new_col_name "20 1st" = "2001"
  /\ ~ quarter_column_name "2024 1st half"
  /\ ~ quarter_column_name "20 1st".
Proof.
  split; [reflexivity|]. split; [reflexivity|]. split.
  - intros (ys & ord & qq & Hl & _ & Ho & E).
    apply length_4_inv in Hl as (a & b & c & d & ->).
    unfold ordinal in Ho. simpl in Ho.
    destruct Ho as [[= <- <-] | [[= <- <-] | [[= <- <-] | [[= <- <-] | []]]]];
      simpl in E; discriminate.
  - intros (ys & ord & qq & Hl & _ & Ho & E).
    apply length_4_inv in Hl as (a & b & c & d & ->).
    simpl in E. discriminate.
Qed.

Lemma sub_category_by_row_id_witness :
  exists r2,
    rows sample_derived !! 1%nat = Some r2
    /\ cell_of sample_derived "Sub_Category" r2
       = Some (Str (bucket_prefix 1 +:+ "Crude oil"))
    /\ cell_of sample_derived "Category" r2
       = Some (Str (if String.eqb (bucket_prefix 1 +:+ "Crude oil") "Crude oil"
                    then "Crude oil"
                    else before "_" (bucket_prefix 1 +:+ "Crude oil"))).
Proof.
  apply (sub_category_by_row_id sample_cleaned sample_with_sub sample_derived 1
           [Str "Crude oil"; Dbl 6; Long 1] 1 (Some "Crude oil")).
  - repeat constructor.
  - reflexivity.
  - reflexivity.
  - reflexivity.
  - reflexivity.
  - reflexivity.
Defined.

(** C8 fails as stated on a row without a category: in the first bucket its
    Sub_Category is [Indigenous production], with no underscore and no
    category after it, and its Category is not overwritten although
    Sub_Category is another value: it stays null. *)
Lemma unnamed_row_gets_bare_prefix :
  bind_r (add_sub_category sample_unnamed) update_category
  = Ok {| columns := ["Category"; "2023_1st_quarter"; "id"; "Sub_Category"];
          rows := [ [Null; Dbl 6; Long 1; Str "Indigenous production"] ] |}.
Proof. reflexivity. Qed.

(** The derived table of the sample, cell by cell. *)
Lemma sample_derived_cells :
  rows sample_derived
  = [ [Str "Indigenous production"; Dbl 10; Long 0; Str "Indigenous production"];
      [Str "Indigenous production"; Dbl 6; Long 1; Str "Indigenous production_Crude oil"];
      [Str "Imports"; Dbl 20; Long 4; Str "Imports"];
      [Str "Imports"; Dbl 15; Long 5; Str "Imports_Crude oil & NGLs"] ].
Proof. reflexivity. Qed.

(** A null category is skipped by [concat_ws], and a comparison with null
    never holds. *)
Lemma null_category_row :
  sub_category_of (value:=Z) (Long 1) Null = Str "Indigenous production"
  /\ category_of (value:=Z) (Str "Indigenous production") Null = Null.
Proof. split; reflexivity. Qed.


(** The numbers of the sample: 10 rows, 2 quarter columns, 20 long rows. *)
Lemma sample_counts :
  count (final_df sample_notebook) = 10%nat
  /\ Frame.quarter_columns sample_notebook = ["202301"; "202402"]
  /\ count (df_unpivot sample_notebook) = 20%nat.
Proof. vm_compute. repeat split; reflexivity. Qed.

Lemma saved_file_witness :
  saved sample_notebook = write_csv (spark_df sample_notebook)
  /\ In "id" (header (saved sample_notebook))
  /\ length (lines (saved sample_notebook)) = count sample_sheet
  /\ columns (finalDF sample_notebook)
     = ["Category"; "Sub_Category"; "Quarter"; "Quantity"; "FileName"; "ProcessedDate"]
  /\ header (saved sample_notebook) <> columns (finalDF sample_notebook).
Proof.
  apply (saved_file_is_the_wide_table Z.add (fun n => n) (fun _ => None) Z.of_nat
           sample_sheet "ET_3.1.xlsx" "03/11/2026" sample_notebook).
  vm_compute. reflexivity.
Defined.

(** The notebook on the sample sheet: five wide columns and 11 lines are
    saved, while the long table has the six columns and 20 rows. *)
Lemma saved_file_on_sample :
  match sample_run with
  | Ok nb =>
      saved nb = write_csv (spark_df nb)
      /\ header (saved nb)
         = ["Category"; "2023_1st_quarter"; "2024_2nd_quarter_[note_1]"; "id";
            "Sub_Category"]
      /\ length (lines (saved nb)) = 11%nat
      /\ columns (finalDF nb)
         = ["Category"; "Sub_Category"; "Quarter"; "Quantity"; "FileName";
            "ProcessedDate"]
      /\ count (finalDF nb) = 20%nat
  | Raise _ => False
  end.
Proof. vm_compute. repeat split; reflexivity. Qed.

(** * Further properties of the code *)

Import Schedule Header Site Note.

(** ** More on the retry decorator *)





(** A call of the download body: always one more request, never a pause. *)
Lemma body_counts url path name w :
  exists r w1,
    download_excel_file_body url path name w = (r, w1)
    /\ calls w1 = S (calls w) /\ requested w1 = requested w ++ [url]
    /\ slept w1 = slept w /\ net w1 = net w /\ listing w1 = listing w.
Proof.
  unfold download_excel_file_body, try_except, bind, next_attempt. simpl.
  destruct (get (net w (calls w))) as [e|status body].
  - eexists _, _. split; [reflexivity|]. simpl. auto.
  - unfold raise_for_status.
    destruct ((400 <=? status) && (status <? 600)).
    + eexists _, _. split; [reflexivity|]. simpl. auto.
    + unfold ret, write_file. destruct (write_error (net w (calls w))) as [[e [partial|]]|].
      * eexists _, _. split; [reflexivity|]. simpl. auto.
      * eexists _, _. split; [reflexivity|]. simpl. auto.
      * unfold modify, dbutils_fs_cp. destruct (cp_error (net w (calls w))) as [e|].
        -- eexists _, _. split; [reflexivity|]. simpl. auto.
        -- simpl. rewrite lookup_insert_eq. eexists _, _. split; [reflexivity|]. simpl. auto.
Qed.

(** ** More on the download primitive *)

Lemma wrapper_loop_ok_inv {A} (func : M A) max_retries backoff :
  forall todo delay w a w',
    wrapper_loop func max_retries backoff todo delay w = (Ok a, w') ->
    exists w0, func w0 = (Ok a, w').
Proof.
  induction todo as [|todo IH]; intros delay w a w' H; [discriminate|].
  simpl in H. destruct (func w) as [[a0|e] w1] eqn:E.
  - injection H as <- <-. eauto.
  - destruct (is_RequestException e); [|discriminate].
    unfold bind, sleep, modify, raise in H.
    destruct ((delay <? - sleep_max) || (sleep_max <? delay)); [discriminate|].
    destruct (delay <? 0); [discriminate|]. eapply IH, H.
Qed.

Lemma body_ok_inv url path name w w' :
  download_excel_file_body url path name w = (Ok tt, w') ->
  exists status body,
    get (net w (calls w)) = GetResponse status body
    /\ (400 <=? status) && (status <? 600) = false
    /\ local_fs w' = <["/tmp/" +:+ name := body]> (local_fs w)
    /\ dbfs w' = <[path +:+ "/" +:+ name := body]> (dbfs w).
Proof.
  unfold download_excel_file_body, try_except, bind, next_attempt. simpl.
  destruct (get (net w (calls w))) as [e|status body]; [discriminate|].
  unfold raise_for_status.
  destruct ((400 <=? status) && (status <? 600)) eqn:Hs; [discriminate|].
  unfold ret, write_file.
  destruct (write_error (net w (calls w))) as [[e [partial|]]|]; [discriminate..|].
  unfold modify, dbutils_fs_cp. destruct (cp_error (net w (calls w))) as [e|]; [discriminate|].
  simpl. rewrite lookup_insert_eq. intros [= <-]. exists status, body.
  repeat split; auto.
Qed.

(** X2: whenever [download_excel_file] returns, the workbook is on the local
    disk at [/tmp/<file_name>] and the same content is in DBFS at
    [<dbfs_save_path>/<file_name>]. *)
Theorem download_stores_both_copies (url dbfs_save_path file_name : string)
    (w w' : world) :
  download_excel_file url dbfs_save_path file_name w = (Ok tt, w') ->
  exists body,
    local_fs w' !! ("/tmp/" +:+ file_name) = Some body
    /\ dbfs w' !! (dbfs_save_path +:+ "/" +:+ file_name) = Some body.
Proof.
  intros H. apply wrapper_loop_ok_inv in H as [w0 H].
  apply body_ok_inv in H as (status & body & _ & _ & -> & ->).
  exists body. split; apply lookup_insert_eq.
Qed.

Lemma download_stores_both_copies_witness :
  exists body,
    local_fs (downloaded "u" "f.xlsx" two_quarters
                (new_world (fun _ => answers 200 two_quarters)))
      !! ("/tmp/" +:+ "f.xlsx") = Some body
    /\ dbfs (downloaded "u" "f.xlsx" two_quarters
               (new_world (fun _ => answers 200 two_quarters)))
         !! ("/tmp/f.xlsx" +:+ "/" +:+ "f.xlsx") = Some body.
Proof.
  apply (download_stores_both_copies "u" "/tmp/f.xlsx" "f.xlsx"
           (new_world (fun _ => answers 200 two_quarters))).
  reflexivity.
Defined.

(** X3: in every world one call of [download_excel_file] makes one, two or
    three requests, all for the same URL, and its pauses are the first ones
    of 5, 10, 20 seconds: one pause less than requests, or all three when
    the third request fails as well. *)
Theorem download_effort (url dbfs_save_path file_name : string) (w : world) :
  exists r w' k,
    download_excel_file url dbfs_save_path file_name w = (r, w')
    /\ (1 <= k <= 3)%nat
    /\ calls w' = (calls w + k)%nat
    /\ requested w' = requested w ++ repeat url k
    /\ (slept w' = slept w ++ firstn (k - 1) [5; 10; 20]
        \/ (k = 3%nat /\ slept w' = slept w ++ [5; 10; 20])).
Proof.
  unfold download_excel_file, retry_request.
  destruct (body_counts url dbfs_save_path file_name w)
    as (r1 & w1 & E1 & C1 & R1 & S1 & _).
  destruct r1 as [[]|e1].
  { rewrite (retry_ok _ _ _ _ _ _ _ _ E1). exists (Ok tt), w1, 1%nat.
    rewrite C1, R1, S1, app_nil_r. repeat split; auto; lia. }
  destruct (is_RequestException e1) eqn:I1.
  2:{ rewrite (retry_stop _ _ _ _ _ _ _ _ E1 I1). exists (Raise e1), w1, 1%nat.
      rewrite C1, R1, S1, app_nil_r. repeat split; auto; lia. }
  rewrite (retry_step _ _ _ _ _ _ _ _ E1 I1) by (unfold sleep_max; lia).
  destruct (body_counts url dbfs_save_path file_name (rested 5 w1))
    as (r2 & w2 & E2 & C2 & R2 & S2 & _).
  simpl in C2, R2, S2.
  destruct r2 as [[]|e2].
  { rewrite (retry_ok _ _ _ _ _ _ _ _ E2). exists (Ok tt), w2, 2%nat.
    rewrite C2, R2, S2, C1, R1, S1, <- app_assoc. repeat split; auto; lia. }
  destruct (is_RequestException e2) eqn:I2.
  2:{ rewrite (retry_stop _ _ _ _ _ _ _ _ E2 I2). exists (Raise e2), w2, 2%nat.
      rewrite C2, R2, S2, C1, R1, S1, <- app_assoc. repeat split; auto; lia. }
  rewrite (retry_step _ _ _ _ _ _ _ _ E2 I2) by (unfold sleep_max; lia).
  destruct (body_counts url dbfs_save_path file_name (rested (5 * 2) w2))
    as (r3 & w3 & E3 & C3 & R3 & S3 & _).
  simpl in C3, R3, S3.
  destruct r3 as [[]|e3].
  { rewrite (retry_ok _ _ _ _ _ _ _ _ E3). exists (Ok tt), w3, 3%nat.
    rewrite C3, R3, S3, C2, R2, S2, C1, R1, S1, <- !app_assoc.
    repeat split; auto; lia. }
  destruct (is_RequestException e3) eqn:I3.
  2:{ rewrite (retry_stop _ _ _ _ _ _ _ _ E3 I3). exists (Raise e3), w3, 3%nat.
      rewrite C3, R3, S3, C2, R2, S2, C1, R1, S1, <- !app_assoc.
      repeat split; auto; lia. }
  rewrite (retry_step _ _ _ _ _ _ _ _ E3 I3) by (unfold sleep_max; lia).
  eexists _, _, 3%nat. split; [reflexivity|]. simpl.
  rewrite C3, R3, S3, C2, R2, S2, C1, R1, S1, <- !app_assoc.
  repeat split; auto; lia.
Qed.

(** X4: when the answer is good and the local file is written but
    [dbutils.fs.cp] raises an exception that is not of the requests library,
    the download is not retried: the exception surfaces after one request
    and no pause, DBFS is unchanged, and the file just written stays in
    [/tmp]. *)
Theorem copy_failure_keeps_local_file (url dbfs_save_path file_name : string)
    (w : world) (status : Z) (body : file) (e : exn) :
  get (net w (calls w)) = GetResponse status body ->
  (400 <=? status) && (status <? 600) = false ->
  write_error (net w (calls w)) = None ->
  cp_error (net w (calls w)) = Some e ->
  is_RequestException e = false ->
  exists w',
    download_excel_file url dbfs_save_path file_name w = (Raise e, w')
    /\ local_fs w' = <["/tmp/" +:+ file_name := body]> (local_fs w)
    /\ dbfs w' = dbfs w
    /\ calls w' = S (calls w) /\ slept w' = slept w.
Proof.
  intros Hg Hs Hw Hc He. unfold download_excel_file, retry_request.
  eexists. split.
  - eapply retry_stop; [|exact He].
    unfold download_excel_file_body, try_except, bind, next_attempt. simpl.
    rewrite Hg. unfold raise_for_status. rewrite Hs. unfold ret, write_file.
    rewrite Hw. unfold modify, dbutils_fs_cp. rewrite Hc. reflexivity.
  - simpl. auto.
Qed.

Lemma body_success url path name w status body :
  net w (calls w) = answers status body ->
  (400 <=? status) && (status <? 600) = false ->
  download_excel_file_body url path name w
  = (Ok tt,
     set_dbfs (<[path +:+ "/" +:+ name := body]> (dbfs w))
       (set_local_fs (<["/tmp/" +:+ name := body]> (local_fs w)) (asked url w))).
Proof.
  intros Hn Hs.
  unfold download_excel_file_body, try_except, bind, next_attempt. simpl.
  rewrite Hn. simpl. unfold raise_for_status. rewrite Hs. simpl.
  rewrite lookup_insert_eq. reflexivity.
Qed.

(** X5: when the first [k < 3] requests fail in a way the requests library
    reports and the next one is answered with a status outside 400-599 and
    saved without error, the download succeeds after [k] pauses (the first
    [k] of 5, 10, 20), and the content of that answer is at
    [/tmp/<file_name>] and at [<dbfs_save_path>/<file_name>]. *)
Theorem download_recovers (url dbfs_save_path file_name : string) (w : world)
    (k : nat) (status : Z) (body : file) :
  (k < 3)%nat ->
  (forall j, (j < k)%nat -> request_failure (net w (calls w + j)) = true) ->
  net w (calls w + k) = answers status body ->
  (400 <=? status) && (status <? 600) = false ->
  exists w',
    download_excel_file url dbfs_save_path file_name w = (Ok tt, w')
    /\ calls w' = (calls w + k + 1)%nat
    /\ slept w' = slept w ++ firstn k [5; 10; 20]
    /\ local_fs w' = <["/tmp/" +:+ file_name := body]> (local_fs w)
    /\ dbfs w' = <[dbfs_save_path +:+ "/" +:+ file_name := body]> (dbfs w).
Proof.
  intros Hk Hfail Hgood Hs. unfold download_excel_file, retry_request.
  destruct k as [|[|[|k]]]; [| | |lia].
  - rewrite Nat.add_0_r in Hgood.
    rewrite (retry_ok _ _ _ _ _ _ _ _ (body_success _ _ _ _ _ _ Hgood Hs)).
    eexists. split; [reflexivity|]. simpl. rewrite app_nil_r.
    repeat split; auto; lia.
  - destruct (body_request_failure url dbfs_save_path file_name w) as (e1 & B1 & R1).
    { specialize (Hfail 0%nat). rewrite Nat.add_0_r in Hfail. apply Hfail. lia. }
    rewrite (retry_step _ _ _ _ _ _ _ _ B1 R1) by (unfold sleep_max; lia).
    assert (G : net (rested 5 (asked url w)) (calls (rested 5 (asked url w)))
                = answers status body).
    { simpl. rewrite <- Hgood. f_equal. lia. }
    rewrite (retry_ok _ _ _ _ _ _ _ _ (body_success _ _ _ _ _ _ G Hs)).
    eexists. split; [reflexivity|]. simpl. repeat split; auto; lia.
  - destruct (body_request_failure url dbfs_save_path file_name w) as (e1 & B1 & R1).
    { specialize (Hfail 0%nat). rewrite Nat.add_0_r in Hfail. apply Hfail. lia. }
    rewrite (retry_step _ _ _ _ _ _ _ _ B1 R1) by (unfold sleep_max; lia).
    destruct (body_request_failure url dbfs_save_path file_name (rested 5 (asked url w)))
      as (e2 & B2 & R2).
    { simpl. specialize (Hfail 1%nat). rewrite Nat.add_1_r in Hfail. apply Hfail. lia. }
    rewrite (retry_step _ _ _ _ _ _ _ _ B2 R2) by (unfold sleep_max; lia).
    assert (G : net (rested (5 * 2) (asked url (rested 5 (asked url w))))
                  (calls (rested (5 * 2) (asked url (rested 5 (asked url w)))))
                = answers status body).
    { simpl. rewrite <- Hgood. f_equal. lia. }
    rewrite (retry_ok _ _ _ _ _ _ _ _ (body_success _ _ _ _ _ _ G Hs)).
    eexists. split; [reflexivity|]. simpl. rewrite <- !app_assoc.
    repeat split; auto; lia.
Qed.

Lemma download_recovers_witness :
  exists w',
    download_excel_file "u" "/s" "f.xlsx"
      (new_world (fun n => match n with
                           | O => answers 503 two_quarters
                           | S _ => answers 200 two_quarters
                           end))
    = (Ok tt, w')
    /\ calls w' = (0 + 1 + 1)%nat
    /\ slept w' = [] ++ firstn 1 [5; 10; 20]
    /\ local_fs w' = <["/tmp/" +:+ "f.xlsx" := two_quarters]> ∅
    /\ dbfs w' = <["/s" +:+ "/" +:+ "f.xlsx" := two_quarters]> ∅.
Proof.
  apply (download_recovers "u" "/s" "f.xlsx"
           (new_world (fun n => match n with
                                | O => answers 503 two_quarters
                                | S _ => answers 200 two_quarters
                                end)) 1 200 two_quarters).
  - lia.
  - intros [|j] Hj; [reflexivity | lia].
  - reflexivity.
  - reflexivity.
Defined.

Lemma copy_failure_keeps_local_file_witness :
  exists w',
    download_excel_file "u" "/s" "f.xlsx"
      (new_world (fun _ => {| get := GetResponse 200 two_quarters;
                              write_error := None;
                              cp_error := Some (Exception "java.io.IOException") |}))
    = (Raise (Exception "java.io.IOException"), w')
    /\ local_fs w' = <["/tmp/" +:+ "f.xlsx" := two_quarters]> ∅
    /\ dbfs w' = ∅
    /\ calls w' = 1%nat /\ slept w' = [].
Proof.
  apply (copy_failure_keeps_local_file "u" "/s" "f.xlsx"
           (new_world (fun _ => {| get := GetResponse 200 two_quarters;
                                   write_error := None;
                                   cp_error := Some (Exception "java.io.IOException") |}))
           200 two_quarters (Exception "java.io.IOException")); reflexivity.
Defined.

(** ** What a download and the gate leave untouched *)

Lemma wrapper_loop_invariant {A} (R : world -> world -> Prop) (func : M A)
    max_retries backoff :
  (forall w, R w w) ->
  (forall a b c, R a b -> R b c -> R a c) ->
  (forall w r w1, func w = (r, w1) -> R w w1) ->
  (forall d w, R w (rested d w)) ->
  forall todo delay w r w',
    wrapper_loop func max_retries backoff todo delay w = (r, w') -> R w w'.
Proof.
  intros Hrefl Htrans Hfunc Hrest.
  induction todo as [|todo IH]; intros delay w r w' H.
  - injection H as _ <-. apply Hrefl.
  - simpl in H. destruct (func w) as [[a|e] w1] eqn:E.
    + injection H as _ <-. eapply Hfunc, E.
    + destruct (is_RequestException e).
      * unfold bind, sleep, modify, raise in H.
        destruct ((delay <? - sleep_max) || (sleep_max <? delay));
          [injection H as _ <-; eapply Hfunc, E|].
        destruct (delay <? 0).
        -- injection H as _ <-. eapply Hfunc, E.
        -- apply IH in H.
           eapply Htrans; [eapply Hfunc, E|]. eapply Htrans; [apply (Hrest delay)|exact H].
      * injection H as _ <-. eapply Hfunc, E.
Qed.

Lemma body_frame url path name w r w1 :
  download_excel_file_body url path name w = (r, w1) ->
  (forall p, p <> "/tmp/" +:+ name -> local_fs w1 !! p = local_fs w !! p)
  /\ (forall p, p <> path +:+ "/" +:+ name -> dbfs w1 !! p = dbfs w !! p)
  /\ listing w1 = listing w.
Proof.
  unfold download_excel_file_body, try_except, bind, next_attempt. simpl.
  destruct (get (net w (calls w))) as [e|status body].
  { intros [= <- <-]. simpl. auto. }
  unfold raise_for_status. destruct ((400 <=? status) && (status <? 600)).
  { intros [= <- <-]. simpl. auto. }
  unfold ret, write_file. destruct (write_error (net w (calls w))) as [[e [partial|]]|].
  { intros [= <- <-]. simpl. split; [|auto].
    intros p Hp. now apply lookup_insert_ne. }
  { intros [= <- <-]. simpl. auto. }
  unfold modify, dbutils_fs_cp. destruct (cp_error (net w (calls w))) as [e|].
  { intros [= <- <-]. simpl. split; [|auto].
    intros p Hp. now apply lookup_insert_ne. }
  simpl. rewrite lookup_insert_eq. intros [= <- <-]. simpl.
  split; [|split; [|reflexivity]]; intros p Hp; now apply lookup_insert_ne.
Qed.

Lemma download_frame url path name w r w' :
  download_excel_file url path name w = (r, w') ->
  (forall p, p <> "/tmp/" +:+ name -> local_fs w' !! p = local_fs w !! p)
  /\ (forall p, p <> path +:+ "/" +:+ name -> dbfs w' !! p = dbfs w !! p)
  /\ listing w' = listing w.
Proof.
  unfold download_excel_file, retry_request.
  apply (wrapper_loop_invariant
           (fun w w' =>
              (forall p, p <> "/tmp/" +:+ name -> local_fs w' !! p = local_fs w !! p)
              /\ (forall p, p <> path +:+ "/" +:+ name -> dbfs w' !! p = dbfs w !! p)
              /\ listing w' = listing w)).
  - auto.
  - intros a b c (L1 & D1 & G1) (L2 & D2 & G2). split; [|split].
    + intros p Hp. rewrite L2, L1; auto.
    + intros p Hp. rewrite D2, D1; auto.
    + congruence.
  - intros w0 r0 w1. apply body_frame.
  - intros d w0. simpl. auto.
Qed.

Lemma download_ok_copies url path name w w' :
  download_excel_file url path name w = (Ok tt, w') ->
  exists body,
    local_fs w' !! ("/tmp/" +:+ name) = Some body
    /\ dbfs w' !! (path +:+ "/" +:+ name) = Some body.
Proof.
  intros H. apply wrapper_loop_ok_inv in H as [w0 H].
  apply body_ok_inv in H as (status & body & _ & _ & -> & ->).
  exists body. split; apply lookup_insert_eq.
Qed.

(** The world the gate leaves: the one after its download, with the scratch
    copy deleted or not. *)
Lemma check_world url lq sp name w :
  exists rd w1 r w',
    download_excel_file url (scratch_path name) name w = (rd, w1)
    /\ check_excel_for_latest_quarter url lq sp name w = (Ok r, w')
    /\ (w' = w1 \/ w' = set_local_fs (delete (scratch_path name) (local_fs w1)) w1).
Proof.
  unfold check_excel_for_latest_quarter, try_except, bind, scratch_path.
  destruct (download_excel_file url ("/tmp/" +:+ name) name w) as [[[]|e] w1] eqn:D;
    [|eexists _, _, _, _; split; [reflexivity|]; split; [reflexivity|auto]].
  unfold read_excel_columns.
  destruct (local_fs w1 !! ("/tmp/" +:+ name)) as [[[hdr|]]|] eqn:F;
    try (eexists _, _, _, _; split; [reflexivity|]; split; [reflexivity|auto]; fail).
  unfold lift.
  destruct (py_max column_key tuple_gt (Quarter.quarter_columns (normalize_header hdr)))
    as [q|e] eqn:Hmax;
    [|eexists _, _, _, _; split; [reflexivity|]; split; [reflexivity|auto]].
  destruct (quarter_to_tuple q) as [newest|e] eqn:Hq;
    [|eexists _, _, _, _; split; [reflexivity|]; split; [reflexivity|auto]].
  destruct (quarter_to_tuple (Text.strip lq)) as [known|e] eqn:Hk;
    [|eexists _, _, _, _; split; [reflexivity|]; split; [reflexivity|auto]].
  unfold os_remove, ret.
  destruct (tuple_gt newest known) eqn:Hgt; rewrite F;
    eexists _, _, _, _; (split; [reflexivity|]); (split; [reflexivity|auto]).
Qed.

(** X6: the gate passes its scratch path as the DBFS directory of the
    download, so whenever its download succeeds a copy of the workbook is in
    DBFS at [/tmp/<file_name>/<file_name>], and it is still there when the
    gate returns, whatever the verdict: the gate never touches DBFS again. *)
Theorem gate_leaves_dbfs_copy (url lq sp name : string) (w w1 : world) :
  download_excel_file url (scratch_path name) name w = (Ok tt, w1) ->
  exists b q w' body,
    check_excel_for_latest_quarter url lq sp name w = (Ok (b, q), w')
    /\ dbfs w' = dbfs w1
    /\ dbfs w' !! (scratch_path name +:+ "/" +:+ name) = Some body.
Proof.
  intros D.
  destruct (check_world url lq sp name w) as (rd & w1' & [b q] & w' & D' & C & Hw).
  rewrite D in D'. injection D' as <- <-.
  destruct (download_ok_copies _ _ _ _ _ D) as (body & _ & Hd).
  exists b, q, w', body. split; [exact C|].
  destruct Hw as [-> | ->]; simpl; auto.
Qed.

Lemma gate_leaves_dbfs_copy_witness :
  exists b q w' body,
    check_excel_for_latest_quarter "u" "2023 1st quarter" "/s" "f.xlsx"
      (new_world (fun _ => answers 200 two_quarters)) = (Ok (b, q), w')
    /\ dbfs w' = dbfs (downloaded "u" "f.xlsx" two_quarters
                         (new_world (fun _ => answers 200 two_quarters)))
    /\ dbfs w' !! (scratch_path "f.xlsx" +:+ "/" +:+ "f.xlsx") = Some body.
Proof.
  apply (gate_leaves_dbfs_copy "u" "2023 1st quarter" "/s" "f.xlsx"
           (new_world (fun _ => answers 200 two_quarters))).
  reflexivity.
Defined.

(** X7: after a successful download of a workbook that has a Quarter sheet,
    the scratch copy is gone when the gate returns exactly when the
    comparison could be made: the header has a quarter column, the newest
    one parses, and so does the stored last quarter. *)
Theorem gate_scratch_removed_iff_compared
    (url lq sp name : string) (w w1 : world) (hdr : list string) :
  download_excel_file url (scratch_path name) name w = (Ok tt, w1) ->
  local_fs w1 !! scratch_path name = Some (Workbook (Some hdr)) ->
  local_fs (snd (check_excel_for_latest_quarter url lq sp name w)) !! scratch_path name
  = None
  <-> exists c newest known,
        latest_quarter_in_file (normalize_header hdr) = Ok c
        /\ quarter_to_tuple c = Ok newest
        /\ quarter_to_tuple (Text.strip lq) = Ok known.
Proof.
  intros D F.
  unfold check_excel_for_latest_quarter, try_except, bind, latest_quarter_in_file.
  unfold scratch_path in *. rewrite D. unfold read_excel_columns. rewrite F. unfold lift.
  destruct (py_max column_key tuple_gt (Quarter.quarter_columns (normalize_header hdr)))
    as [q|e] eqn:Hmax.
  2:{ unfold ret. cbn [snd]. rewrite F. split; [discriminate|]. intros (c & _ & _ & H & _). discriminate. }
  destruct (quarter_to_tuple q) as [newest|e] eqn:Hq.
  2:{ unfold ret. cbn [snd]. rewrite F. split; [discriminate|].
      intros (c & n & k & [= <-] & H & _). congruence. }
  destruct (quarter_to_tuple (Text.strip lq)) as [known|e] eqn:Hk.
  2:{ unfold ret. cbn [snd]. rewrite F. split; [discriminate|].
      intros (c & n & k & _ & _ & H). discriminate. }
  unfold os_remove, ret.
  destruct (tuple_gt newest known); rewrite F; cbn [snd set_local_fs local_fs]; rewrite lookup_delete_eq;
    (split; [intros _; exists q, newest, known; auto | reflexivity]).
Qed.

Lemma gate_scratch_removed_iff_compared_witness :
  local_fs (snd (check_excel_for_latest_quarter "u" "2024 2nd quarter" "/s" "f.xlsx"
                   (new_world (fun _ => answers 200 two_quarters))))
    !! scratch_path "f.xlsx" = None
  <-> exists c newest known,
        latest_quarter_in_file
          (normalize_header ["Column1"; "2023 1st quarter"; "2024 2nd quarter"]) = Ok c
        /\ quarter_to_tuple c = Ok newest
        /\ quarter_to_tuple (Text.strip "2024 2nd quarter") = Ok known.
Proof.
  apply (gate_scratch_removed_iff_compared "u" "2024 2nd quarter" "/s" "f.xlsx"
           (new_world (fun _ => answers 200 two_quarters))
           (downloaded "u" "f.xlsx" two_quarters
              (new_world (fun _ => answers 200 two_quarters)))).
  - reflexivity.
  - reflexivity.
Defined.

(** ** The page scanner as a whole *)

(** The three ways [search_for_energy_trend] ends: nothing done, the gate
    asked and closed, the gate asked and opened with a second download. *)
Lemma search_cases url term lq sp w :
  search_for_energy_trend url term lq sp w = (Ok tt, w)
  \/ exists pg link,
       listing w url = Ok pg /\ status_code pg = 200
       /\ List.filter (fun text => Text.contains (Text.lower term) (Text.lower text))
            (texts pg) <> []
       /\ find_excel_link (hrefs pg) = Some link
       /\ ((exists q w1,
              check_excel_for_latest_quarter (absolute_url link) lq sp
                (file_name_of link) w = (Ok (false, q), w1)
              /\ search_for_energy_trend url term lq sp w = (Ok tt, w1))
           \/ (exists q w1 r w2,
                 check_excel_for_latest_quarter (absolute_url link) lq sp
                   (file_name_of link) w = (Ok (true, q), w1)
                 /\ download_excel_file (absolute_url link) sp (file_name_of link) w1
                    = (r, w2)
                 /\ search_for_energy_trend url term lq sp w = (Ok tt, w2))).
Proof.
  unfold search_for_energy_trend, try_except, bind, requests_get.
  destruct (listing w url) as [pg|e] eqn:L; [|left; reflexivity].
  destruct (status_code pg =? 200) eqn:S; [|left; reflexivity].
  apply Z.eqb_eq in S.
  destruct (List.filter _ (texts pg)) as [|t ts] eqn:Fm; [left; reflexivity|].
  destruct (find_excel_link (hrefs pg)) as [link|] eqn:Fl; [|left; reflexivity].
  right. exists pg, link. repeat split; auto; [congruence|].
  destruct (check_world (absolute_url link) lq sp (file_name_of link) w)
    as (rd & w1' & [b q] & w1 & _ & C & _).
  rewrite C. destruct b.
  - right.
    destruct (download_excel_file (absolute_url link) sp (file_name_of link) w1)
      as [[[]|e] w2] eqn:D; exists q, w1; eexists _, w2; repeat split; eauto.
  - left. exists q, w1. split; reflexivity.
Qed.

(** X8: [search_for_energy_trend] does nothing at all (no request for a
    file, no pause, no file written) when the page cannot be fetched, is not
    answered with 200, has no text containing the search term, or has no
    link containing [.xls]; and it returns normally. *)
Theorem search_without_candidate (url term lq sp : string) (w : world) :
  (forall pg,
      listing w url = Ok pg -> status_code pg = 200 ->
      List.filter (fun text => Text.contains (Text.lower term) (Text.lower text))
        (texts pg) <> [] ->
      find_excel_link (hrefs pg) = None) ->
  search_for_energy_trend url term lq sp w = (Ok tt, w).
Proof.
  intros H.
  destruct (search_cases url term lq sp w) as [E | (pg & link & L & S & M & F & _)];
    [exact E|].
  rewrite (H pg L S M) in F. discriminate.
Qed.

Lemma search_without_candidate_witness :
  search_for_energy_trend "https://www.gov.uk" "Supply and use of crude oil"
    "2023 1st quarter" "/dbfs/destination"
    (new_world (fun _ => answers 200 two_quarters))
  = (Ok tt, new_world (fun _ => answers 200 two_quarters)).
Proof.
  apply (search_without_candidate "https://www.gov.uk" "Supply and use of crude oil"
           "2023 1st quarter" "/dbfs/destination"
           (new_world (fun _ => answers 200 two_quarters))).
  intros pg L. discriminate L.
Defined.

Lemma check_frame url lq sp name w r w' :
  check_excel_for_latest_quarter url lq sp name w = (r, w') ->
  (forall p, p <> scratch_path name -> local_fs w' !! p = local_fs w !! p)
  /\ (forall p, p <> scratch_path name +:+ "/" +:+ name -> dbfs w' !! p = dbfs w !! p)
  /\ listing w' = listing w.
Proof.
  intros C.
  destruct (check_world url lq sp name w) as (rd & w1 & r0 & w0 & D & C' & Hw).
  rewrite C in C'. injection C' as -> ->.
  apply download_frame in D as (L & Db & Li).
  destruct Hw as [-> | ->]; simpl; split; auto.
  intros p Hp. rewrite lookup_delete_ne by congruence. auto.
Qed.

(** X9: [search_for_energy_trend] always returns normally, and the only
    DBFS paths it can change are the scratch copy of the gate,
    [/tmp/<name>/<name>], and [<excel_save_path>/<name>], where [name] is the
    last segment of the selected link; the latter only when the gate
    answered [True]. *)
Theorem search_stores_only_when_gate_opens (url term lq sp : string) (w : world) :
  exists w',
    search_for_energy_trend url term lq sp w = (Ok tt, w')
    /\ forall p,
         dbfs w' !! p <> dbfs w !! p ->
         exists pg link,
           listing w url = Ok pg
           /\ find_excel_link (hrefs pg) = Some link
           /\ (p = scratch_path (file_name_of link) +:+ "/" +:+ file_name_of link
               \/ (p = sp +:+ "/" +:+ file_name_of link
                   /\ exists q w1,
                        check_excel_for_latest_quarter (absolute_url link) lq sp
                          (file_name_of link) w = (Ok (true, q), w1))).
Proof.
  destruct (search_cases url term lq sp w)
    as [E | (pg & link & L & S & M & F &
             [(q & w1 & C & E) | (q & w1 & r & w2 & C & D & E)])].
  - exists w. split; [exact E|]. intros p Hp. congruence.
  - exists w1. split; [exact E|]. intros p Hp. exists pg, link.
    split; [exact L|]. split; [exact F|]. left.
    apply check_frame in C as (_ & Db & _).
    destruct (decide (p = scratch_path (file_name_of link) +:+ "/" +:+ file_name_of link))
      as [->|Hne]; [reflexivity|].
    rewrite Db in Hp by exact Hne. congruence.
  - exists w2. split; [exact E|]. intros p Hp. exists pg, link.
    split; [exact L|]. split; [exact F|].
    pose proof (check_frame _ _ _ _ _ _ _ C) as (_ & Db & _).
    apply download_frame in D as (_ & Db2 & _).
    destruct (decide (p = scratch_path (file_name_of link) +:+ "/" +:+ file_name_of link))
      as [->|Hne]; [left; reflexivity|].
    destruct (decide (p = sp +:+ "/" +:+ file_name_of link)) as [->|Hne2].
    + right. split; [reflexivity|]. eauto.
    + rewrite Db2, Db in Hp by assumption. congruence.
Qed.

Lemma wrapper_loop_calls {A} (func : M A) max_retries backoff :
  (forall w r w1, func w = (r, w1) -> calls w1 = S (calls w)) ->
  forall todo delay w r w',
    wrapper_loop func max_retries backoff todo delay w = (r, w') ->
    (calls w <= calls w' <= calls w + todo)%nat.
Proof.
  intros Hf. induction todo as [|todo IH]; intros delay w r w' H.
  - injection H as _ <-. lia.
  - simpl in H. destruct (func w) as [[a|e] w1] eqn:E; apply Hf in E.
    + injection H as _ <-. lia.
    + destruct (is_RequestException e).
      * unfold bind, sleep, modify, raise in H.
        destruct ((delay <? - sleep_max) || (sleep_max <? delay));
          [injection H as _ <-; lia|].
        destruct (delay <? 0).
        -- injection H as _ <-. lia.
        -- apply IH in H. simpl in H. lia.
      * injection H as _ <-. lia.
Qed.

Lemma download_calls url path name w r w' :
  download_excel_file url path name w = (r, w') ->
  (calls w <= calls w' <= calls w + 3)%nat.
Proof.
  unfold download_excel_file, retry_request. apply wrapper_loop_calls.
  intros w0 r0 w1 E.
  destruct (body_counts url path name w0) as (r1 & w1' & E' & C & _).
  congruence.
Qed.

(** X10: [search_for_energy_trend] never asks for the file more than six
    times: at most three requests in the gate and three in the download that
    follows it. *)
Theorem search_effort (url term lq sp : string) (w : world) :
  exists w',
    search_for_energy_trend url term lq sp w = (Ok tt, w')
    /\ (calls w <= calls w' <= calls w + 6)%nat.
Proof.
  assert (G : forall u n w0 r0 w1,
             check_excel_for_latest_quarter u lq sp n w0 = (r0, w1) ->
             (calls w0 <= calls w1 <= calls w0 + 3)%nat).
  { intros u n w0 r0 w1 C.
    destruct (check_world u lq sp n w0) as (rd & wd & r1 & w1' & D & C' & Hw).
    rewrite C in C'. injection C' as -> ->. apply download_calls in D.
    destruct Hw as [-> | ->]; simpl; lia. }
  destruct (search_cases url term lq sp w)
    as [E | (pg & link & L & S & M & F &
             [(q & w1 & C & E) | (q & w1 & r & w2 & C & D & E)])].
  - exists w. split; [exact E | lia].
  - exists w1. split; [exact E|]. apply G in C. lia.
  - exists w2. split; [exact E|]. apply G in C. apply download_calls in D. lia.
Qed.

(** ** The name of the file *)

Lemma split_no_sep sep s :
  Text.contains (String sep EmptyString) s = false -> Text.split sep s = [s].
Proof.
  induction s as [|c s IH]; [reflexivity|].
  cbn [Text.contains Text.split String.prefix]. intros H.
  apply orb_false_iff in H as [Hp Hc].
  destruct (Ascii.eqb_spec c sep) as [->|Hne].
  - destruct (ascii_dec sep sep); [|congruence]. destruct s; discriminate.
  - rewrite (IH Hc). reflexivity.
Qed.

Lemma split_app sep a : forall b,
  Text.split sep (a +:+ String sep b) = Text.split sep a ++ Text.split sep b.
Proof.
  induction a as [|c a IH]; intros b.
  - simpl. rewrite Ascii.eqb_refl. reflexivity.
  - cbn [String.append Text.split]. rewrite IH.
    destruct (Ascii.eqb c sep); [reflexivity|].
    destruct (Text.split sep a) as [|p ps] eqn:E; [|reflexivity].
    now apply split_nonempty in E.
Qed.

(** X11: the file name is the text after the last slash of the link, and a
    link without a slash is its own file name. *)
Theorem file_name_is_last_segment (dir name : string) :
  Text.contains "/" name = false ->
  file_name_of (dir +:+ "/" +:+ name) = name /\ file_name_of name = name.
Proof.
  intros H. unfold file_name_of. split.
  - change (dir +:+ "/" +:+ name) with (dir +:+ String "/" name).
    rewrite split_app, (split_no_sep _ _ H). apply last_last.
  - now rewrite (split_no_sep _ _ H).
Qed.

Lemma file_name_is_last_segment_witness :
  file_name_of ("/path/to" +:+ "/" +:+ "file.xlsx") = "file.xlsx"
  /\ file_name_of "file.xlsx" = "file.xlsx".
Proof.
  apply (file_name_is_last_segment "/path/to" "file.xlsx"). reflexivity.
Defined.

(** ** The first of the greatest *)

Section FirstMax.
Context {A K : Type}.
Variable key : A -> result K.
Variable gt : K -> K -> bool.
Hypothesis gt_trans : forall x y z, gt y x = true -> gt z y = true -> gt z x = true.
Hypothesis le_gt_trans : forall x y z, gt x y = false -> gt z y = true -> gt z x = true.

Lemma max_loop_first items : forall m km r,
  key m = Ok km ->
  max_loop key gt m km items = Ok r ->
  exists kr before after,
    key r = Ok kr /\ m :: items = before ++ r :: after
    /\ Forall (fun x => exists kx, key x = Ok kx /\ gt kr kx = true) before
    /\ Forall (fun x => exists kx, key x = Ok kx /\ gt kx kr = false) after.
Proof.
  induction items as [|x items IH]; simpl; intros m km r Hm H.
  - injection H as <-. exists km, [], []. repeat split; auto.
  - destruct (key x) as [kx|e] eqn:Hx; [|discriminate].
    destruct (gt kx km) eqn:Hgt.
    + destruct (IH _ _ _ Hx H) as (kr & b & a & Hr & E & Hb & Ha).
      exists kr, (m :: b), a. split; [exact Hr|]. split; [simpl; now rewrite E|].
      split; [|exact Ha]. constructor; [|exact Hb].
      exists km. split; [exact Hm|].
      destruct b as [|x' b]; simpl in E; injection E as <- E.
      * assert (kr = kx) by congruence. now subst.
      * apply Forall_cons in Hb as [(kx' & Hx' & Hlt) _].
        assert (kx' = kx) by congruence. subst. eapply gt_trans; eauto.
    + destruct (IH _ _ _ Hm H) as (kr & b & a & Hr & E & Hb & Ha).
      destruct b as [|m' b]; simpl in E; injection E as <- E.
      * assert (kr = km) by congruence. subst.
        exists km, [], (x :: a). split; [exact Hr|]. split; [reflexivity|].
        split; [constructor|]. constructor; [|exact Ha]. exists kx. auto.
      * exists kr, (m :: x :: b), a. split; [exact Hr|].
        split; [simpl; now rewrite E|]. split; [|exact Ha].
        pose proof Hb as Hb'. apply Forall_cons in Hb' as [(km' & Hm' & Hlt) Hb'].
        assert (km' = km) by congruence. subst.
        constructor; [exists km; auto|]. constructor; [|exact Hb'].
        exists kx. split; [exact Hx|]. eapply le_gt_trans; eauto.
Qed.

Lemma py_max_first items r :
  py_max key gt items = Ok r ->
  exists kr before after,
    key r = Ok kr /\ items = before ++ r :: after
    /\ Forall (fun x => exists kx, key x = Ok kx /\ gt kr kx = true) before
    /\ Forall (fun x => exists kx, key x = Ok kx /\ gt kx kr = false) after.
Proof.
  unfold py_max. destruct items as [|x items]; [discriminate|].
  destruct (key x) as [kx|e] eqn:Hx; [|discriminate]. now apply max_loop_first.
Qed.

Lemma max_loop_total items : forall m km,
  Forall (fun x => exists kx, key x = Ok kx) items ->
  exists r, max_loop key gt m km items = Ok r.
Proof.
  induction items as [|x items IH]; simpl; intros m km H; [eauto|].
  apply Forall_cons in H as [[kx Hx] H]. rewrite Hx.
  destruct (gt kx km); auto.
Qed.

Lemma py_max_total items :
  items <> [] ->
  Forall (fun x => exists kx, key x = Ok kx) items ->
  exists r, py_max key gt items = Ok r.
Proof.
  unfold py_max. destruct items as [|x items]; [congruence|]. intros _ H.
  apply Forall_cons in H as [[kx Hx] H]. rewrite Hx. now apply max_loop_total.
Qed.

End FirstMax.

(** ** The listings *)

(** X12: the transformation picks the entry of the listing with the
    greatest modification time, the first one in listing order when several
    share it, whatever its name or extension; on an empty listing [max]
    raises the ValueError of the empty sequence. *)
Theorem most_recent_file_is_chosen (file_list : list Store.FileInfo) :
  match Store.file_name file_list with
  | Ok n =>
      exists before f after,
        file_list = before ++ f :: after /\ n = Store.name f
        /\ Forall (fun x => Store.modificationTime x < Store.modificationTime f) before
        /\ Forall (fun x => Store.modificationTime x <= Store.modificationTime f) after
  | Raise e => file_list = [] /\ e = ValueError "max() arg is an empty sequence"
  end.
Proof.
  unfold Store.file_name.
  destruct (py_max _ Z.gtb file_list) as [f|e] eqn:E.
  - apply py_max_first in E as (kf & before & after & [= <-] & -> & Hb & Ha).
    + exists before, f, after. repeat split; auto.
      * eapply Forall_impl; [exact Hb|]. intros x (kx & [= <-] & H). simpl in H. lia.
      * eapply Forall_impl; [exact Ha|]. intros x (kx & [= <-] & H). simpl in H. lia.
    + intros x y z. lia.
    + intros x y z. lia.
  - destruct file_list as [|f l]; simpl in E; [now injection E as <-|].
    destruct (max_loop_total (fun f => Ok (Store.modificationTime f)) Z.gtb l f
                (Store.modificationTime f)) as [r Hr]; [|congruence].
    apply List.Forall_forall. eauto.
Qed.

Lemma tuple_gt_trans x y z :
  tuple_gt y x = true -> tuple_gt z y = true -> tuple_gt z x = true.
Proof.
  unfold tuple_gt. destruct x, y, z. simpl.
  rewrite !orb_true_iff, !andb_true_iff, !Z.ltb_lt, !Z.eqb_eq. lia.
Qed.

Lemma tuple_le_gt_trans x y z :
  tuple_gt x y = false -> tuple_gt z y = true -> tuple_gt z x = true.
Proof.
  unfold tuple_gt. destruct x, y, z. simpl.
  rewrite orb_false_iff, andb_false_iff, !orb_true_iff, !andb_true_iff,
    !Z.ltb_lt, !Z.ltb_ge, !Z.eqb_eq, Z.eqb_neq. lia.
Qed.

(** X13: [max] over the quarter columns of the gate raises only when there
    is no quarter column; otherwise it returns the leftmost column among
    those with the greatest (year, quarter): every column before it is
    strictly older and no column after it is newer. *)
Theorem latest_quarter_is_leftmost_greatest (columns : list string) :
  match latest_quarter_in_file columns with
  | Ok q =>
      exists kq before after,
        column_key q = Ok kq
        /\ Quarter.quarter_columns columns = before ++ q :: after
        /\ Forall (fun c => exists k, column_key c = Ok k /\ tuple_gt kq k = true) before
        /\ Forall (fun c => exists k, column_key c = Ok k /\ tuple_le k kq) after
  | Raise e =>
      Quarter.quarter_columns columns = []
      /\ e = ValueError "max() arg is an empty sequence"
  end.
Proof.
  unfold latest_quarter_in_file.
  destruct (py_max column_key tuple_gt (Quarter.quarter_columns columns)) as [q|e] eqn:E.
  - apply py_max_first in E as (kq & before & after & Hq & -> & Hb & Ha);
      [|apply tuple_gt_trans | apply tuple_le_gt_trans].
    exists kq, before, after. repeat split; auto.
    eapply Forall_impl; [exact Ha|]. intros c (k & Hk & H). exists k. split; [exact Hk|].
    now apply tuple_gt_false.
  - destruct (Quarter.quarter_columns columns) as [|c l] eqn:Q.
    { simpl in E. now injection E as <-. }
    destruct (py_max_total column_key tuple_gt (c :: l)) as [r Hr]; [congruence| |congruence].
    apply List.Forall_forall. intros x Hx. rewrite <- Q in Hx.
    apply quarter_column_parses in Hx as (t & _ & Ht). eauto.
Qed.

(** ** Suffixes *)

Lemma rev_app_spec s : forall t, String.rev_app s t = String.rev s +:+ t.
Proof.
  unfold String.rev. induction s as [|c s IH]; intros t; [reflexivity|].
  simpl. rewrite IH, (IH (String c EmptyString)), append_assoc. reflexivity.
Qed.

Lemma string_rev_append a b : String.rev (a +:+ b) = String.rev b +:+ String.rev a.
Proof.
  induction a as [|c a IH]; simpl.
  - now rewrite append_nil_r.
  - unfold String.rev at 1 3. simpl. rewrite !rev_app_spec, IH, append_assoc. reflexivity.
Qed.

Lemma string_rev_involutive s : String.rev (String.rev s) = s.
Proof.
  induction s as [|c s IH]; [reflexivity|].
  unfold String.rev at 2. simpl. rewrite rev_app_spec, string_rev_append, IH. reflexivity.
Qed.

Lemma string_prefix_iff p : forall s,
  String.prefix p s = true <-> exists t, s = p +:+ t.
Proof.
  induction p as [|c p IH]; intros s.
  - destruct s; simpl; split; eauto.
  - destruct s as [|c' s]; simpl.
    + split; [discriminate | intros [t H]; discriminate].
    + destruct (ascii_dec c c') as [<-|Hne].
      * rewrite IH. split; intros [t H]; exists t; congruence.
      * split; [discriminate | intros [t H]; congruence].
Qed.

Lemma endswith_iff s suffix :
  Text.endswith s suffix = true <-> exists stem, s = stem +:+ suffix.
Proof.
  unfold Text.endswith. rewrite string_prefix_iff. split.
  - intros [t H]. exists (String.rev t).
    rewrite <- (string_rev_involutive s), H, string_rev_append, string_rev_involutive. reflexivity.
  - intros [stem ->]. exists (String.rev stem). apply string_rev_append.
Qed.

(** X14: the search for the part file returns the path of the first entry
    of the listing whose name ends in [.csv], and nothing when no name does;
    the file is moved, to [csv_save_path], exactly when that path is found
    and is not the empty text. *)
Theorem part_file_is_first_csv (files : list Store.FileInfo) :
  match Store.part_file_path files with
  | Some p =>
      exists before f after stem,
        files = before ++ f :: after /\ p = Store.path f
        /\ Store.name f = stem +:+ ".csv"
        /\ Forall (fun x => forall stem', Store.name x <> stem' +:+ ".csv") before
  | None => Forall (fun x => forall stem', Store.name x <> stem' +:+ ".csv") files
  end
  /\ (Store.part_file_move files = None
      <-> Store.part_file_path files = None
          \/ Store.part_file_path files = Some EmptyString)
  /\ (forall src dst,
        Store.part_file_move files = Some (src, dst) ->
        Store.part_file_path files = Some src /\ dst = Store.csv_save_path).
Proof.
  split; [|split].
  - induction files as [|f files IH]; simpl; [constructor|].
    destruct (Text.endswith (Store.name f) ".csv") eqn:E.
    + apply endswith_iff in E as [stem E]. exists [], f, files, stem. auto.
    + assert (Hf : forall stem', Store.name f <> stem' +:+ ".csv").
      { intros stem' H.
        assert (Text.endswith (Store.name f) ".csv" = true)
          by (apply endswith_iff; eauto).
        congruence. }
      destruct (Store.part_file_path files) as [p|].
      * destruct IH as (before & g & after & stem & -> & -> & Hg & Hb).
        exists (f :: before), g, after, stem. auto.
      * constructor; auto.
  - unfold Store.part_file_move.
    destruct (Store.part_file_path files) as [[|c p]|]; split; auto; try discriminate.
    intros [H | H]; discriminate.
  - unfold Store.part_file_move. intros src dst.
    destruct (Store.part_file_path files) as [[|c p]|]; try discriminate.
    intros [= <- <-]. auto.
Qed.

(** ** The newest entry of the directory *)

(** X26: the entry of the listing that is strictly newer than all others is
    the file the transformation reads, whatever it is; the CSV of the last
    cell is stored in the listed directory itself, so when it is the newest
    entry the next run takes it for the workbook. *)
Theorem newest_entry_is_read_whatever_it_is
    (file_list : list Store.FileInfo) (f : Store.FileInfo) :
  In f file_list ->
  (forall g, In g file_list ->
             g = f \/ Store.modificationTime g < Store.modificationTime f) ->
  Store.file_name file_list = Ok (Store.name f)
  /\ Store.csv_save_path
     = Store.listing_dir +:+ "/" +:+ "TransformedEnergyData.csv".
Proof.
  intros Hf Hnew. split; [|reflexivity]. unfold Store.file_name.
  destruct (py_max _ Z.gtb file_list) as [r|e] eqn:E.
  - apply py_max_first in E as (kr & before & after & [= <-] & -> & Hb & Ha);
      [|intros x y z; lia | intros x y z; lia].
    assert (Hr : r = f \/ Store.modificationTime r < Store.modificationTime f).
    { apply Hnew, in_or_app. right. now left. }
    destruct Hr as [-> | Hr]; [reflexivity|]. exfalso.
    apply in_app_or in Hf as [Hf | [-> | Hf]].
    + apply (proj1 (List.Forall_forall _ _) Hb) in Hf as (k & [= <-] & Hk). lia.
    + lia.
    + apply (proj1 (List.Forall_forall _ _) Ha) in Hf as (k & [= <-] & Hk). lia.
  - destruct file_list as [|g l]; [contradiction|]. simpl in E.
    destruct (max_loop_total (fun f => Ok (Store.modificationTime f)) Z.gtb l g
                (Store.modificationTime g)) as [r Hr]; [|congruence].
    apply List.Forall_forall. eauto.
Qed.

Lemma newest_entry_is_read_whatever_it_is_witness :
  Store.file_name Directory.after_a_run = Ok "TransformedEnergyData.csv"
  /\ Store.csv_save_path
     = Store.listing_dir +:+ "/" +:+ "TransformedEnergyData.csv".
Proof.
  apply (newest_entry_is_read_whatever_it_is Directory.after_a_run
           {| Store.path := "dbfs:/FileStore/tables/final_data_petroineous/TransformedEnergyData.csv";
              Store.name := "TransformedEnergyData.csv"; Store.size := 4000;
              Store.modificationTime := 1730600900000 |}).
  - right. left. reflexivity.
  - intros g [<- | [<- | []]]; [right; reflexivity | left; reflexivity].
Defined.

(** ** More on the reshaper *)

Lemma list_map_lookup {A B} (f : A -> B) (l : list A) (i : nat) :
  List.map f l !! i = option_map f (l !! i).
Proof.
  revert i. induction l as [|x l IH]; intros [|i]; simpl; auto.
Qed.

Lemma list_combine_lookup {A B} (l : list A) (k : list B) (i : nat) a b :
  l !! i = Some a -> k !! i = Some b -> combine l k !! i = Some (a, b).
Proof.
  revert k i. induction l as [|x l IH]; intros [|y k] [|i]; simpl; try discriminate.
  - now intros [= ->] [= ->].
  - apply IH.
Qed.

Lemma lookup_concat_const {A} (ls : list (list A)) (n : nat) :
  Forall (fun l => length l = n) ls ->
  forall i j l, ls !! i = Some l -> (j < n)%nat ->
                List.concat ls !! (i * n + j)%nat = l !! j.
Proof.
  induction 1 as [|l0 ls Hl _ IH]; intros i j l Hi Hj; [destruct i; discriminate|].
  destruct i as [|i]; simpl in *.
  - injection Hi as ->. apply lookup_app_l. lia.
  - rewrite lookup_app_r by lia. rewrite <- (IH i j l Hi Hj). f_equal. lia.
Qed.

Section Reshaper.
Context {value : Type} `{EqDecision value}.
Variable vadd : value -> value -> value.
Variable of_long : Z -> value.
Variable cast_double : string -> option value.
Variable mono_id : nat -> Z.

Abbreviation DataFrame := (@DataFrame value).
Abbreviation cell := (@cell value).

(** X19: renaming is idempotent: [rename_columns] applied to its own result
    changes nothing. *)
Theorem rename_columns_idempotent (df : DataFrame) :
  rename_columns (rename_columns df) = rename_columns df.
Proof.
  destruct (rename_columns_spec (rename_columns df)) as [Hc Hr].
  destruct (rename_columns_spec df) as [Hc0 Hr0].
  rewrite Hc0 in Hc. rewrite List.map_map in Hc.
  assert (Hc' : columns (rename_columns (rename_columns df)) = columns (rename_columns df)).
  { rewrite Hc, Hc0. apply map_ext. intros c. apply new_col_name_idempotent. }
  destruct (rename_columns (rename_columns df)), (rename_columns df).
  simpl in *. congruence.
Qed.

Lemma resolve_all_lookup names (cols : list string) idx :
  resolve_all names cols = Ok idx ->
  forall j n, names !! j = Some n ->
              exists i, idx !! j = Some i /\ resolve n cols = Ok i.
Proof.
  revert idx. induction names as [|n0 names IH]; simpl; intros idx H j n Hj.
  - destruct j; discriminate.
  - destruct (resolve n0 cols) as [i0|] eqn:R0; [|discriminate].
    destruct (resolve_all names cols) as [idx'|]; [|discriminate].
    injection H as <-. destruct j as [|j]; simpl in *.
    + injection Hj as <-. eauto.
    + eapply IH; eauto.
Qed.

Lemma unpivot_rows (df out : DataFrame) qcols :
  unpivot df qcols = Ok out ->
  exists c s idx,
    resolve "Category" (columns df) = Ok c
    /\ resolve "Sub_Category" (columns df) = Ok s
    /\ resolve_all qcols (columns df) = Ok idx
    /\ columns out = ["Category"; "Sub_Category"; "Quarter"; "Quantity"]
    /\ rows out
       = List.concat
           (List.map
              (fun r => List.map
                          (fun qi : string * nat =>
                             [at_ r c; at_ r s; Str (fst qi); at_ r (snd qi)])
                          (combine qcols idx))
              (rows df)).
Proof.
  unfold unpivot.
  destruct (resolve "Category" (columns df)) as [c|]; [|discriminate].
  destruct (resolve "Sub_Category" (columns df)) as [s|]; [|discriminate].
  destruct (resolve_all qcols (columns df)) as [idx|] eqn:Hidx; [|discriminate].
  destruct qcols as [|q qcols]; [discriminate|]. intros [= <-].
  exists c, s, idx. repeat split; auto.
Qed.

Lemma unpivot_lookup (df out : DataFrame) qcols i r j q :
  unpivot df qcols = Ok out ->
  rows df !! i = Some r -> qcols !! j = Some q ->
  exists cat sub v,
    cell_of df "Category" r = Some cat /\ cell_of df "Sub_Category" r = Some sub
    /\ cell_of df q r = Some v
    /\ rows out !! (i * length qcols + j)%nat = Some [cat; sub; Str q; v].
Proof.
  intros H Hr Hq.
  apply unpivot_rows in H as (c & s & idx & Rc & Rs & Ridx & _ & ->).
  destruct (resolve_all_lookup _ _ _ Ridx j q Hq) as (iq & Hiq & Rq).
  exists (at_ r c), (at_ r s), (at_ r iq). unfold cell_of. rewrite Rc, Rs, Rq.
  repeat split; auto.
  pose proof (resolve_all_length _ _ _ Ridx) as Hlen.
  rewrite (lookup_concat_const _ (length qcols)) with
    (l := List.map (fun qi : string * nat =>
                      [at_ r c; at_ r s; Str (fst qi); at_ r (snd qi)])
            (combine qcols idx)).
  - rewrite list_map_lookup, (list_combine_lookup _ _ _ _ _ Hq Hiq). reflexivity.
  - apply List.Forall_forall. intros l Hl. apply List.in_map_iff in Hl as (r' & <- & _).
    rewrite length_map, length_combine, Hlen. apply Nat.min_id.
  - rewrite list_map_lookup, Hr. reflexivity.
  - apply lookup_lt_Some in Hq. exact Hq.
Qed.

Lemma withColumn_lit_new_lookup (df : DataFrame) name v i r :
  has_column name (columns df) = false ->
  rows df !! i = Some r ->
  rows (withColumn_lit df name v) !! i = Some (r ++ [v])
  /\ columns (withColumn_lit df name v) = columns df ++ [name].
Proof.
  intros Hh Hr. unfold withColumn_lit, set_column. rewrite Hh. simpl.
  rewrite list_lookup_imap, Hr. auto.
Qed.

(** X18: whenever the notebook runs through, the long table holds at
    position [i * n + j] (with [n] quarter columns) the row made of the
    Category and the Sub_Category of the [i]-th row of [final_df], the name
    of the [j]-th quarter column, the value of that row in that column, the
    file name and the date; and the name of a quarter column is all
    digits. *)
Theorem long_table_cell
    (sheet : DataFrame) (file_name today : string) (nb : @notebook value)
    (i j : nat) (r : list cell) (q : string) :
  transform vadd of_long cast_double mono_id sheet file_name today = Ok nb ->
  rows (final_df nb) !! i = Some r ->
  Frame.quarter_columns nb !! j = Some q ->
  Text.isdigit q = true
  /\ exists cat sub v,
       cell_of (df_renamed nb) "Category" r = Some cat
       /\ cell_of (df_renamed nb) "Sub_Category" r = Some sub
       /\ cell_of (df_renamed nb) q r = Some v
       /\ rows (finalDF nb) !! (i * length (Frame.quarter_columns nb) + j)%nat
          = Some [cat; sub; Str q; v; Str file_name; Str today].
Proof.
  intros H Hr Hq. apply transform_inv in H as (Hren & Hqc & Hun & Hfin & _).
  split.
  { apply list_elem_of_lookup_2, list_elem_of_In in Hq. rewrite Hqc in Hq.
    apply filter_In in Hq as [_ Hq]. exact Hq. }
  assert (Hr' : rows (df_renamed nb) !! i = Some r).
  { rewrite Hren. destruct (rename_columns_spec (final_df nb)) as [_ ->]. exact Hr. }
  destruct (unpivot_lookup _ _ _ _ _ _ _ Hun Hr' Hq) as (cat & sub & v & Hc & Hs & Hv & Hl).
  exists cat, sub, v. repeat split; auto.
  pose proof (unpivot_count _ _ _ Hun) as [_ Hcols].
  rewrite Hfin.
  assert (H1 : has_column "FileName" (columns (df_unpivot nb)) = false)
    by (rewrite Hcols; reflexivity).
  destruct (withColumn_lit_new_lookup (df_unpivot nb) "FileName" (Str file_name) _ _ H1 Hl)
    as [Hl1 Hc1].
  assert (H2 : has_column "ProcessedDate"
                 (columns (withColumn_lit (df_unpivot nb) "FileName" (Str file_name)))
               = false)
    by (rewrite Hc1, Hcols; reflexivity).
  destruct (withColumn_lit_new_lookup _ "ProcessedDate" (Str today) _ _ H2 Hl1)
    as [Hl2 _].
  simpl in Hl2. exact Hl2.
Qed.

Lemma transform_steps (sheet : DataFrame) file_name today nb :
  transform vadd of_long cast_double mono_id sheet file_name today = Ok nb ->
  exists d0 d1 d2 ind sm,
    load mono_id sheet = Ok d0 /\ clean_category d0 = Ok d1
    /\ add_sub_category d1 = Ok d2 /\ update_category d2 = Ok (spark_df nb)
    /\ indigenous_of (spark_df nb) = Ok ind
    /\ summed_of vadd of_long cast_double ind = Ok sm
    /\ final_of (spark_df nb) sm = Ok (final_df nb).
Proof.
  unfold transform, bind_r.
  destruct (load mono_id sheet) as [d0|] eqn:E0; [|discriminate].
  destruct (clean_category d0) as [d1|] eqn:E1; [|discriminate].
  destruct (add_sub_category d1) as [d2|] eqn:E2; [|discriminate].
  destruct (update_category d2) as [d3|] eqn:E3; [|discriminate].
  destruct (indigenous_of d3) as [ind|] eqn:E4; [|discriminate].
  destruct (summed_of vadd of_long cast_double ind) as [sm|] eqn:E5; [|discriminate].
  destruct (final_of d3 sm) as [fdf|] eqn:E6; [|discriminate].
  destruct (unpivot _ _); [|discriminate].
  intros [= <-]. cbn [spark_df final_df]. exists d0, d1, d2, ind, sm. auto 10.
Qed.

Lemma neq_true (a b : cell) : neq a b = true -> a <> Null /\ a <> b.
Proof.
  unfold neq. destruct a, b; try discriminate; intros Hn;
    apply negb_true_iff, bool_decide_eq_false in Hn; split; congruence.
Qed.

Lemma final_of_rows (spark sm fdf : DataFrame) :
  final_of spark sm = Ok fdf ->
  exists s uidx,
    resolve "Sub_Category" (columns spark) = Ok s
    /\ resolve_all (columns spark) (columns sm) = Ok uidx
    /\ columns fdf = columns spark
    /\ rows fdf
       = List.filter (fun r => not_superseded (at_ r s) (at_ r s))
           (rows spark ++ List.map (fun r => List.map (at_ r) uidx) (rows sm)).
Proof.
  unfold final_of, bind_r, unionByName.
  destruct (resolve_all (columns spark) (columns spark)); [|discriminate].
  destruct (resolve_all (columns spark) (columns sm)) as [uidx|]; [|discriminate].
  destruct (Nat.eqb _ _); [|discriminate].
  unfold filter2. cbn [columns rows].
  destruct (resolve "Sub_Category" (columns spark)) as [s|]; [|discriminate].
  intros [= <-]. exists s, uidx. auto.
Qed.

(** X16: whenever the notebook runs through, no row of [final_df] has the
    Sub_Category [Indigenous production_Crude oil] or
    [Indigenous production_NGLs], nor a null Sub_Category. *)
Theorem final_rows_not_superseded
    (sheet : DataFrame) (file_name today : string) (nb : @notebook value)
    (r : list cell) :
  transform vadd of_long cast_double mono_id sheet file_name today = Ok nb ->
  In r (rows (final_df nb)) ->
  exists c,
    cell_of (final_df nb) "Sub_Category" r = Some c
    /\ c <> Null
    /\ c <> Str "Indigenous production_Crude oil"
    /\ c <> Str "Indigenous production_NGLs".
Proof.
  intros H Hr.
  apply transform_steps in H as (_ & _ & _ & _ & sm & _ & _ & _ & _ & _ & _ & H).
  apply final_of_rows in H as (s & uidx & Rs & _ & Hc & Hrows).
  rewrite Hrows in Hr. apply filter_In in Hr as [_ Hp].
  unfold not_superseded in Hp. apply andb_true_iff in Hp as [H1 H2].
  apply neq_true in H1 as [Hn H1]. apply neq_true in H2 as [_ H2].
  exists (at_ r s). unfold cell_of. rewrite Hc, Rs. auto.
Qed.

End Reshaper.

(** ** Column references, by position *)

Lemma nth_error_is_lookup {A} (l : list A) i : nth_error l i = l !! i.
Proof. revert i. induction l as [|x l IH]; intros [|i]; simpl; auto. Qed.

Lemma resolve_lookup name cols i : resolve name cols = Ok i -> cols !! i = Some name.
Proof. intros H. rewrite <- nth_error_is_lookup. now apply resolve_nth. Qed.

Lemma resolve_unique name cols i j :
  resolve name cols = Ok i -> cols !! j = Some name -> j = i.
Proof.
  intros H Hj. apply resolve_positions in H.
  assert (Hin : In j (positions name cols 0)).
  { apply positions_nth. rewrite Nat.sub_0_r, nth_error_is_lookup. split; [lia | exact Hj]. }
  rewrite H in Hin. destruct Hin as [<- | []]. reflexivity.
Qed.

Lemma resolve_app_last name cols :
  has_column name cols = false -> resolve name (cols ++ [name]) = Ok (length cols).
Proof.
  intros Hh. apply resolve_positions. rewrite positions_app.
  rewrite (positions_absent _ _ Hh). simpl. now rewrite String.eqb_refl.
Qed.

Lemma resolve_app_other name other cols i :
  name <> other -> resolve name (cols ++ [other]) = Ok i -> resolve name cols = Ok i.
Proof.
  intros Hne H. apply resolve_positions in H. apply resolve_positions.
  rewrite positions_app in H. simpl in H.
  destruct (String.eqb_spec other name); [congruence|]. now rewrite app_nil_r in H.
Qed.

(** The columns the notebook sums: all but the two text columns. *)
Lemma columns_to_sum_spec (cols : list string) n :
  In n (List.filter
          (fun c => negb (String.eqb c "Category" || String.eqb c "Sub_Category")) cols)
  <-> In n cols /\ n <> "Category" /\ n <> "Sub_Category".
Proof.
  rewrite filter_In, negb_true_iff, orb_false_iff, !String.eqb_neq. tauto.
Qed.

Lemma no_sub_category_among_sums (cols : list string) :
  has_column "Sub_Category"
    ("Category"
     :: List.filter
          (fun c => negb (String.eqb c "Category" || String.eqb c "Sub_Category")) cols)
  = false.
Proof.
  unfold has_column. cbn [existsb].
  change (String.eqb "Sub_Category" "Category") with false. cbn [orb].
  apply not_true_iff_false. intros Hex.
  apply existsb_exists in Hex as (x & Hx & E). apply String.eqb_eq in E. subst x.
  apply columns_to_sum_spec in Hx. tauto.
Qed.

Section Aggregate.
Context {value : Type} `{EqDecision value}.
Variable vadd : value -> value -> value.
Variable of_long : Z -> value.
Variable cast_double : string -> option value.
Variable mono_id : nat -> Z.

Abbreviation DataFrame := (@DataFrame value).
Abbreviation cell := (@cell value).

Lemma at_lookup (r : list cell) i : at_ r i = default Null (r !! i).
Proof. unfold at_. apply nth_lookup. Qed.

Lemma at_map {A} (F : A -> cell) (l : list A) j x :
  l !! j = Some x -> at_ (List.map F l) j = F x.
Proof.
  intros H. rewrite (at_lookup (List.map _ _)).
  revert j H. induction l as [|x0 l IH]; intros [|j] Hj; simpl in *; try discriminate.
  - now injection Hj as ->.
  - now apply IH.
Qed.

Lemma distinct_const (k : cell) l :
  Forall (eq k) l -> l <> [] -> distinct l = [k].
Proof.
  induction 1 as [|x l <- Hl IH]; intros Hne; [congruence|].
  simpl. destruct l as [|y l]; [reflexivity|].
  rewrite IH by discriminate. simpl. now rewrite bool_decide_eq_true_2.
Qed.

Lemma filter_all_true {A} (p : A -> bool) l :
  Forall (fun x => p x = true) l -> List.filter p l = l.
Proof.
  induction 1 as [|x l Hx _ IH]; simpl; [reflexivity|]. now rewrite Hx, IH.
Qed.

Lemma indigenous_of_rows (spark ind : DataFrame) :
  indigenous_of spark = Ok ind ->
  exists c s,
    resolve "Category" (columns spark) = Ok c
    /\ resolve "Sub_Category" (columns spark) = Ok s
    /\ columns ind = columns spark
    /\ rows ind = List.filter (fun r => is_indigenous (at_ r c) (at_ r s)) (rows spark).
Proof.
  unfold indigenous_of, filter2.
  destruct (resolve "Category" (columns spark)) as [c|]; [|discriminate].
  destruct (resolve "Sub_Category" (columns spark)) as [s|]; [|discriminate].
  intros [= <-]. exists c, s. auto.
Qed.

Lemma summed_of_rows (ind sm : DataFrame) c :
  resolve "Category" (columns ind) = Ok c ->
  Forall (fun r => at_ r c = Str "Indigenous production") (rows ind) ->
  summed_of vadd of_long cast_double ind = Ok sm ->
  exists cts idx,
    cts = List.filter
            (fun c => negb (String.eqb c "Category" || String.eqb c "Sub_Category"))
            (columns ind)
    /\ resolve_all cts (columns ind) = Ok idx
    /\ columns sm = ("Category" :: cts) ++ ["Sub_Category"]
    /\ rows sm
       = match rows ind with
         | [] => []
         | _ :: _ =>
             [(Str "Indigenous production"
               :: List.map (fun i => spark_sum vadd of_long cast_double
                                       (List.map (fun r => at_ r i) (rows ind))) idx)
              ++ [Str "Indigenous production_Crude Oil & NGLs"]]
         end.
Proof.
  intros Rc Hall. unfold summed_of, bind_r, groupBy_sum. rewrite Rc.
  set (cts := List.filter _ (columns ind)).
  destruct (resolve_all cts (columns ind)) as [idx|] eqn:Ridx; [|discriminate].
  intros [= <-]. exists cts, idx. split; [reflexivity|]. split; [exact Ridx|].
  assert (Hh : has_column "Sub_Category" ("Category" :: cts) = false)
    by apply no_sub_category_among_sums.
  unfold withColumn_lit, set_column. cbn [columns rows]. rewrite Hh. cbn [columns rows].
  split; [reflexivity|].
  destruct (rows ind) as [|r0 rs] eqn:Hrows; [reflexivity|].
  rewrite (distinct_const (Str "Indigenous production")).
  - cbn [List.map imap]. rewrite filter_all_true; [reflexivity|].
    eapply Forall_impl; [exact Hall|]. intros r Hr. cbn beta.
    now rewrite Hr, bool_decide_eq_true_2.
  - apply List.Forall_forall. intros k Hk. apply List.in_map_iff in Hk as (r & <- & Hr).
    symmetry. exact (proj1 (List.Forall_forall _ _) Hall r Hr).
  - discriminate.
Qed.

(** X17: whenever the notebook runs through, [final_df] has the columns of
    [spark_df], and its rows are the rows of [spark_df] that pass the last
    filter, in their order, followed by at most one aggregate row.  There is
    none when no row of [spark_df] passes the Indigenous production filter;
    otherwise there is exactly one, with Category [Indigenous production]
    and Sub_Category [Indigenous production_Crude Oil & NGLs]. *)
Theorem aggregate_row
    (sheet : DataFrame) (file_name today : string) (nb : @notebook value) :
  transform vadd of_long cast_double mono_id sheet file_name today = Ok nb ->
  exists c s,
    resolve "Category" (columns (spark_df nb)) = Ok c
    /\ resolve "Sub_Category" (columns (spark_df nb)) = Ok s
    /\ columns (final_df nb) = columns (spark_df nb)
    /\ let members :=
         List.filter (fun r => is_indigenous (at_ r c) (at_ r s)) (rows (spark_df nb)) in
       let kept :=
         List.filter (fun r => not_superseded (at_ r s) (at_ r s)) (rows (spark_df nb)) in
       match members with
       | [] => rows (final_df nb) = kept
       | _ :: _ =>
           exists a,
             rows (final_df nb) = kept ++ [a]
             /\ at_ a c = Str "Indigenous production"
             /\ at_ a s = Str "Indigenous production_Crude Oil & NGLs"
       end.
Proof.
  intros H.
  apply transform_steps in H as (_ & _ & _ & ind & sm & _ & _ & _ & _ & Hind & Hsm & Hfin).
  apply indigenous_of_rows in Hind as (c & s & Rc & Rs & Hcols & Hrows).
  exists c, s. split; [exact Rc|]. split; [exact Rs|].
  pose proof Rc as Rc0.
  assert (Hall : Forall (fun r => at_ r c = Str "Indigenous production") (rows ind)).
  { rewrite Hrows. apply List.Forall_forall. intros r Hr. apply filter_In in Hr as [_ Hr].
    unfold is_indigenous in Hr. apply andb_true_iff in Hr as [Hr _].
    apply andb_true_iff in Hr as [Hr _]. now apply bool_decide_eq_true in Hr. }
  rewrite <- Hcols in Rc.
  destruct (summed_of_rows ind sm c Rc Hall Hsm) as (cts & idx & Hcts & Ridx & Hsc & Hsr).
  apply final_of_rows in Hfin as (s' & uidx & Rs' & Ruidx & Hfc & Hfr).
  assert (s' = s) by congruence. subst s'.
  split; [exact Hfc|]. cbn zeta. rewrite <- Hrows.
  rewrite Hfr, List.filter_app, Hsr.
  destruct (rows ind) as [|m ms] eqn:Hmem; [simpl; now rewrite app_nil_r|].
  set (F := fun i => spark_sum vadd of_long cast_double
                       (List.map (fun r : list cell => at_ r i) (m :: ms))).
  set (grow := Str "Indigenous production" :: List.map F idx).
  set (v := Str "Indigenous production_Crude Oil & NGLs" : cell).
  set (a := List.map (at_ (grow ++ [v])) uidx).
  assert (Hlen : length grow = length ("Category" :: cts)).
  { unfold grow. simpl. rewrite length_map. f_equal.
    eapply resolve_all_length, Ridx. }
  assert (Hh : has_column "Sub_Category" ("Category" :: cts) = false)
    by (rewrite Hcts; apply no_sub_category_among_sums).
  assert (Hcell : forall n j,
             resolve n (columns (spark_df nb)) = Ok j ->
             at_ a j
             = if String.eqb n "Category" then Str "Indigenous production"
               else if String.eqb n "Sub_Category" then v else F j).
  { intros n j Rn.
    destruct (resolve_all_lookup _ _ _ Ruidx j n (resolve_lookup _ _ _ Rn))
      as (i & Hi & Ri).
    unfold a. rewrite (at_map _ _ _ _ Hi). rewrite Hsc in Ri.
    destruct (String.eqb_spec n "Sub_Category") as [->|Hns].
    - rewrite (resolve_app_last _ _ Hh), <- Hlen in Ri. injection Ri as <-.
      change (String.eqb "Sub_Category" "Category") with false.
      change (String.eqb "Sub_Category" "Sub_Category") with true. cbn iota.
      apply at_app_end.
    - apply resolve_app_other in Ri; [|exact Hns].
      pose proof (resolve_lookup _ _ _ Ri) as Li.
      rewrite at_app_l by (rewrite Hlen; eapply lookup_lt_Some, Li).
      destruct (String.eqb_spec n "Category") as [->|Hnc].
      + assert (0%nat = i) by (eapply resolve_unique; [exact Ri | reflexivity]).
        subst i. reflexivity.
      + destruct i as [|p]; [simpl in Li; congruence|]. simpl in Li.
        destruct (resolve_all_lookup _ _ _ Ridx p n Li) as (ip & Hip & Rip).
        rewrite Hcols in Rip. assert (ip = j) by congruence. subst ip.
        unfold grow. change (at_ (?x :: ?l) (S p)) with (at_ l p).
        apply (at_map F _ _ _ Hip). }
  pose proof (Hcell "Sub_Category" s Rs) as Hs.
  change (String.eqb "Sub_Category" "Category") with false in Hs.
  change (String.eqb "Sub_Category" "Sub_Category") with true in Hs.
  cbn iota in Hs.
  pose proof (Hcell "Category" c Rc0) as Hc.
  change (String.eqb "Category" "Category") with true in Hc. cbn iota in Hc.
  exists a. split; [|split; [exact Hc | exact Hs]].
  f_equal.
  change (List.filter (fun r : list cell => not_superseded (at_ r s) (at_ r s)) [a] = [a]).
  cbn [List.filter]. rewrite Hs. unfold not_superseded, neq, v.
  rewrite !bool_decide_eq_false_2 by discriminate. reflexivity.
Qed.

End Aggregate.

(** ** Loading the sheet *)

Lemma has_column_false name cols : ~ In name cols -> has_column name cols = false.
Proof.
  intros Hn. unfold has_column. apply not_true_iff_false. intros Hex.
  apply existsb_exists in Hex as (x & Hx & E). apply String.eqb_eq in E. now subst.
Qed.

Lemma has_column_true name cols : In name cols -> has_column name cols = true.
Proof.
  intros Hn. unfold has_column. apply existsb_exists. exists name.
  split; [exact Hn | apply String.eqb_refl].
Qed.

Lemma positions_nodup name cols : forall i k,
  NoDup cols -> cols !! i = Some name -> positions name cols k = [(k + i)%nat].
Proof.
  induction cols as [|c0 cols IH]; intros i k Hnd Hi; [destruct i; discriminate|].
  apply NoDup_cons in Hnd as [Hc0 Hnd]. rewrite list_elem_of_In in Hc0.
  destruct i as [|i]; simpl in *.
  - injection Hi as ->. rewrite String.eqb_refl, Nat.add_0_r.
    now rewrite (positions_absent _ _ (has_column_false _ _ Hc0)).
  - destruct (String.eqb_spec c0 name) as [->|Hne].
    + exfalso. apply Hc0. rewrite <- nth_error_is_lookup in Hi.
      eapply nth_error_In, Hi.
    + rewrite (IH i (S k) Hnd Hi). f_equal. lia.
Qed.

Lemma resolve_nodup name cols i :
  NoDup cols -> cols !! i = Some name -> resolve name cols = Ok i.
Proof.
  intros Hnd Hi. apply resolve_positions. now rewrite (positions_nodup _ _ i 0%nat).
Qed.

Lemma resolve_all_seq cols : NoDup cols ->
  forall names k,
    (forall j n, names !! j = Some n -> cols !! (k + j)%nat = Some n) ->
    resolve_all names cols = Ok (seq k (length names)).
Proof.
  intros Hnd. induction names as [|n names IH]; intros k Hk; [reflexivity|].
  simpl. rewrite (resolve_nodup n cols k Hnd).
  - rewrite (IH (S k)); [reflexivity|]. intros j m Hj.
    replace (S k + j)%nat with (k + S j)%nat by lia. now apply Hk.
  - specialize (Hk 0%nat n eq_refl). now rewrite Nat.add_0_r in Hk.
Qed.

Lemma resolve_all_self cols :
  NoDup cols -> resolve_all cols cols = Ok (seq 0 (length cols)).
Proof. intros Hnd. apply resolve_all_seq; auto. Qed.

Lemma replace_space_none s :
  Text.contains " " (Text.replace " " "_" s) = false.
Proof.
  unfold Text.replace. induction s as [|c s IH]; [reflexivity|].
  cbn [Text.replace_go String.prefix String.length Nat.pred].
  destruct (ascii_dec " " c) as [<-|Hne].
  - destruct s; cbn [String.append]; cbn [Text.contains String.prefix];
      (destruct (ascii_dec " " "_"); [discriminate|]); exact IH.
  - cbn [Text.contains String.prefix].
    destruct (ascii_dec " " c); [contradiction|]. exact IH.
Qed.

Lemma header_name_no_space c : Text.contains " " (header_name c) = false.
Proof.
  unfold header_name.
  destruct (String.eqb (Text.replace " " "_" c) "Column1");
    [reflexivity | apply replace_space_none].
Qed.

Section Load.
Context {value : Type} `{EqDecision value}.
Variable mono_id : nat -> Z.

Abbreviation DataFrame := (@DataFrame value).
Abbreviation cell := (@cell value).

Lemma map_at_seq (r : list cell) : List.map (at_ r) (seq 0 (length r)) = r.
Proof.
  unfold at_. induction r as [|x r IH]; [reflexivity|].
  cbn [length seq List.map nth]. f_equal.
  rewrite <- seq_shift, List.map_map. exact IH.
Qed.

Lemma load_rows (sheet df : DataFrame) :
  well_formed sheet ->
  NoDup (columns sheet) ->
  ~ In "id" (columns sheet) ->
  load mono_id sheet = Ok df ->
  df = {| columns := List.map header_name (columns sheet ++ ["id"]);
          rows := imap (fun i r => r ++ [Long (mono_id i)]) (rows sheet) |}
  /\ forallb plain_reference (columns sheet) = true.
Proof.
  intros Hwf Hnd Hid. unfold load, withColumn_id.
  pose proof (set_column_well_formed sheet "id" (fun i _ => Long (mono_id i)) Hwf) as Hwf0.
  unfold set_column in *. rewrite (has_column_false _ _ Hid) in *.
  unfold well_formed in Hwf0. unfold select_alias. cbn [columns rows] in *.
  rewrite List.map_map. cbn [fst snd]. rewrite List.map_id.
  destruct (forallb plain_reference (columns sheet ++ ["id"])) eqn:Hplain; [|discriminate].
  rewrite List.forallb_app in Hplain. apply andb_true_iff in Hplain as [Hplain _].
  assert (Hnd0 : NoDup (columns sheet ++ ["id"])).
  { apply NoDup_app. split; [exact Hnd|]. split; [|apply NoDup_singleton].
    intros x Hx Hx'. apply list_elem_of_In in Hx. apply list_elem_of_In in Hx'.
    destruct Hx' as [<- | []]. contradiction. }
  rewrite (resolve_all_self _ Hnd0). rewrite List.map_map. cbn [snd columns rows].
  assert (Hrows : List.map (fun r : list cell =>
                              List.map (at_ r) (seq 0 (length (columns sheet ++ ["id"]))))
                    (imap (fun i r => r ++ [Long (mono_id i)]) (rows sheet))
                  = imap (fun i r => r ++ [Long (mono_id i)]) (rows sheet)).
  { rewrite <- (List.map_id (imap _ (rows sheet))) at 2.
    apply map_ext_in. intros r Hr.
    rewrite <- (proj1 (List.Forall_forall _ _) Hwf0 r Hr). apply map_at_seq. }
  rewrite Hrows.
  destruct (has_column "Column1" _) eqn:Hc; unfold withColumnRenamed; cbn [columns rows];
    intros [= <-]; (split; [|exact Hplain]); f_equal.
  - rewrite List.map_map. reflexivity.
  - apply map_ext_in. intros c Hin. unfold header_name.
    destruct (String.eqb_spec (Text.replace " " "_" c) "Column1") as [E|]; [|reflexivity].
    exfalso. apply not_true_iff_false in Hc. apply Hc, has_column_true.
    rewrite <- E. apply in_map_iff. eauto.
Qed.

Lemma lower_id_not_in (cols : list string) :
  Forall (fun c => Text.lower c <> "id") cols -> ~ In "id" cols.
Proof.
  intros H Hin. apply (proj1 (List.Forall_forall _ _) H) in Hin. now apply Hin.
Qed.

(** X15: lines 260-269 on a rectangular sheet whose column names are
    distinct and none of which is [id] in any letter case.  Whenever these
    lines succeed, the rows are the rows of the sheet with the id of their
    position appended, in the same order; every column keeps its place under
    its name with underscores for spaces, [Column1] under the name
    [Category]; no column name has a space left and none is [Column1]; and
    no column name of the sheet has a dot, which [col] would read as the
    access to a field. *)
Theorem load_spec (sheet df : DataFrame) :
  well_formed sheet ->
  NoDup (columns sheet) ->
  Forall (fun c => Text.lower c <> "id") (columns sheet) ->
  load mono_id sheet = Ok df ->
  columns df = List.map header_name (columns sheet) ++ ["id"]
  /\ rows df = imap (fun i r => r ++ [Long (mono_id i)]) (rows sheet)
  /\ count df = count sheet
  /\ Forall (fun c => Text.contains " " c = false) (columns df)
  /\ ~ In "Column1" (columns df)
  /\ Forall (fun c => Text.contains "." c = false) (columns sheet).
Proof.
  intros Hwf Hnd Hid Hload.
  apply (load_rows sheet df Hwf Hnd (lower_id_not_in _ Hid)) in Hload as [-> Hplain].
  cbn [columns rows]. rewrite List.map_app.
  split; [reflexivity|]. split; [reflexivity|].
  split; [unfold count; cbn [rows]; apply length_imap|].
  split; [|split].
  - apply List.Forall_forall. intros c Hc. apply in_app_or in Hc as [Hc | [<- | []]].
    + apply in_map_iff in Hc as (c0 & <- & _). apply header_name_no_space.
    + reflexivity.
  - intros Hin. apply in_app_or in Hin as [Hc | [Hc | []]]; [|discriminate].
    apply in_map_iff in Hc as (c0 & Hc & _). unfold header_name in Hc.
    destruct (String.eqb_spec (Text.replace " " "_" c0) "Column1"); [discriminate | auto].
  - apply List.Forall_forall. intros c Hc.
    apply (proj1 (forallb_forall _ _) Hplain) in Hc. unfold plain_reference in Hc.
    apply negb_true_iff, orb_false_iff in Hc. tauto.
Qed.

End Load.


Section Runs.
Context {value : Type} `{EqDecision value}.

Abbreviation DataFrame := (@DataFrame value).
Abbreviation cell := (@cell value).

Lemma set_column_columns (df : DataFrame) name f :
  columns (set_column df name f)
  = if has_column name (columns df) then columns df else columns df ++ [name].
Proof. unfold set_column. now destruct (has_column name (columns df)). Qed.

End Runs.

(** ** Rows by position *)

Section Position.
Context {value : Type} `{EqDecision value}.
Variable vadd : value -> value -> value.
Variable of_long : Z -> value.
Variable cast_double : string -> option value.
Variable mono_id : nat -> Z.

Abbreviation DataFrame := (@DataFrame value).
Abbreviation cell := (@cell value).




End Position.

(** ** What a run that goes through says about the sheet *)

Lemma resolve_all_each names (cols : list string) idx :
  resolve_all names cols = Ok idx ->
  forall x, In x names -> exists i, resolve x cols = Ok i.
Proof.
  intros H x Hx. apply list_elem_of_In, list_elem_of_lookup_1 in Hx as [j Hj].
  destruct (resolve_all_lookup _ _ _ H j x Hj) as (i & _ & Hi). eauto.
Qed.

Lemma filter_nodup_resolved (p : string -> bool) (cols : list string) :
  forall suf pre,
    cols = pre ++ suf ->
    (forall x, In x (List.filter p suf) -> exists i, resolve x cols = Ok i) ->
    NoDup (List.filter p suf).
Proof.
  induction suf as [|c suf IH]; intros pre E Hres; [constructor|].
  assert (Hrec : NoDup (List.filter p suf)).
  { apply (IH (pre ++ [c])); [now rewrite <- app_assoc|].
    intros x Hx. apply Hres. simpl. destruct (p c); [right|]; exact Hx. }
  simpl in *. destruct (p c) eqn:Hp; [|exact Hrec].
  apply NoDup_cons. split; [|exact Hrec].
  intros Hin. apply list_elem_of_In, filter_In in Hin as [Hin _].
  apply list_elem_of_In, list_elem_of_lookup_1 in Hin as [k Hk].
  destruct (Hres c) as [i Hi]; [now left|].
  assert (H1 : cols !! length pre = Some c).
  { rewrite E, lookup_app_r, Nat.sub_diag by lia. reflexivity. }
  assert (H2 : cols !! (length pre + S k)%nat = Some c).
  { rewrite E, lookup_app_r by lia.
    replace (length pre + S k - length pre)%nat with (S k) by lia. exact Hk. }
  apply (resolve_unique _ _ _ _ Hi) in H1. apply (resolve_unique _ _ _ _ Hi) in H2. lia.
Qed.

Section Necessary.
Context {value : Type} `{EqDecision value}.
Variable vadd : value -> value -> value.
Variable of_long : Z -> value.
Variable cast_double : string -> option value.
Variable mono_id : nat -> Z.

Abbreviation DataFrame := (@DataFrame value).
Abbreviation cell := (@cell value).

Lemma load_columns (sheet df : DataFrame) :
  load mono_id sheet = Ok df ->
  columns df = List.map header_name (columns (withColumn_id mono_id sheet)).
Proof.
  unfold load, select_alias.
  destruct (forallb plain_reference _); [|discriminate].
  destruct (resolve_all _ _) as [idx|]; [|discriminate].
  rewrite List.map_map. cbn [snd columns].
  destruct (has_column "Column1" _) eqn:Hc; intros [= <-];
    unfold withColumnRenamed; cbn [columns].
  - rewrite List.map_map. reflexivity.
  - apply map_ext_in. intros c Hin. unfold header_name.
    destruct (String.eqb_spec (Text.replace " " "_" c) "Column1") as [E|]; [|reflexivity].
    exfalso. apply not_true_iff_false in Hc. apply Hc, has_column_true.
    rewrite <- E. apply in_map_iff. eauto.
Qed.

Lemma withColumn1_same (df df' : DataFrame) name f :
  withColumn1 df name name f = Ok df' -> columns df' = columns df.
Proof.
  unfold withColumn1. destruct (resolve name (columns df)) as [i|] eqn:R; [|discriminate].
  intros [= <-]. rewrite set_column_columns. now rewrite (resolve_has _ _ _ R).
Qed.

Lemma spark_columns (sheet : DataFrame) file_name today nb x :
  transform vadd of_long cast_double mono_id sheet file_name today = Ok nb ->
  In x (columns (final_df nb)) ->
  x = "Sub_Category" \/ x = "id" \/ exists c, In c (columns sheet) /\ x = header_name c.
Proof.
  intros H Hx.
  apply transform_steps in H as (d0 & d1 & d2 & ind & sm & E0 & E1 & E2 & E3 & _ & _ & E6).
  apply final_of_rows in E6 as (_ & _ & _ & _ & C6 & _). rewrite C6 in Hx.
  unfold update_category, withColumn2 in E3.
  destruct (resolve "Sub_Category" (columns d2)); [|discriminate].
  destruct (resolve "Category" (columns d2)) as [c2|] eqn:R2; [|discriminate].
  injection E3 as E3. rewrite <- E3, set_column_columns, (resolve_has _ _ _ R2) in Hx.
  unfold add_sub_category, withColumn2 in E2.
  destruct (resolve "id" (columns d1)); [|discriminate].
  destruct (resolve "Category" (columns d1)); [|discriminate].
  injection E2 as E2. rewrite <- E2, set_column_columns in Hx.
  assert (Hx1 : x = "Sub_Category" \/ In x (columns d1)).
  { destruct (has_column "Sub_Category" (columns d1)); [auto|].
    apply in_app_or in Hx as [Hx | [<- | []]]; auto. }
  destruct Hx1 as [-> | Hx1]; [auto|]. right.
  unfold clean_category, bind_r in E1.
  destruct (withColumn1 d0 "Category" "Category" trim) as [d0'|] eqn:E1a; [|discriminate].
  apply withColumn1_same in E1. apply withColumn1_same in E1a.
  rewrite E1, E1a, (load_columns _ _ E0) in Hx1.
  apply in_map_iff in Hx1 as (c & <- & Hc).
  unfold withColumn_id in Hc. rewrite set_column_columns in Hc.
  destruct (has_column "id" (columns sheet)); [eauto|].
  apply in_app_or in Hc as [Hc | [<- | []]]; [eauto | auto].
Qed.

(** X25: a run that goes through has at least one quarter column, no two
    quarter columns with the same name, and every quarter column is a column
    of the sheet under its final name, which is all digits: a sheet without
    such a column, or with two columns that get the same digits, makes the
    notebook fail. *)
Theorem quarter_columns_of_a_run
    (sheet : DataFrame) (file_name today : string) (nb : @notebook value) :
  transform vadd of_long cast_double mono_id sheet file_name today = Ok nb ->
  Frame.quarter_columns nb <> []
  /\ NoDup (Frame.quarter_columns nb)
  /\ Forall (fun q => Text.isdigit q = true
                      /\ exists c, In c (columns sheet)
                                   /\ q = new_col_name (header_name c))
       (Frame.quarter_columns nb).
Proof.
  intros H. pose proof (transform_inv _ _ _ _ _ _ _ _ H) as (Hren & Hq & Hun & _).
  split; [|split].
  - intros E. rewrite E in Hun. unfold unpivot in Hun.
    destruct (resolve "Category" _); [|discriminate].
    destruct (resolve "Sub_Category" _); [|discriminate].
    destruct (resolve_all [] _); discriminate.
  - apply unpivot_rows in Hun as (_ & _ & idx & _ & _ & Ridx & _).
    rewrite Hq in *.
    apply (filter_nodup_resolved _ (columns (df_renamed nb)) _ []); [reflexivity|].
    eapply resolve_all_each, Ridx.
  - apply List.Forall_forall. intros q Hin. rewrite Hq in Hin.
    apply filter_In in Hin as [Hin Hd]. split; [exact Hd|].
    rewrite Hren in Hin. destruct (rename_columns_spec (final_df nb)) as [Hc _].
    rewrite Hc in Hin. apply in_map_iff in Hin as (x & <- & Hx).
    destruct (spark_columns _ _ _ _ _ H Hx) as [-> | [-> | (c & Hc' & ->)]].
    + discriminate Hd.
    + discriminate Hd.
    + eauto.
Qed.

End Necessary.

Lemma quarter_columns_of_a_run_witness :
  Frame.quarter_columns sample_notebook <> []
  /\ NoDup (Frame.quarter_columns sample_notebook)
  /\ Forall (fun q => Text.isdigit q = true
                      /\ exists c, In c (columns sample_sheet)
                                   /\ q = new_col_name (header_name c))
       (Frame.quarter_columns sample_notebook).
Proof.
  apply (quarter_columns_of_a_run Z.add (fun n => n) (fun _ => None) Z.of_nat
           sample_sheet "ET_3.1.xlsx" "03/11/2026" sample_notebook).
  vm_compute. reflexivity.
Defined.

(** ** From the page to the store *)

(** X22: when the workbook behind the selected link is downloaded by the
    gate and its newest quarter is not later than the stored one, nothing is
    stored under [excel_save_path]: the DBFS entry
    [<excel_save_path>/<name>] is what it was before the call (for an
    [excel_save_path] other than the scratch path of the gate). *)
Theorem no_newer_quarter_no_store
    (url term lq sp : string) (w w1 : world) (pg : page) (link : string)
    (hdr : list string) (q0 : string) (newest known : Z * Z) :
  listing w url = Ok pg ->
  find_excel_link (hrefs pg) = Some link ->
  download_excel_file (absolute_url link) (scratch_path (file_name_of link))
    (file_name_of link) w = (Ok tt, w1) ->
  local_fs w1 !! scratch_path (file_name_of link) = Some (Workbook (Some hdr)) ->
  latest_quarter_in_file (normalize_header hdr) = Ok q0 ->
  quarter_to_tuple q0 = Ok newest ->
  quarter_to_tuple (Text.strip lq) = Ok known ->
  tuple_le newest known ->
  sp <> scratch_path (file_name_of link) ->
  dbfs (snd (search_for_energy_trend url term lq sp w)) !! (sp +:+ "/" +:+ file_name_of link)
  = dbfs w !! (sp +:+ "/" +:+ file_name_of link).
Proof.
  intros L F D Hl Hmax Hq Hk Hle Hsp.
  assert (Hne : sp +:+ "/" +:+ file_name_of link
                <> scratch_path (file_name_of link) +:+ "/" +:+ file_name_of link).
  { intros E. apply Hsp.
    apply (f_equal String.rev) in E. rewrite !string_rev_append in E.
    apply String.app_inj in E. apply (f_equal String.rev) in E.
    now rewrite !string_rev_involutive in E. }
  destruct (search_cases url term lq sp w)
    as [E | (pg' & link' & L' & S & M & F' &
             [(q & w2 & C & E) | (q & w2 & r & w3 & C & _ & _)])].
  - now rewrite E.
  - rewrite E. cbn [snd]. rewrite L in L'. injection L' as <-.
    rewrite F in F'. injection F' as <-.
    apply check_frame in C as (_ & Db & _). now apply Db.
  - exfalso. rewrite L in L'. injection L' as <-. rewrite F in F'. injection F' as <-.
    destruct (check_cases (absolute_url link) lq sp (file_name_of link) w)
      as [[w' H] | (q' & w1' & w' & hdr' & newest' & known' & H & D' & Hl' & Hmax' & Hq'
                    & Hk' & Hgt & _)];
      rewrite C in H; [discriminate|].
    rewrite D in D'. injection D' as <-. rewrite Hl in Hl'. injection Hl' as <-.
    unfold latest_quarter_in_file in Hmax. rewrite Hmax in Hmax'. injection Hmax' as <-.
    rewrite Hq in Hq'. injection Hq' as <-. rewrite Hk in Hk'. injection Hk' as <-.
    apply tuple_gt_true in Hgt. contradiction.
Qed.

Lemma no_newer_quarter_no_store_witness :
  dbfs (snd (search_for_energy_trend "https://www.gov.uk/statistics"
               "Supply and use of crude oil" "2024 2nd quarter" "/FileStore/tables"
               (site (fun _ => answers 200 two_quarters))))
    !! ("/FileStore/tables" +:+ "/" +:+ file_name_of "/media/ET_3.1.xlsx")
  = dbfs (site (fun _ => answers 200 two_quarters))
      !! ("/FileStore/tables" +:+ "/" +:+ file_name_of "/media/ET_3.1.xlsx").
Proof.
  apply (no_newer_quarter_no_store "https://www.gov.uk/statistics"
           "Supply and use of crude oil" "2024 2nd quarter" "/FileStore/tables"
           (site (fun _ => answers 200 two_quarters))
           (downloaded "https://www.gov.uk/media/ET_3.1.xlsx" "ET_3.1.xlsx" two_quarters
              (site (fun _ => answers 200 two_quarters)))
           listing_page "/media/ET_3.1.xlsx"
           ["Column1"; "2023 1st quarter"; "2024 2nd quarter"]
           "2024 2nd quarter" (2024, 2) (2024, 2)).
  - reflexivity.
  - reflexivity.
  - reflexivity.
  - reflexivity.
  - reflexivity.
  - reflexivity.
  - reflexivity.
  - right. simpl. lia.
  - discriminate.
Defined.

(** ** The reported quarter as the next last-known quarter *)

Lemma drop_while_end_keeps p c t :
  p c = false ->
  Text.drop_while_end p (String c t) = String c (Text.drop_while_end p t).
Proof. intros Hc. simpl. rewrite Hc. now destruct (Text.drop_while_end p t). Qed.

Lemma drop_while_end_app p s : forall c t,
  p c = false ->
  Text.drop_while_end p (s +:+ String c t) = s +:+ String c (Text.drop_while_end p t).
Proof.
  induction s as [|a s IH]; intros c t Hc.
  - now apply drop_while_end_keeps.
  - cbn [String.append Text.drop_while_end]. rewrite (IH c t Hc).
    now destruct s.
Qed.

Lemma digit_not_space c : re_digit c = true -> py_space c = false.
Proof. destruct c as [[] [] [] [] [] [] [] []]; vm_compute; congruence. Qed.

Lemma label_split ys ns sfx rest :
  label_text ys ns sfx +:+ rest
  = (ys +:+ " " +:+ ns +:+ sfx +:+ " quarte") +:+ String "r" rest.
Proof.
  unfold label_text. rewrite !append_assoc. simpl. reflexivity.
Qed.

Lemma strip_label ys ns sfx rest :
  label_shape ys ns sfx ->
  Text.strip (label_text ys ns sfx +:+ rest)
  = label_text ys ns sfx +:+ Text.drop_while_end py_space rest.
Proof.
  intros (Hl & Hd & _). unfold Text.strip.
  assert (Hdw : Text.drop_while py_space (label_text ys ns sfx +:+ rest)
                = label_text ys ns sfx +:+ rest).
  { destruct ys as [|c ys]; [discriminate|]. simpl in Hd.
    apply andb_prop in Hd as [Hc _]. unfold label_text. cbn [String.append Text.drop_while].
    now rewrite (digit_not_space c Hc). }
  rewrite Hdw, label_split, drop_while_end_app by reflexivity.
  now rewrite <- label_split.
Qed.

Lemma quarter_to_tuple_strip s t :
  quarter_to_tuple s = Ok t -> quarter_to_tuple (Text.strip s) = Ok t.
Proof.
  destruct t as [y n]. intros H.
  apply quarter_to_tuple_ok in H as (ys & ns & sfx & rest & -> & Hsh & Hy & Hn).
  rewrite (strip_label _ _ _ _ Hsh). apply quarter_to_tuple_prefix.
  eexists ys, ns, sfx, _. auto.
Qed.

Lemma tuple_gt_irrefl t : tuple_gt t t = false.
Proof. apply tuple_gt_false. unfold tuple_le. lia. Qed.

(** X23: the quarter the gate reports with [True] can be stored as the next
    last-known quarter: it is the newest quarter column in the header of the
    workbook that the download of this very call left at the scratch path;
    it parses, also after [strip]; and a later call of the gate with it, on a
    workbook with the same header, answers [(False, q)] and deletes its
    scratch copy. *)
Theorem reported_quarter_feeds_back (url lq sp name q : string) (w w' : world) :
  check_excel_for_latest_quarter url lq sp name w = (Ok (true, q), w') ->
  exists w1 hdr newest,
    download_excel_file url (scratch_path name) name w = (Ok tt, w1)
    /\ local_fs w1 !! scratch_path name = Some (Workbook (Some hdr))
    /\ latest_quarter_in_file (normalize_header hdr) = Ok q
    /\ quarter_to_tuple (Text.strip q) = Ok newest
    /\ forall w2 w3,
         download_excel_file url (scratch_path name) name w2 = (Ok tt, w3) ->
         local_fs w3 !! scratch_path name = Some (Workbook (Some hdr)) ->
         check_excel_for_latest_quarter url q sp name w2
         = (Ok (false, q), set_local_fs (delete (scratch_path name) (local_fs w3)) w3).
Proof.
  intros H.
  destruct (check_cases url lq sp name w)
    as [[w0 H0] | (q' & w1 & w0 & hdr & newest & known & H0 & D0 & F0 & Hmax & Hq & _)];
    rewrite H in H0; [discriminate|]. injection H0 as <- <-.
  exists w1, hdr, newest. split; [exact D0|]. split; [exact F0|]. split; [exact Hmax|].
  pose proof (quarter_to_tuple_strip _ _ Hq) as Hqs. split; [exact Hqs|].
  intros w2 w3 D F.
  unfold check_excel_for_latest_quarter, try_except, bind. unfold scratch_path in *.
  rewrite D. unfold read_excel_columns. rewrite F. unfold lift.
  rewrite Hmax, Hq, Hqs, tuple_gt_irrefl. unfold os_remove. rewrite F. reflexivity.
Qed.

Lemma reported_quarter_feeds_back_witness :
  exists w1 hdr newest,
    download_excel_file "u" (scratch_path "f.xlsx") "f.xlsx"
      (new_world (fun _ => answers 200 two_quarters)) = (Ok tt, w1)
    /\ local_fs w1 !! scratch_path "f.xlsx" = Some (Workbook (Some hdr))
    /\ latest_quarter_in_file (normalize_header hdr) = Ok "2024 2nd quarter"
    /\ quarter_to_tuple (Text.strip "2024 2nd quarter") = Ok newest
    /\ forall w2 w3,
         download_excel_file "u" (scratch_path "f.xlsx") "f.xlsx" w2 = (Ok tt, w3) ->
         local_fs w3 !! scratch_path "f.xlsx" = Some (Workbook (Some hdr)) ->
         check_excel_for_latest_quarter "u" "2024 2nd quarter" "/s" "f.xlsx" w2
         = (Ok (false, "2024 2nd quarter"),
            set_local_fs (delete (scratch_path "f.xlsx") (local_fs w3)) w3).
Proof.
  apply (reported_quarter_feeds_back "u" "2023 1st quarter" "/s" "f.xlsx"
           "2024 2nd quarter" (new_world (fun _ => answers 200 two_quarters))
           (set_local_fs
              (delete (scratch_path "f.xlsx")
                 (local_fs (downloaded "u" "f.xlsx" two_quarters
                              (new_world (fun _ => answers 200 two_quarters)))))
              (downloaded "u" "f.xlsx" two_quarters
                 (new_world (fun _ => answers 200 two_quarters))))).
  reflexivity.
Defined.

(** ** Note references in the category *)

Lemma span_unique p a1 : forall a2 c1 r1 c2 r2,
  Text.forallb p a1 = true -> Text.forallb p a2 = true ->
  p c1 = false -> p c2 = false ->
  a1 +:+ String c1 r1 = a2 +:+ String c2 r2 ->
  a1 = a2 /\ String c1 r1 = String c2 r2.
Proof.
  induction a1 as [|x a1 IH]; intros [|y a2] c1 r1 c2 r2 H1 H2 Hc1 Hc2 E; simpl in *.
  - auto.
  - injection E as <- _. apply andb_prop in H2 as [H2 _]. congruence.
  - injection E as <- _. apply andb_prop in H1 as [H1 _]. congruence.
  - injection E as <- E. apply andb_prop in H1 as [_ H1]. apply andb_prop in H2 as [_ H2].
    destruct (IH _ _ _ _ _ H1 H2 Hc1 Hc2 E) as [-> ->]. auto.
Qed.

Lemma matches_note_re t g :
  matches note_re t g ->
  exists ws ws' ds, t = note_text ws ws' ds /\ note_shape ws ws' ds.
Proof.
  unfold note_re, Plus. intros M. invert_matches.
  match goal with H : matches (Cls _) _ _ |- _ => inversion H; subst; clear H end.
  match goal with
  | |- exists ws ws' ds,
         ?a +:+ _ +:+ ?b +:+ (String ?c EmptyString +:+ ?d) +:+ _ = _ /\ _ =>
      exists a, b, (String c d)
  end.
  unfold note_text, note_shape. simpl.
  repeat split; auto; try discriminate.
  match goal with H : java_digit _ = true |- _ => now rewrite H end.
Qed.

Lemma note_re_matches ws ws' ds :
  note_shape ws ws' ds -> matches note_re (note_text ws ws' ds) [].
Proof.
  intros (H1 & H2 & H3 & Hne). unfold note_re, note_text, Plus.
  destruct ds as [|d ds]; [congruence|]. simpl in H3. apply andb_prop in H3 as [Hd Hds].
  change (@nil string) with (@nil string ++ [] ++ [] ++ ([] ++ []) ++ []).
  apply m_cat; [now apply m_star|].
  apply m_cat; [apply lit_matches|].
  apply m_cat; [now apply m_star|].
  change (String d ds +:+ "]") with ((String d EmptyString +:+ ds) +:+ "]").
  apply m_cat; [|constructor].
  apply m_cat; [now apply m_cls | now apply m_star].
Qed.

Lemma note_prefix_unique ws ws' ds rest t rest' :
  note_shape ws ws' ds ->
  (exists g, matches note_re t g) ->
  note_text ws ws' ds +:+ rest = t +:+ rest' ->
  rest' = rest.
Proof.
  intros (H1 & H2 & H3 & Hne) [g M] E.
  apply matches_note_re in M as (vs & vs' & es & -> & (G1 & G2 & G3 & Gne)).
  assert (Hsp : forall c, java_digit c = true -> java_space c = false).
  { intros c. destruct c as [[] [] [] [] [] [] [] []]; vm_compute; congruence. }
  destruct ds as [|d ds]; [congruence|]. destruct es as [|e es]; [congruence|].
  simpl in H3, G3. apply andb_prop in H3 as [Hd H3]. apply andb_prop in G3 as [He G3].
  unfold note_text in E. rewrite !append_assoc in E. simpl in E.
  apply (span_unique java_space) in E as [-> E]; try assumption; try reflexivity.
  injection E as E.
  apply (span_unique java_space) in E as [-> E]; try assumption; auto.
  injection E as _ E.
  apply (span_unique java_digit) in E as [_ E]; try assumption; try reflexivity.
  now injection E as ->.
Qed.

Lemma sub_go_skip r repl m : forall s,
  sub_go r repl (String.length m) (m +:+ s) = sub_go r repl 0 s.
Proof.
  induction m as [|c m IH]; intros s; [reflexivity|].
  cbn [String.length String.append]. rewrite <- IH. reflexivity.
Qed.

Lemma note_is_cut ws ws' ds rest :
  note_shape ws ws' ds ->
  sub_go note_re EmptyString 0 (note_text ws ws' ds +:+ rest)
  = sub_go note_re EmptyString 0 rest.
Proof.
  intros Hsh. pose proof (note_re_matches _ _ _ Hsh) as M.
  destruct (re_match note_re (note_text ws ws' ds +:+ rest)) as [[caps rest']|] eqn:E.
  2:{ unfold re_match in E.
      pose proof (run_complete _ _ _ _ E _ _ _ eq_refl M) as Hk. discriminate. }
  pose proof E as E'. unfold re_match in E'.
  apply run_sound in E' as (t & s' & g & Ht & Mt & Hk). injection Hk as _ Hs'. subst s'.
  assert (rest' = rest) by (eapply note_prefix_unique; eauto). subst rest'.
  assert (Hlen : (String.length (note_text ws ws' ds +:+ rest) - String.length rest)%nat
                 = String.length (note_text ws ws' ds)).
  { rewrite length_append. lia. }
  destruct (note_text ws ws' ds) as [|c m] eqn:Hn.
  { unfold note_text in Hn. destruct ws; discriminate. }
  cbn [String.append sub_go]. cbn [String.append] in E. rewrite E.
  cbn [String.append] in Hlen. rewrite Hlen. cbn [String.length String.append].
  apply sub_go_skip.
Qed.

Lemma note_match_inv s x :
  re_match note_re s = Some x ->
  exists u, Text.drop_while java_space s = String "[" u.
Proof.
  unfold re_match. intros H.
  apply run_sound in H as (t & s' & g & -> & M & _).
  apply matches_note_re in M as (ws & ws' & ds & -> & (Hws & _)).
  unfold note_text. rewrite !append_assoc.
  induction ws as [|c ws IH]; simpl in *.
  - eauto.
  - apply andb_prop in Hws as [-> Hws]. auto.
Qed.

Lemma java_space_py c : java_space c = true -> py_space c = true.
Proof. destruct c as [[] [] [] [] [] [] [] []]; vm_compute; congruence. Qed.

Lemma solid_first_java t rest :
  solid t = true ->
  exists c u, Text.drop_while java_space (t +:+ rest) = String c u /\ c <> "["%char.
Proof.
  induction t as [|c t IH]; [discriminate|]. intros H.
  cbn [solid] in H. apply andb_prop in H as [Hc Ht].
  assert (c <> "["%char).
  { intros ->. discriminate. }
  simpl. destruct (java_space c) eqn:Hsp.
  - destruct t; [|auto]. apply java_space_py in Hsp. rewrite Hsp in Ht. discriminate.
  - eauto.
Qed.

Lemma sub_go_solid_note t : forall rest,
  solid t = true ->
  sub_go note_re EmptyString 0 (t +:+ rest)
  = t +:+ sub_go note_re EmptyString 0 rest.
Proof.
  induction t as [|c t IH]; [discriminate|]. intros rest Ht.
  assert (Hno : re_match note_re (String c t +:+ rest) = None).
  { destruct (re_match note_re (String c t +:+ rest)) eqn:E; [|reflexivity].
    apply note_match_inv in E as [u Hu].
    destruct (solid_first_java _ rest Ht) as (c' & u' & Hc & Hne). congruence. }
  change (String c t +:+ rest) with (String c (t +:+ rest)) in *.
  cbn [sub_go]. rewrite Hno. simpl. f_equal.
  destruct t as [|c' t']; [reflexivity|].
  apply IH. cbn [solid] in Ht. apply andb_prop in Ht as [_ Ht]. exact Ht.
Qed.

Section Notes.
Context {value : Type} `{EqDecision value}.

(** X24: the second step of the category cleaning removes a note reference
    (blanks, [[note], blanks, digits, []]) together with the blanks before
    it and goes on after it, and it leaves alone a text that has no opening
    bracket and does not end in white space. *)
Theorem note_reference_is_removed (a ws ws' ds rest : string) :
  solid a = true -> note_shape ws ws' ds ->
  strip_note (value:=value) (Str (a +:+ note_text ws ws' ds +:+ rest))
  = Str (a +:+ re_sub note_re EmptyString rest)
  /\ strip_note (value:=value) (Str a) = Str a.
Proof.
  intros Ha Hsh. unfold strip_note, re_sub. split; f_equal.
  - rewrite sub_go_solid_note by exact Ha. f_equal. now apply note_is_cut.
  - rewrite <- (append_nil_r a) at 1. rewrite sub_go_solid_note by exact Ha.
    simpl. apply append_nil_r.
Qed.

End Notes.

Lemma note_reference_is_removed_witness :
  strip_note (value:=Z)
    (Str ("Indigenous production" +:+ note_text " " " " "2" +:+ EmptyString))
  = Str ("Indigenous production" +:+ re_sub note_re EmptyString EmptyString)
  /\ strip_note (value:=Z) (Str "Indigenous production") = Str "Indigenous production".
Proof.
  apply (note_reference_is_removed (value:=Z) "Indigenous production" " " " " "2"
           EmptyString).
  - reflexivity.
  - repeat split; try reflexivity. discriminate.
Defined.

(** ** The sample sheet through the further properties *)

Lemma sample_sheet_well_formed : well_formed sample_sheet.
Proof. repeat constructor. Qed.

Lemma load_spec_witness :
  columns (or_else (load Z.of_nat sample_sheet) empty_frame)
  = List.map header_name (columns sample_sheet) ++ ["id"]
  /\ rows (or_else (load Z.of_nat sample_sheet) empty_frame)
     = imap (fun i r => r ++ [Long (Z.of_nat i)]) (rows sample_sheet)
  /\ count (or_else (load Z.of_nat sample_sheet) empty_frame) = count sample_sheet
  /\ Forall (fun c => Text.contains " " c = false)
       (columns (or_else (load Z.of_nat sample_sheet) empty_frame))
  /\ ~ In "Column1" (columns (or_else (load Z.of_nat sample_sheet) empty_frame))
  /\ Forall (fun c => Text.contains "." c = false) (columns sample_sheet).
Proof.
  apply (load_spec Z.of_nat sample_sheet).
  - exact sample_sheet_well_formed.
  - apply (bool_decide_unpack _). vm_compute. reflexivity.
  - repeat constructor; vm_compute; discriminate.
  - vm_compute. reflexivity.
Defined.

Lemma final_rows_not_superseded_witness :
  exists c,
    cell_of (final_df sample_notebook) "Sub_Category"
      [Str "Imports"; Dbl 20; Dbl 21; Long 4; Str "Imports"] = Some c
    /\ c <> Null
    /\ c <> Str "Indigenous production_Crude oil"
    /\ c <> Str "Indigenous production_NGLs".
Proof.
  apply (final_rows_not_superseded Z.add (fun n => n) (fun _ => None) Z.of_nat
           sample_sheet "ET_3.1.xlsx" "03/11/2026" sample_notebook).
  - vm_compute. reflexivity.
  - vm_compute. right. right. left. reflexivity.
Defined.

Lemma aggregate_row_witness :
  exists c s,
    resolve "Category" (columns (spark_df sample_notebook)) = Ok c
    /\ resolve "Sub_Category" (columns (spark_df sample_notebook)) = Ok s
    /\ columns (final_df sample_notebook) = columns (spark_df sample_notebook)
    /\ let members :=
         List.filter (fun r => is_indigenous (at_ r c) (at_ r s))
           (rows (spark_df sample_notebook)) in
       let kept :=
         List.filter (fun r => not_superseded (at_ r s) (at_ r s))
           (rows (spark_df sample_notebook)) in
       match members with
       | [] => rows (final_df sample_notebook) = kept
       | _ :: _ =>
           exists a,
             rows (final_df sample_notebook) = kept ++ [a]
             /\ at_ a c = Str "Indigenous production"
             /\ at_ a s = Str "Indigenous production_Crude Oil & NGLs"
       end.
Proof.
  apply (aggregate_row Z.add (fun n => n) (fun _ => None) Z.of_nat
           sample_sheet "ET_3.1.xlsx" "03/11/2026" sample_notebook).
  vm_compute. reflexivity.
Defined.

Lemma long_table_cell_witness :
  Text.isdigit "202402" = true
  /\ exists cat sub v,
       cell_of (df_renamed sample_notebook) "Category"
         [Str "Indigenous production"; Dbl 1; Dbl 1; Long 3;
          Str "Indigenous production_Feedstocks"] = Some cat
       /\ cell_of (df_renamed sample_notebook) "Sub_Category"
            [Str "Indigenous production"; Dbl 1; Dbl 1; Long 3;
             Str "Indigenous production_Feedstocks"] = Some sub
       /\ cell_of (df_renamed sample_notebook) "202402"
            [Str "Indigenous production"; Dbl 1; Dbl 1; Long 3;
             Str "Indigenous production_Feedstocks"] = Some v
       /\ rows (finalDF sample_notebook)
            !! (1 * length (Frame.quarter_columns sample_notebook) + 1)%nat
          = Some [cat; sub; Str "202402"; v; Str "ET_3.1.xlsx"; Str "03/11/2026"].
Proof.
  apply (long_table_cell Z.add (fun n => n) (fun _ => None) Z.of_nat
           sample_sheet "ET_3.1.xlsx" "03/11/2026" sample_notebook 1 1).
  - vm_compute. reflexivity.
  - vm_compute. reflexivity.
  - vm_compute. reflexivity.
Defined.


(** The sample, evaluated: its aggregate row. *)
Lemma sample_aggregate_row :
  List.last (rows (final_df sample_notebook)) []
  = [Str "Indigenous production"; Dbl 9; Dbl 10; Long 3;
     Str "Indigenous production_Crude Oil & NGLs"].
Proof. vm_compute. reflexivity. Qed.
